(** * SentinelWatch SIEM: a shallow embedding of the analysis pipeline

    The development follows the Python sources:
    - [backend/app/utils/helpers.py]       (time helpers),
    - [api/app/utils/geolocation.py]       (geolocation resolver),
    - [backend/app/parsing/log_parser.py]  (log parser),
    - [api/app/detection/rules.py]         (the five rules and the engine),
    - [api/app/alerting/alert_manager.py]  (alert lifecycle),
    - [api/app/ingestion/ingestion_service.py] (ingestion).

    Conventions of the embedding.
    - A Python [str] is a [string]; only the ASCII behaviour of [lower],
      [strip] and [int] is modelled.
    - A [datetime] is an integer number of microseconds since
      1970-01-01T00:00:00 (a naive UTC instant); a [timedelta] is a number of
      microseconds.
    - A Python [float] is a binary64 [PrimFloat.float]; the libm functions
      ([sin], [cos], [atan2], [pow]) are parameters of the model.
    - An exception is a value [Raise e] of the result type [res].
    - The two SQL tables are lists in insertion order; a query is a [filter].
    - Wall-clock readings ([datetime.utcnow()]) and minted identifiers
      ([uuid4]) are explicit arguments. *)

From Stdlib Require Import ZArith List String Ascii Bool Lia Floats.
From Stdlib Require Import DecimalString Decimal.
From Stdlib Require Import Sorted Permutation.
Import ListNotations.

Local Open Scope string_scope.
Local Open Scope Z_scope.

(* ================================================================== *)
(** ** Python values: exceptions, truthiness, strings *)

Inductive exn : Type :=
| ValueError
| TypeError
| AddressNotFoundError
| OtherException (name : string).

Inductive res (A : Type) : Type :=
| Ok (a : A)
| Raise (e : exn).
Arguments Ok {A} a.
Arguments Raise {A} e.

Definition bind {A B : Type} (m : res A) (k : A -> res B) : res B :=
  match m with
  | Ok a => k a
  | Raise e => Raise e
  end.

Notation "x <- m ;; k" := (bind m (fun x => k))
  (at level 61, m at next level, right associativity).

(** [bool(s)] for [s : Optional[str]]: [None] and [""] are falsy. *)
Definition truthy_str (o : option string) : bool :=
  match o with
  | Some (String _ _) => true
  | _ => false
  end.

(** [bool(x)] for [x : Optional[float]]: [None], [0.0] and [-0.0] are falsy. *)
Definition truthy_float (o : option float) : bool :=
  match o with
  | Some x => negb (PrimFloat.eqb x 0%float)
  | None => false
  end.

(** [a or b] on optional strings. *)
Definition or_str (a b : option string) : option string :=
  if truthy_str a then a else b.

(** Comparison of a nullable column with a Python value, as SQLAlchemy
    renders it: [col == None] is [col IS NULL], [col == 'v'] is [col = 'v'],
    which no NULL satisfies. *)
Definition opt_str_eqb (a b : option string) : bool :=
  match a, b with
  | None, None => true
  | Some x, Some y => String.eqb x y
  | _, _ => false
  end.

Definition is_upper (c : ascii) : bool :=
  let n := nat_of_ascii c in (65 <=? n)%nat && (n <=? 90)%nat.

Definition lower_ascii (c : ascii) : ascii :=
  if is_upper c then ascii_of_nat (nat_of_ascii c + 32) else c.

(** [s.lower()] *)
Fixpoint lower (s : string) : string :=
  match s with
  | EmptyString => EmptyString
  | String c s' => String (lower_ascii c) (lower s')
  end.

(** No cased character of [s] is uppercase. *)
Fixpoint is_lowercase (s : string) : bool :=
  match s with
  | EmptyString => true
  | String c s' => negb (is_upper c) && is_lowercase s'
  end.

(** [needle in hay] *)
Fixpoint contains (needle hay : string) : bool :=
  String.prefix needle hay ||
  match hay with
  | EmptyString => false
  | String _ hay' => contains needle hay'
  end.

(** [s[:n]] *)
Definition py_take (n : nat) (s : string) : string := String.substring 0 n s.

(** [s.split(sep)] for a one-character separator. *)
Fixpoint py_split (sep : ascii) (s : string) : list string :=
  match s with
  | EmptyString => [EmptyString]
  | String c s' =>
      if Ascii.eqb c sep then EmptyString :: py_split sep s'
      else match py_split sep s' with
           | p :: ps => String c p :: ps
           | [] => [String c EmptyString]
           end
  end.

(** ASCII characters for which [str.isspace] holds. *)
Definition is_space (c : ascii) : bool :=
  let n := nat_of_ascii c in
  ((9 <=? n)%nat && (n <=? 13)%nat) || ((28 <=? n)%nat && (n <=? 32)%nat).

Fixpoint lstrip (s : string) : string :=
  match s with
  | String c s' => if is_space c then lstrip s' else s
  | EmptyString => EmptyString
  end.

Fixpoint rstrip (s : string) : string :=
  match s with
  | EmptyString => EmptyString
  | String c s' =>
      match rstrip s' with
      | EmptyString => if is_space c then EmptyString else String c EmptyString
      | r => String c r
      end
  end.

(** [s.strip()] *)
Definition strip (s : string) : string := rstrip (lstrip s).

Definition is_digit (c : ascii) : bool :=
  let n := nat_of_ascii c in (48 <=? n)%nat && (n <=? 57)%nat.

Definition digit_val (c : ascii) : Z := Z.of_nat (nat_of_ascii c) - 48.

(** The digit part of an integer literal: decimal digits, single
    underscores allowed between digits. *)
Fixpoint int_digits (s : string) (acc : Z) (after_digit : bool) : option Z :=
  match s with
  | EmptyString => if after_digit then Some acc else None
  | String c s' =>
      if is_digit c then int_digits s' (10 * acc + digit_val c) true
      else if Ascii.eqb c "_"%char && after_digit then
        match s' with
        | String d _ => if is_digit d then int_digits s' acc false else None
        | EmptyString => None
        end
      else None
  end.

(** [int(s)]: surrounding whitespace is ignored, a sign is allowed;
    [None] stands for [ValueError]. *)
Definition py_int (s : string) : option Z :=
  match strip s with
  | String "+"%char s' => int_digits s' 0 false
  | String "-"%char s' => option_map Z.opp (int_digits s' 0 false)
  | s' => int_digits s' 0 false
  end.

(* ================================================================== *)
(** ** Instants *)

Definition instant := Z.

Definition usec_per_second : Z := 1000000.
Definition usec_per_minute : Z := 60 * usec_per_second.
Definition usec_per_hour : Z := 60 * usec_per_minute.
Definition usec_per_day : Z := 24 * usec_per_hour.

(** [timedelta(minutes=m)], [timedelta(hours=h)] *)
Definition timedelta_minutes (m : Z) : Z := m * usec_per_minute.
Definition timedelta_hours (h : Z) : Z := h * usec_per_hour.

(** [t.weekday()]: Monday is 0, Sunday is 6; 1970-01-01 was a Thursday. *)
Definition weekday (t : instant) : Z := (t / usec_per_day + 3) mod 7.

(** [t.hour] *)
Definition hour (t : instant) : Z := (t mod usec_per_day) / usec_per_hour.

(** helpers.py, [is_business_hours] *)
Definition is_business_hours (timestamp : instant) (start_hour end_hour : Z) : bool :=
  if 5 <=? weekday timestamp then false
  else
    let hour := hour timestamp in
    (start_hour <=? hour) && (hour <? end_hour).

(* ================================================================== *)
(** ** Formatted text and alert contexts

    An f-string is kept as the list of its literal and interpolated parts;
    number and date formatting is left to the reader of the value. *)

Inductive piece : Type :=
| Lit (s : string)                    (* literal text *)
| FStr (s : option string)            (* {s} *)
| FInt (z : Z)                        (* {z} *)
| FFloat (x : option float)           (* {x} *)
| FFixed (digits : nat) (x : float)   (* {x:.0f}, {x:.2f} *)
| FTime (fmt : string) (t : instant). (* {t.strftime(fmt)} *)

Definition fstring := list piece.

Inductive cval : Type :=
| VNone
| VStr (s : string)
| VInt (z : Z)
| VRound (digits : nat) (x : float)   (* round(x, digits) *)
| VIso (t : instant)                  (* t.isoformat() *)
| VText (f : fstring)
| VList (l : list string).

Definition vopt (o : option string) : cval :=
  match o with
  | Some s => VStr s
  | None => VNone
  end.

(** A Python dict with string keys, in insertion order. *)
Definition context := list (string * cval).

Fixpoint ctx_get (key : string) (c : context) : option cval :=
  match c with
  | [] => None
  | (k, v) :: c' => if String.eqb k key then Some v else ctx_get key c'
  end.

(** What a rule's [check] returns when it fires. *)
Record RuleResult : Type := {
  description : fstring;
  result_context : context
}.

(* ================================================================== *)
(** ** Data model *)

Module LogEntry.
(** Modelled from the spec: the [LogEntry] row type of
    [backend/app/models/database.py] (section 3, Event).  [username] and
    [raw_log] are nullable because the single-event API passes [None]
    through. *)
Record t : Type := {
  id : Z;
  timestamp : instant;
  source_ip : string;
  username : option string;
  event_type : string;
  status : string;
  raw_log : option string;
  source_file : option string;
  country_code : option string;
  latitude : option float;
  longitude : option float
}.
End LogEntry.

Module Alert.
(** Modelled from the spec: the [Alert] row type of
    [backend/app/models/database.py] (section 3, Alert).  [context] keeps
    the dict that the source serialises with [json.dumps]. *)
Record t : Type := {
  id : Z;
  alert_id : string;
  rule_name : string;
  severity : string;
  description : fstring;
  context : option context;
  source_ip : option string;
  username : option string;
  log_entry_id : option Z;
  triggered_at : instant;
  acknowledged : bool;
  acknowledged_by : option string;
  acknowledged_at : option instant;
  resolved : bool;
  resolved_by : option string;
  resolved_at : option instant;
  notes : option string
}.
End Alert.

(** The database session: both tables, in insertion order. *)
Record Session : Type := {
  log_entries : list LogEntry.t;
  alerts : list Alert.t
}.

(** config.py, [Settings] *)
Record Settings : Type := {
  business_hours_start : Z;
  business_hours_end : Z;
  brute_force_threshold : Z;
  brute_force_window_minutes : Z;
  ip_blacklist : string
}.

Definition default_settings : Settings := {|
  business_hours_start := 8;
  business_hours_end := 18;
  brute_force_threshold := 5;
  brute_force_window_minutes := 10;
  ip_blacklist := "10.0.0.100,192.168.1.200,172.16.0.50"
|}.

(** [query.first()] *)
Definition first {A : Type} (rows : list A) : option A := hd_error rows.

(** [query.order_by(LogEntry.timestamp.desc()).first()]: a row with the
    greatest timestamp; among equal timestamps the earliest inserted. *)
Definition latest (rows : list LogEntry.t) : option LogEntry.t :=
  fold_left
    (fun best r =>
       match best with
       | None => Some r
       | Some b => if LogEntry.timestamp b <? LogEntry.timestamp r
                   then Some r else Some b
       end)
    rows None.

(* ================================================================== *)
(** ** Geolocation resolver (geolocation.py) *)

(** The dict returned by [get_location]. *)
Record Location : Type := {
  loc_country_code : option string;
  loc_latitude : option float;
  loc_longitude : option float;
  loc_city : option string;
  loc_country_name : option string
}.

(** What [geoip_reader.city(ip)] answers. *)
Record CityResponse : Type := {
  country_iso_code : option string;
  location_latitude : option float;
  location_longitude : option float;
  city_name : option string;
  country_name : option string
}.

(** The fields read from the JSON body of the ip-api.com answer. *)
Record ApiData : Type := {
  api_status : option string;
  api_countryCode : option string;
  api_lat : option float;
  api_lon : option float;
  api_city : option string;
  api_country : option string
}.

Record HttpResponse : Type := {
  status_code : Z;
  json : res ApiData
}.

(** The outside world of the resolver: the optional GeoIP2 reader opened by
    [__init__] and [requests.get]. *)
Record GeoWorld : Type := {
  geoip_reader : option (string -> res CityResponse);
  requests_get : string -> res HttpResponse
}.

(** The lookups a call performs, in order. *)
Inductive lookup : Type :=
| DbLookup (ip : string)
| HttpGet (url : string).

(** The libm functions behind [math.sin], [math.cos], [math.atan2] and
    [float.__pow__]. *)
Record Libm : Type := {
  math_sin : float -> res float;
  math_cos : float -> res float;
  math_atan2 : float -> float -> res float;
  float_pow : float -> float -> res float
}.

(** [math.sqrt]: a negative argument is a domain error. *)
Definition math_sqrt (x : float) : res float :=
  if PrimFloat.ltb x 0%float then Raise ValueError else Ok (PrimFloat.sqrt x).

Definition math_pi : float := 0x1.921fb54442d18p+1%float.

(** [math.radians] *)
Definition radians (x : float) : float := (x * (math_pi / 180))%float.

(** [_is_private_ip] *)
Definition _is_private_ip (ip : string) : bool :=
  let parts := py_split "."%char ip in
  if negb (List.length parts =? 4)%nat then false
  else
    match py_int (nth 0 parts ""), py_int (nth 1 parts "") with
    | Some first_octet, Some second_octet =>
        if first_octet =? 10 then true
        else if (first_octet =? 172) && (16 <=? second_octet) && (second_octet <=? 31) then true
        else if (first_octet =? 192) && (second_octet =? 168) then true
        else if first_octet =? 127 then true
        else false
    | _, _ => false
    end.

Section Geolocation.
Variable world : GeoWorld.
Variable libm : Libm.

(** The [try] around the MaxMind reader: [Some r] when the function returns
    or raises from there, [None] when control falls through to the API. *)
Definition maxmind_lookup (ip_address : string)
  : list lookup * option (res (option Location)) :=
  match geoip_reader world with
  | Some city =>
      ([DbLookup ip_address],
       match city ip_address with
       | Ok response =>
           Some (Ok (Some {| loc_country_code := country_iso_code response;
                             loc_latitude := location_latitude response;
                             loc_longitude := location_longitude response;
                             loc_city := city_name response;
                             loc_country_name := country_name response |}))
       | Raise AddressNotFoundError => None
       | Raise ValueError => None
       | Raise e => Some (Raise e)
       end)
  | None => ([], None)
  end.

(** The fallback to ip-api.com; [except Exception: pass]. *)
Definition api_lookup (ip_address : string) : list lookup * option Location :=
  let url := "http://ip-api.com/json/" ++ ip_address in
  ([HttpGet url],
   match requests_get world url with
   | Ok response =>
       if status_code response =? 200 then
         match json response with
         | Ok data =>
             if opt_str_eqb (api_status data) (Some "success") then
               Some {| loc_country_code := api_countryCode data;
                       loc_latitude := api_lat data;
                       loc_longitude := api_lon data;
                       loc_city := api_city data;
                       loc_country_name := api_country data |}
             else None
         | Raise _ => None
         end
       else None
   | Raise _ => None
   end).

(** [get_location], with the lookups it performed. *)
Definition get_location_traced (ip_address : string)
  : list lookup * res (option Location) :=
  if _is_private_ip ip_address then ([], Ok None)
  else
    match maxmind_lookup ip_address with
    | (tr, Some r) => (tr, r)
    | (tr, None) =>
        let '(tr', r) := api_lookup ip_address in
        ((tr ++ tr')%list, Ok r)
    end.

Definition get_location (ip_address : string) : res (option Location) :=
  snd (get_location_traced ip_address).

(** [calculate_distance] *)
Definition calculate_distance (lat1 lon1 lat2 lon2 : float) : res float :=
  let R := 6371%float in
  let lat1_rad := radians lat1 in
  let lat2_rad := radians lat2 in
  let delta_lat := radians (lat2 - lat1)%float in
  let delta_lon := radians (lon2 - lon1)%float in
  s1 <- math_sin libm (delta_lat / 2)%float ;;
  p1 <- float_pow libm s1 2%float ;;
  c1 <- math_cos libm lat1_rad ;;
  c2 <- math_cos libm lat2_rad ;;
  s2 <- math_sin libm (delta_lon / 2)%float ;;
  p2 <- float_pow libm s2 2%float ;;
  let a := (p1 + c1 * c2 * p2)%float in
  q1 <- math_sqrt a ;;
  q2 <- math_sqrt (1 - a)%float ;;
  t <- math_atan2 libm q1 q2 ;;
  let c := (2 * t)%float in
  Ok (R * c)%float.
End Geolocation.

(* ================================================================== *)
(** ** Detection rules (rules.py) *)

(** [timedelta.total_seconds()]: the microsecond count divided by 10**6
    (exact below 2**53 microseconds). *)
Definition float_of_Z (z : Z) : float :=
  if z <? 0 then (- PrimFloat.of_uint63 (Uint63.of_Z (- z)))%float
  else PrimFloat.of_uint63 (Uint63.of_Z z).

Definition total_seconds (d : Z) : float := (float_of_Z d / 1000000)%float.

Module Rule.
(** [DetectionRule]: the attributes set by [__init__] and the [check]
    method of the subclass. *)
Record t : Type := {
  rule_name : string;
  severity : string;
  description : string;
  check : LogEntry.t -> Session -> res (option RuleResult)
}.
End Rule.

(** [log_entry.raw_log[:500] if log_entry.raw_log else None] *)
Definition raw_log_excerpt (raw_log : option string) : cval :=
  if truthy_str raw_log then vopt (option_map (py_take 500) raw_log) else VNone.

(** The dedup queries: the first unresolved alert of [rule] with
    [triggered_at >= start] and the given correlation keys. *)
Definition recent_alert_by_ip (rule ip : string) (start : instant) (db : Session)
  : option Alert.t :=
  first (filter (fun a =>
                   String.eqb (Alert.rule_name a) rule
                   && opt_str_eqb (Alert.source_ip a) (Some ip)
                   && (start <=? Alert.triggered_at a)
                   && negb (Alert.resolved a))
                (alerts db)).

Definition recent_alert_by_user (rule : string) (user : option string)
  (start : instant) (db : Session) : option Alert.t :=
  first (filter (fun a =>
                   String.eqb (Alert.rule_name a) rule
                   && opt_str_eqb (Alert.username a) user
                   && (start <=? Alert.triggered_at a)
                   && negb (Alert.resolved a))
                (alerts db)).

Definition recent_alert_by_user_ip (rule : string) (user : option string)
  (ip : string) (start : instant) (db : Session) : option Alert.t :=
  first (filter (fun a =>
                   String.eqb (Alert.rule_name a) rule
                   && opt_str_eqb (Alert.username a) user
                   && opt_str_eqb (Alert.source_ip a) (Some ip)
                   && (start <=? Alert.triggered_at a)
                   && negb (Alert.resolved a))
                (alerts db)).

Module BruteForceDetectionRule.
Section WithSettings.
Variable settings : Settings.

Definition rule_name : string := "brute_force_login".

(** The counting query of [check]. *)
Definition failed_logins (log_entry : LogEntry.t) (db : Session) : list LogEntry.t :=
  let time_window_start :=
    LogEntry.timestamp log_entry
    - timedelta_minutes (brute_force_window_minutes settings) in
  filter (fun r =>
            String.eqb (LogEntry.source_ip r) (LogEntry.source_ip log_entry)
            && String.eqb (LogEntry.status r) "failed"
            && String.eqb (LogEntry.event_type r) "login"
            && (time_window_start <=? LogEntry.timestamp r)
            && (LogEntry.timestamp r <=? LogEntry.timestamp log_entry))
         (log_entries db).

Definition check (log_entry : LogEntry.t) (db : Session) : res (option RuleResult) :=
  if negb (String.eqb (LogEntry.status log_entry) "failed")
     || negb (String.eqb (LogEntry.event_type log_entry) "login")
  then Ok None
  else if String.eqb (LogEntry.source_ip log_entry) "" then Ok None
  else
    let time_window_start :=
      LogEntry.timestamp log_entry
      - timedelta_minutes (brute_force_window_minutes settings) in
    let failed_count := Z.of_nat (List.length (failed_logins log_entry db)) in
    if brute_force_threshold settings <=? failed_count then
      match recent_alert_by_ip rule_name (LogEntry.source_ip log_entry)
              time_window_start db with
      | None =>
          Ok (Some {|
            description :=
              [ Lit "Brute-force login attempt detected from ";
                FStr (Some (LogEntry.source_ip log_entry)); Lit ". ";
                FInt failed_count; Lit " failed attempts in ";
                FInt (brute_force_window_minutes settings); Lit " minutes." ];
            result_context :=
              [ ("source_ip", VStr (LogEntry.source_ip log_entry));
                ("failed_attempts", VInt failed_count);
                ("time_window_minutes", VInt (brute_force_window_minutes settings));
                ("affected_users",
                 VList (match LogEntry.username log_entry with
                        | Some (String c u) => [String c u]
                        | _ => []
                        end)) ] |})
      | Some _ => Ok None
      end
    else Ok None.

Definition rule : Rule.t := {|
  Rule.rule_name := rule_name;
  Rule.severity := "High";
  Rule.description := "Multiple failed login attempts detected from same IP address";
  Rule.check := check
|}.
End WithSettings.
End BruteForceDetectionRule.

Module ImpossibleTravelDetectionRule.
Section WithWorld.
Variable world : GeoWorld.
Variable libm : Libm.

Definition rule_name : string := "impossible_travel".
Definition max_travel_time_hours : Z := 1.
Definition min_distance_km : float := 1000%float.

(** The query for the previous successful login of the same user. *)
Definition previous_login (log_entry : LogEntry.t) (db : Session) : option LogEntry.t :=
  let time_window_start :=
    LogEntry.timestamp log_entry - timedelta_hours max_travel_time_hours in
  latest
    (filter (fun r =>
               opt_str_eqb (LogEntry.username r) (LogEntry.username log_entry)
               && String.eqb (LogEntry.status r) "success"
               && String.eqb (LogEntry.event_type r) "login"
               && (time_window_start <=? LogEntry.timestamp r)
               && (LogEntry.timestamp r <? LogEntry.timestamp log_entry)
               && negb (String.eqb (LogEntry.source_ip r) (LogEntry.source_ip log_entry))
               && match LogEntry.latitude r with Some _ => true | None => false end)
            (log_entries db)).

(** [time_diff.total_seconds() / 3600] *)
Definition hours_between (later earlier : instant) : float :=
  (total_seconds (later - earlier) / 3600)%float.

Definition check (log_entry : LogEntry.t) (db : Session) : res (option RuleResult) :=
  if negb (String.eqb (LogEntry.status log_entry) "success")
     || negb (String.eqb (LogEntry.event_type log_entry) "login")
  then Ok None
  else if negb (truthy_str (LogEntry.username log_entry))
          || String.eqb (LogEntry.source_ip log_entry) ""
  then Ok None
  else
    current_location <- get_location world (LogEntry.source_ip log_entry) ;;
    match current_location with
    | None => Ok None
    | Some current_location =>
        if negb (truthy_float (loc_latitude current_location)) then Ok None
        else
          let time_window_start :=
            LogEntry.timestamp log_entry - timedelta_hours max_travel_time_hours in
          match previous_login log_entry db with
          | None => Ok None
          | Some previous_login =>
              if truthy_float (LogEntry.latitude previous_login)
                 && truthy_float (LogEntry.longitude previous_login)
              then
                match LogEntry.latitude previous_login,
                      LogEntry.longitude previous_login,
                      loc_latitude current_location,
                      loc_longitude current_location with
                | Some lat1, Some lon1, Some lat2, Some lon2 =>
                    distance <- calculate_distance libm lat1 lon1 lat2 lon2 ;;
                    let hours_diff :=
                      hours_between (LogEntry.timestamp log_entry)
                                    (LogEntry.timestamp previous_login) in
                    let max_realistic_speed := 800%float in
                    let min_required_hours := (distance / max_realistic_speed)%float in
                    if PrimFloat.leb min_distance_km distance
                       && PrimFloat.ltb hours_diff min_required_hours
                    then
                      match recent_alert_by_user rule_name
                              (LogEntry.username log_entry) time_window_start db with
                      | None =>
                          Ok (Some {|
                            description :=
                              [ Lit "Impossible travel detected for user ";
                                FStr (LogEntry.username log_entry);
                                Lit ". Login from ";
                                FStr (Some (LogEntry.source_ip previous_login));
                                Lit " (";
                                FStr (LogEntry.country_code previous_login);
                                Lit ") to ";
                                FStr (Some (LogEntry.source_ip log_entry));
                                Lit " (";
                                FStr (loc_country_code current_location);
                                Lit ") covering "; FFixed 0 distance;
                                Lit " km in "; FFixed 2 hours_diff;
                                Lit " hours." ];
                            result_context :=
                              [ ("username", vopt (LogEntry.username log_entry));
                                ("previous_ip", VStr (LogEntry.source_ip previous_login));
                                ("previous_location",
                                 VText [ FStr (LogEntry.country_code previous_login);
                                         Lit " (";
                                         FFloat (LogEntry.latitude previous_login);
                                         Lit ", ";
                                         FFloat (LogEntry.longitude previous_login);
                                         Lit ")" ]);
                                ("current_ip", VStr (LogEntry.source_ip log_entry));
                                ("current_location",
                                 VText [ FStr (loc_country_code current_location);
                                         Lit " (";
                                         FFloat (loc_latitude current_location);
                                         Lit ", ";
                                         FFloat (loc_longitude current_location);
                                         Lit ")" ]);
                                ("distance_km", VRound 2 distance);
                                ("time_hours", VRound 2 hours_diff);
                                ("previous_timestamp",
                                 VIso (LogEntry.timestamp previous_login)) ] |})
                      | Some _ => Ok None
                      end
                    else Ok None
                | _, _, _, _ => Raise TypeError
                end
              else Ok None
          end
    end.

Definition rule : Rule.t := {|
  Rule.rule_name := rule_name;
  Rule.severity := "Critical";
  Rule.description := "User logged in from geographically distant locations in short time";
  Rule.check := check
|}.
End WithWorld.
End ImpossibleTravelDetectionRule.

Module BusinessHoursDetectionRule.
Section WithSettings.
Variable settings : Settings.

Definition rule_name : string := "login_outside_business_hours".

Definition check (log_entry : LogEntry.t) (db : Session) : res (option RuleResult) :=
  if negb (String.eqb (LogEntry.status log_entry) "success")
     || negb (String.eqb (LogEntry.event_type log_entry) "login")
  then Ok None
  else if is_business_hours (LogEntry.timestamp log_entry)
            (business_hours_start settings) (business_hours_end settings)
  then Ok None
  else if 5 <=? weekday (LogEntry.timestamp log_entry) then Ok None
  else
    let time_window_start := LogEntry.timestamp log_entry - timedelta_hours 1 in
    match recent_alert_by_user_ip rule_name (LogEntry.username log_entry)
            (LogEntry.source_ip log_entry) time_window_start db with
    | None =>
        let business_hours :=
          [ FInt (business_hours_start settings); Lit ":00 - ";
            FInt (business_hours_end settings); Lit ":00" ] in
        Ok (Some {|
          description :=
            ([ Lit "Login outside business hours detected for user ";
               FStr (LogEntry.username log_entry); Lit " from ";
               FStr (Some (LogEntry.source_ip log_entry)); Lit " at ";
               FTime "%H:%M" (LogEntry.timestamp log_entry);
               Lit " (Business hours: " ] ++ business_hours ++ [ Lit ")." ])%list;
          result_context :=
            [ ("username", vopt (LogEntry.username log_entry));
              ("source_ip", VStr (LogEntry.source_ip log_entry));
              ("login_time", VIso (LogEntry.timestamp log_entry));
              ("business_hours", VText business_hours);
              ("day_of_week", VText [ FTime "%A" (LogEntry.timestamp log_entry) ]) ] |})
    | Some _ => Ok None
    end.

Definition rule : Rule.t := {|
  Rule.rule_name := rule_name;
  Rule.severity := "Medium";
  Rule.description := "Login detected outside normal business hours";
  Rule.check := check
|}.
End WithSettings.
End BusinessHoursDetectionRule.

Module PrivilegeEscalationDetectionRule.
Definition rule_name : string := "privilege_escalation".

Definition escalation_keywords : list string :=
  [ "sudo"; "su"; "admin"; "root"; "elevate"; "privilege";
    "runas"; "impersonate"; "escalate" ].

Definition escalation_event_types : list string :=
  [ "privilege_escalation"; "admin_access"; "sudo"; "su" ].

(** The dedup query of the keyword branch. *)
Definition recent_alert (log_entry : LogEntry.t) (db : Session) : option Alert.t :=
  recent_alert_by_user rule_name (LogEntry.username log_entry)
    (LogEntry.timestamp log_entry - timedelta_minutes 30) db.

(** The [for keyword in self.escalation_keywords] loop over the keywords
    still to be tried; [raw] is the non-empty [raw_log]. *)
Fixpoint scan_keywords (keywords : list string) (raw : string)
  (log_entry : LogEntry.t) (db : Session) : option RuleResult :=
  match keywords with
  | [] => None
  | keyword :: keywords' =>
      if contains keyword (lower raw) then
        match recent_alert log_entry db with
        | None =>
            Some {|
              description :=
                [ Lit "Potential privilege escalation detected for user ";
                  FStr (LogEntry.username log_entry); Lit " from ";
                  FStr (Some (LogEntry.source_ip log_entry));
                  Lit ". Keyword: "; FStr (Some keyword) ];
              result_context :=
                [ ("username", vopt (LogEntry.username log_entry));
                  ("source_ip", VStr (LogEntry.source_ip log_entry));
                  ("keyword", VStr keyword);
                  ("event_type", VStr (LogEntry.event_type log_entry));
                  ("status", VStr (LogEntry.status log_entry));
                  ("raw_log", VStr (py_take 500 raw)) ] |}
        | Some _ => scan_keywords keywords' raw log_entry db
        end
      else scan_keywords keywords' raw log_entry db
  end.

Definition check (log_entry : LogEntry.t) (db : Session) : res (option RuleResult) :=
  if existsb (String.eqb (LogEntry.event_type log_entry)) escalation_event_types then
    Ok (Some {|
      description :=
        [ Lit "Privilege escalation attempt detected for user ";
          FStr (LogEntry.username log_entry); Lit " from ";
          FStr (Some (LogEntry.source_ip log_entry)) ];
      result_context :=
        [ ("username", vopt (LogEntry.username log_entry));
          ("source_ip", VStr (LogEntry.source_ip log_entry));
          ("event_type", VStr (LogEntry.event_type log_entry));
          ("status", VStr (LogEntry.status log_entry));
          ("raw_log", raw_log_excerpt (LogEntry.raw_log log_entry)) ] |})
  else
    match LogEntry.raw_log log_entry with
    | Some (String c r) =>
        Ok (scan_keywords escalation_keywords (String c r) log_entry db)
    | _ => Ok None
    end.

Definition rule : Rule.t := {|
  Rule.rule_name := rule_name;
  Rule.severity := "High";
  Rule.description := "Privilege escalation or admin access attempt detected";
  Rule.check := check
|}.
End PrivilegeEscalationDetectionRule.

Module BlacklistIPDetectionRule.
Section WithSettings.
Variable settings : Settings.

Definition rule_name : string := "blacklisted_ip".

(** [set(ip.strip() for ip in settings.ip_blacklist.split(',') if ip.strip())] *)
Definition blacklist : list string :=
  map strip
      (filter (fun ip => truthy_str (Some (strip ip)))
              (py_split ","%char (ip_blacklist settings))).

Definition check (log_entry : LogEntry.t) (db : Session) : res (option RuleResult) :=
  if String.eqb (LogEntry.source_ip log_entry) "" then Ok None
  else if existsb (String.eqb (LogEntry.source_ip log_entry)) blacklist then
    let time_window_start := LogEntry.timestamp log_entry - timedelta_hours 1 in
    match recent_alert_by_ip rule_name (LogEntry.source_ip log_entry)
            time_window_start db with
    | None =>
        Ok (Some {|
          description :=
            [ Lit "Activity detected from blacklisted IP address: ";
              FStr (Some (LogEntry.source_ip log_entry)) ];
          result_context :=
            [ ("source_ip", VStr (LogEntry.source_ip log_entry));
              ("username", vopt (LogEntry.username log_entry));
              ("event_type", VStr (LogEntry.event_type log_entry));
              ("status", VStr (LogEntry.status log_entry));
              ("country_code", vopt (LogEntry.country_code log_entry));
              ("raw_log", raw_log_excerpt (LogEntry.raw_log log_entry)) ] |})
    | Some _ => Ok None
    end
  else Ok None.

Definition rule : Rule.t := {|
  Rule.rule_name := rule_name;
  Rule.severity := "Critical";
  Rule.description := "Activity detected from blacklisted IP address";
  Rule.check := check
|}.
End WithSettings.
End BlacklistIPDetectionRule.

Module AlertSpec.
(** The dict that [DetectionEngine.analyze] builds for a triggered rule. *)
Record t : Type := {
  rule_name : string;
  severity : string;
  description : fstring;
  context : context
}.
End AlertSpec.

Module DetectionEngine.
Section WithEnvironment.
Variable settings : Settings.
Variable world : GeoWorld.
Variable libm : Libm.

Definition rules : list Rule.t :=
  [ BruteForceDetectionRule.rule settings;
    ImpossibleTravelDetectionRule.rule world libm;
    BusinessHoursDetectionRule.rule settings;
    PrivilegeEscalationDetectionRule.rule;
    BlacklistIPDetectionRule.rule settings ].

(** [analyze]: a rule that raises contributes nothing. *)
Definition analyze (log_entry : LogEntry.t) (db : Session) : list AlertSpec.t :=
  flat_map
    (fun rule =>
       match Rule.check rule log_entry db with
       | Ok (Some result) =>
           [ {| AlertSpec.rule_name := Rule.rule_name rule;
                AlertSpec.severity := Rule.severity rule;
                AlertSpec.description := description result;
                AlertSpec.context := result_context result |} ]
       | Ok None => []
       | Raise _ => []
       end)
    rules.
End WithEnvironment.
End DetectionEngine.

(* ================================================================== *)
(** ** Query helpers *)

(** Insertion into a list sorted by decreasing [key]; a row goes before
    the rows with an equal key. *)
Fixpoint insert_desc {A : Type} (key : A -> Z) (a : A) (sorted : list A) : list A :=
  match sorted with
  | [] => [a]
  | b :: rest =>
      if key b <=? key a then a :: sorted else b :: insert_desc key a rest
  end.

(** [query.order_by(column.desc())]: rows with equal keys stay in
    insertion order (SQL leaves their order open). *)
Definition order_by_desc {A : Type} (key : A -> Z) (rows : list A) : list A :=
  fold_right (insert_desc key) [] rows.

(** [query.offset(offset).limit(limit).all()] for non-negative arguments. *)
Definition paginate {A : Type} (offset limit : nat) (rows : list A) : list A :=
  firstn limit (skipn offset rows).

(** [if value: query = query.filter(column == value)] for a string
    parameter: [None] and [""] leave the query as it is. *)
Definition filter_if_str {A : Type} (column : A -> option string)
  (value : option string) (rows : list A) : list A :=
  if truthy_str value then filter (fun r => opt_str_eqb (column r) value) rows
  else rows.

(** [if value is not None: query = query.filter(column == value)] *)
Definition filter_if_bool {A : Type} (column : A -> bool)
  (value : option bool) (rows : list A) : list A :=
  match value with
  | Some v => filter (fun r => Bool.eqb (column r) v) rows
  | None => rows
  end.

(** [if bound: query = query.filter(column >= bound)] and the same with
    [<=]; a [datetime] is never falsy. *)
Definition filter_since {A : Type} (column : A -> instant)
  (bound : option instant) (rows : list A) : list A :=
  match bound with
  | Some t => filter (fun r => t <=? column r) rows
  | None => rows
  end.

Definition filter_until {A : Type} (column : A -> instant)
  (bound : option instant) (rows : list A) : list A :=
  match bound with
  | Some t => filter (fun r => column r <=? t) rows
  | None => rows
  end.

(** The first occurrences of the elements of a list. *)
Fixpoint distinct (l : list string) : list string :=
  match l with
  | [] => []
  | x :: l' => x :: filter (fun y => negb (String.eqb y x)) (distinct l')
  end.

(** A dict from strings to integers, in insertion order. *)
Definition counters := list (string * Z).

Fixpoint counter_get (key : string) (d : counters) : option Z :=
  match d with
  | [] => None
  | (k, v) :: d' => if String.eqb k key then Some v else counter_get key d'
  end.

(** [d[key] = value] *)
Fixpoint counter_set (key : string) (value : Z) (d : counters) : counters :=
  match d with
  | [] => [(key, value)]
  | (k, v) :: d' =>
      if String.eqb k key then (k, value) :: d' else (k, v) :: counter_set key value d'
  end.

(** [d[key] += value] for a key of the dict. *)
Definition counter_add (key : string) (value : Z) (d : counters) : counters :=
  match counter_get key d with
  | Some v => counter_set key (v + value) d
  | None => d
  end.

(* ================================================================== *)
(** ** Alert manager (alert_manager.py) *)

Module AlertManager.

(** [create_alert]; [new_id] is the result of [generate_alert_id()] and
    [now] that of [datetime.utcnow()]. *)
Definition create_alert (rule_name severity : string) (description : fstring)
  (context : context) (db : Session) (log_entry : option LogEntry.t)
  (source_ip username : option string) (new_id : string) (now : instant)
  : Session * Alert.t :=
  let '(source_ip, username, log_entry_id) :=
    match log_entry with
    | Some e =>
        (or_str source_ip (Some (LogEntry.source_ip e)),
         or_str username (LogEntry.username e),
         Some (LogEntry.id e))
    | None => (source_ip, username, None)
    end in
  let alert := {|
    Alert.id := Z.of_nat (List.length (alerts db)) + 1;
    Alert.alert_id := new_id;
    Alert.rule_name := rule_name;
    Alert.severity := severity;
    Alert.description := description;
    Alert.context := match context with [] => None | _ => Some context end;
    Alert.source_ip := source_ip;
    Alert.username := username;
    Alert.log_entry_id := log_entry_id;
    Alert.triggered_at := now;
    Alert.acknowledged := false;
    Alert.acknowledged_by := None;
    Alert.acknowledged_at := None;
    Alert.resolved := false;
    Alert.resolved_by := None;
    Alert.resolved_at := None;
    Alert.notes := None
  |} in
  ({| log_entries := log_entries db; alerts := (alerts db ++ [alert])%list |}, alert).

(** The field updates of [acknowledge_alert]. *)
Definition acknowledge (analyst : option string) (now : instant) (alert : Alert.t)
  : Alert.t := {|
  Alert.id := Alert.id alert;
  Alert.alert_id := Alert.alert_id alert;
  Alert.rule_name := Alert.rule_name alert;
  Alert.severity := Alert.severity alert;
  Alert.description := Alert.description alert;
  Alert.context := Alert.context alert;
  Alert.source_ip := Alert.source_ip alert;
  Alert.username := Alert.username alert;
  Alert.log_entry_id := Alert.log_entry_id alert;
  Alert.triggered_at := Alert.triggered_at alert;
  Alert.acknowledged := true;
  Alert.acknowledged_by := or_str analyst (Some "System");
  Alert.acknowledged_at := Some now;
  Alert.resolved := Alert.resolved alert;
  Alert.resolved_by := Alert.resolved_by alert;
  Alert.resolved_at := Alert.resolved_at alert;
  Alert.notes := Alert.notes alert
|}.

(** The field updates of [resolve_alert]; [now] and [now'] are the two
    successive readings of the clock. *)
Definition resolve (analyst : option string) (now now' : instant) (alert : Alert.t)
  : Alert.t :=
  let unacknowledged :=
    match Alert.acknowledged_at alert with None => true | Some _ => false end in
  {|
  Alert.id := Alert.id alert;
  Alert.alert_id := Alert.alert_id alert;
  Alert.rule_name := Alert.rule_name alert;
  Alert.severity := Alert.severity alert;
  Alert.description := Alert.description alert;
  Alert.context := Alert.context alert;
  Alert.source_ip := Alert.source_ip alert;
  Alert.username := Alert.username alert;
  Alert.log_entry_id := Alert.log_entry_id alert;
  Alert.triggered_at := Alert.triggered_at alert;
  Alert.acknowledged := true;
  Alert.acknowledged_by :=
    if unacknowledged then or_str analyst (Some "System")
    else Alert.acknowledged_by alert;
  Alert.acknowledged_at :=
    if unacknowledged then Some now' else Alert.acknowledged_at alert;
  Alert.resolved := true;
  Alert.resolved_by := or_str analyst (Some "System");
  Alert.resolved_at := Some now;
  Alert.notes := Alert.notes alert
|}.

(** [db.query(Alert).filter(Alert.alert_id == alert_id).first()] *)
Definition find_alert (alert_id : string) (db : Session) : option Alert.t :=
  first (filter (fun a => String.eqb (Alert.alert_id a) alert_id) (alerts db)).

(** Writes [f] to the first row whose identifier is [alert_id]. *)
Fixpoint update_first (alert_id : string) (f : Alert.t -> Alert.t)
  (rows : list Alert.t) : list Alert.t :=
  match rows with
  | [] => []
  | a :: rows' =>
      if String.eqb (Alert.alert_id a) alert_id then f a :: rows'
      else a :: update_first alert_id f rows'
  end.

Definition acknowledge_alert (alert_id : string) (db : Session)
  (analyst : option string) (now : instant) : Session * option Alert.t :=
  match find_alert alert_id db with
  | Some alert =>
      ({| log_entries := log_entries db;
          alerts := update_first alert_id (acknowledge analyst now) (alerts db) |},
       Some (acknowledge analyst now alert))
  | None => (db, None)
  end.

Definition resolve_alert (alert_id : string) (db : Session)
  (analyst : option string) (now now' : instant) : Session * option Alert.t :=
  match find_alert alert_id db with
  | Some alert =>
      ({| log_entries := log_entries db;
          alerts := update_first alert_id (resolve analyst now now') (alerts db) |},
       Some (resolve analyst now now' alert))
  | None => (db, None)
  end.

(** [get_alerts], for non-negative [limit] and [offset]. *)
Definition get_alerts (db : Session) (severity rule_name : option string)
  (resolved : option bool) (limit offset : nat) : list Alert.t :=
  let query := alerts db in
  let query := filter_if_str (fun a => Some (Alert.severity a)) severity query in
  let query := filter_if_str (fun a => Some (Alert.rule_name a)) rule_name query in
  let query := filter_if_bool Alert.resolved resolved query in
  paginate offset limit (order_by_desc Alert.triggered_at query).

(** The grouped query of [get_alert_statistics]: one row per severity of an
    unresolved alert, with the number of such alerts. *)
Definition count_by_severity (db : Session) : list (string * Z) :=
  let unresolved := filter (fun a => negb (Alert.resolved a)) (alerts db) in
  map (fun severity =>
         (severity,
          Z.of_nat (List.length
                      (filter (fun a => String.eqb (Alert.severity a) severity)
                              unresolved))))
      (distinct (map Alert.severity unresolved)).

(** The loop of [get_alert_statistics] over the rows still to be read. *)
Fixpoint tally (results : list (string * Z)) (stats : counters) : counters :=
  match results with
  | [] => stats
  | (severity, count) :: results' =>
      match counter_get severity stats with
      | Some _ =>
          tally results' (counter_add "total" count (counter_set severity count stats))
      | None => tally results' stats
      end
  end.

Definition get_alert_statistics (db : Session) : counters :=
  let stats := [ ("Critical", 0); ("High", 0); ("Medium", 0); ("Low", 0);
                 ("total", 0) ] in
  tally (count_by_severity db) stats.

End AlertManager.

(* ================================================================== *)
(** ** Log parser (log_parser.py) *)

Inductive pattern_name : Type :=
| apache_access | ssh_auth | auth_log | windows_event | json_log | simple_log.

(** [LogParser.PATTERNS], in the order of the dict. *)
Definition PATTERNS : list pattern_name :=
  [ apache_access; ssh_auth; auth_log; windows_event; json_log; simple_log ].

(** A dict of strings, as [match.groupdict()] returns it. *)
Definition fields := list (string * string).

Fixpoint dict_get (key : string) (d : fields) : option string :=
  match d with
  | [] => None
  | (k, v) :: d' => if String.eqb k key then Some v else dict_get key d'
  end.

Definition dict_has (key : string) (d : fields) : bool :=
  match dict_get key d with Some _ => true | None => false end.

Fixpoint dict_set (key value : string) (d : fields) : fields :=
  match d with
  | [] => [(key, value)]
  | (k, v) :: d' =>
      if String.eqb k key then (k, value) :: d' else (k, v) :: dict_set key value d'
  end.

(** [d.get(key, default)] *)
Definition dict_get_default (key default : string) (d : fields) : string :=
  match dict_get key d with Some v => v | None => default end.

(** [s.replace('Z', '+00:00')] *)
Fixpoint replace_Z (s : string) : string :=
  match s with
  | EmptyString => EmptyString
  | String c s' =>
      if Ascii.eqb c "Z"%char then "+00:00" ++ replace_Z s'
      else String c (replace_Z s')
  end.

(** What the parser takes from the regex engine, from [datetime] and from
    [float]: [pattern.search(line)] with its [groupdict()], the fallback
    search for an IPv4 literal, [datetime.fromisoformat], [float(s)] and
    [datetime.strptime(s, fmt)] ([None] where they raise [ValueError]),
    [datetime.fromtimestamp], which raises [OverflowError], [OSError] or
    [ValueError] on a number out of range, and [isoformat]. *)
Record ParserWorld : Type := {
  pattern_search : pattern_name -> string -> option fields;
  ip_search : string -> option string;
  dt_fromisoformat : string -> option instant;
  py_float : string -> option float;
  dt_fromtimestamp : float -> res instant;
  dt_strptime : string -> string -> option instant;
  isoformat : instant -> string
}.

(** [OSError] and [OverflowError], as [datetime.fromtimestamp] raises them. *)
Definition OSError : exn := OtherException "OSError".
Definition OverflowError : exn := OtherException "OverflowError".

(** [except (ValueError, OSError)] *)
Definition is_ValueError_or_OSError (e : exn) : bool :=
  match e with
  | ValueError => true
  | OtherException name => String.eqb name "OSError"
  | _ => false
  end.

(** helpers.py, the [formats] of [parse_timestamp]. *)
Definition timestamp_formats : list string :=
  [ "%Y-%m-%d %H:%M:%S"; "%Y-%m-%dT%H:%M:%S"; "%d/%b/%Y:%H:%M:%S";
    "%b %d %H:%M:%S"; "%Y-%m-%d %H:%M:%S.%f" ].

(** The loop of [parse_timestamp] over the formats. *)
Fixpoint try_formats (pw : ParserWorld) (formats : list string)
  (timestamp_str : string) : option instant :=
  match formats with
  | [] => None
  | fmt :: formats' =>
      match dt_strptime pw timestamp_str fmt with
      | Some t => Some t
      | None => try_formats pw formats' timestamp_str
      end
  end.

(** helpers.py, [parse_timestamp]: an exception of [datetime.fromtimestamp]
    other than [ValueError] and [OSError] leaves the function. *)
Definition parse_timestamp (pw : ParserWorld) (timestamp_str : string)
  : res (option instant) :=
  if String.eqb timestamp_str "" then Ok None
  else
    match dt_fromisoformat pw (replace_Z timestamp_str) with
    | Some t => Ok (Some t)
    | None =>
        match py_float pw timestamp_str with
        | Some timestamp_float =>
            match dt_fromtimestamp pw timestamp_float with
            | Ok t => Ok (Some t)
            | Raise e =>
                if is_ValueError_or_OSError e
                then Ok (try_formats pw timestamp_formats timestamp_str)
                else Raise e
            end
        | None => Ok (try_formats pw timestamp_formats timestamp_str)
        end
    end.

Module LogParser.
Section WithWorld.
Variable pw : ParserWorld.
Variable world : GeoWorld.

(** The normalisation of the [event] group inside [_extract_fields]. *)
Definition normalize_event (data : fields) : fields :=
  if dict_has "event" data && negb (dict_has "event_type" data) then
    let event_value := lower (dict_get_default "event" "" data) in
    if existsb (String.eqb event_value) ["accepted"; "success"] then
      dict_set "event_type" "login" (dict_set "status" "success" data)
    else if existsb (String.eqb event_value) ["failed"; "denied"; "rejected"] then
      dict_set "event_type" "login" (dict_set "status" "failed" data)
    else dict_set "event_type" event_value data
  else data.

Fixpoint try_patterns (patterns : list pattern_name) (log_line : string)
  : option fields :=
  match patterns with
  | [] => None
  | pattern :: patterns' =>
      match pattern_search pw pattern log_line with
      | Some data => Some (normalize_event data)
      | None => try_patterns patterns' log_line
      end
  end.

(** [_extract_fields]; [now] is the reading of the clock in the fallback. *)
Definition _extract_fields (log_line : string) (now : instant) : option fields :=
  match try_patterns PATTERNS log_line with
  | Some data => Some data
  | None =>
      match ip_search pw log_line with
      | Some ip =>
          Some [ ("source_ip", ip);
                 ("timestamp", isoformat pw now);
                 ("username", "");
                 ("event_type", "unknown");
                 ("status", "unknown") ]
      | None => None
      end
  end.

(** [parse_line]; the entry has no row identifier yet (0). *)
Definition parse_line (log_line : string) (source_file : option string)
  (now : instant) : res (option LogEntry.t) :=
  let log_line := strip log_line in
  if String.eqb log_line "" then Ok None
  else
    match _extract_fields log_line now with
    | None => Ok None
    | Some [] => Ok None
    | Some parsed_data =>
        timestamp <-
          match dict_get "timestamp" parsed_data with
          | Some s =>
              parsed <- parse_timestamp pw s ;;
              Ok (match parsed with Some t => t | None => now end)
          | None => Ok now
          end ;;
        let source_ip := dict_get_default "source_ip" "" parsed_data in
        let username := dict_get_default "username" "" parsed_data in
        let event_type :=
          dict_get_default "event_type"
            (dict_get_default "event" "authentication" parsed_data) parsed_data in
        let status := dict_get_default "status" "unknown" parsed_data in
        location_data <-
          (if String.eqb source_ip "" then Ok None
           else get_location world source_ip) ;;
        Ok (Some {|
          LogEntry.id := 0;
          LogEntry.timestamp := timestamp;
          LogEntry.source_ip := source_ip;
          LogEntry.username := Some username;
          LogEntry.event_type := lower event_type;
          LogEntry.status := lower status;
          LogEntry.raw_log := Some log_line;
          LogEntry.source_file := source_file;
          LogEntry.country_code :=
            match location_data with Some l => loc_country_code l | None => None end;
          LogEntry.latitude :=
            match location_data with Some l => loc_latitude l | None => None end;
          LogEntry.longitude :=
            match location_data with Some l => loc_longitude l | None => None end
        |})
    end.

(** [parse_file] on the lines of the file; [clock i] is the reading of the
    clock while line [i] is parsed.  A line whose parsing raises is skipped. *)
Fixpoint parse_lines (lines : list string) (source_file : option string)
  (clock : nat -> instant) (line_num : nat) : list LogEntry.t :=
  match lines with
  | [] => []
  | line :: lines' =>
      match parse_line line source_file (clock line_num) with
      | Ok (Some entry) => entry :: parse_lines lines' source_file clock (S line_num)
      | Ok None => parse_lines lines' source_file clock (S line_num)
      | Raise _ => parse_lines lines' source_file clock (S line_num)
      end
  end.

Definition parse_file (lines : list string) (source_file : option string)
  (clock : nat -> instant) : list LogEntry.t :=
  parse_lines lines source_file clock 1.
End WithWorld.
End LogParser.

(* ================================================================== *)
(** ** Ingestion (ingestion_service.py) *)

(** The request body of the single-event API ([LogEntryRequest.dict()]):
    every key is present, the optional ones may hold [None]. *)
Record LogData : Type := {
  ld_timestamp : option string;
  ld_source_ip : string;
  ld_username : option string;
  ld_event_type : string;
  ld_status : string;
  ld_raw_log : option string
}.

Record IngestResult : Type := {
  ingested : Z;
  alerts_generated : Z
}.

(** The clock and the identifier generator: [utcnow k] and [uuid4 k] are
    the values obtained at the [k]-th step of a request. *)
Record Oracle : Type := {
  utcnow : nat -> instant;
  uuid4 : nat -> string
}.

Module IngestionService.
Section WithEnvironment.
Variable settings : Settings.
Variable pw : ParserWorld.
Variable world : GeoWorld.
Variable libm : Libm.
Variable oracle : Oracle.

(** [db.add(log_entry); db.flush()]: the row receives its identifier. *)
Definition add_log_entry (log_entry : LogEntry.t) (db : Session)
  : Session * LogEntry.t :=
  let stored := {|
    LogEntry.id := Z.of_nat (List.length (log_entries db)) + 1;
    LogEntry.timestamp := LogEntry.timestamp log_entry;
    LogEntry.source_ip := LogEntry.source_ip log_entry;
    LogEntry.username := LogEntry.username log_entry;
    LogEntry.event_type := LogEntry.event_type log_entry;
    LogEntry.status := LogEntry.status log_entry;
    LogEntry.raw_log := LogEntry.raw_log log_entry;
    LogEntry.source_file := LogEntry.source_file log_entry;
    LogEntry.country_code := LogEntry.country_code log_entry;
    LogEntry.latitude := LogEntry.latitude log_entry;
    LogEntry.longitude := LogEntry.longitude log_entry
  |} in
  ({| log_entries := (log_entries db ++ [stored])%list; alerts := alerts db |}, stored).

(** [for alert_data in detected_alerts: alert_manager.create_alert(...)] *)
Fixpoint create_alerts (detected_alerts : list AlertSpec.t) (log_entry : LogEntry.t)
  (db : Session) (step : nat) : Session * nat :=
  match detected_alerts with
  | [] => (db, step)
  | alert_data :: rest =>
      let '(db', _) :=
        AlertManager.create_alert
          (AlertSpec.rule_name alert_data) (AlertSpec.severity alert_data)
          (AlertSpec.description alert_data) (AlertSpec.context alert_data)
          db (Some log_entry) None None (uuid4 oracle step) (utcnow oracle step) in
      create_alerts rest log_entry db' (S step)
  end.

(** Store one entry, run the rules on it and store the alerts. *)
Definition store_and_detect (log_entry : LogEntry.t) (db : Session) (step : nat)
  : Session * nat * LogEntry.t * Z :=
  let '(db1, stored) := add_log_entry log_entry db in
  let detected_alerts := DetectionEngine.analyze settings world libm stored db1 in
  let '(db2, step') := create_alerts detected_alerts stored db1 step in
  (db2, step', stored, Z.of_nat (List.length detected_alerts)).

(** The loop of [ingest_logs_from_text]. *)
Fixpoint ingest_lines (log_lines : list string) (source_file : option string)
  (db : Session) (step : nat) (result : IngestResult) : res (Session * IngestResult) :=
  match log_lines with
  | [] => Ok (db, result)
  | line :: log_lines' =>
      if String.eqb (strip line) "" then
        ingest_lines log_lines' source_file db step result
      else
        log_entry <- LogParser.parse_line pw world line source_file (utcnow oracle step) ;;
        match log_entry with
        | None => ingest_lines log_lines' source_file db (S step) result
        | Some log_entry =>
            let '(db', step', _, n) := store_and_detect log_entry db (S step) in
            ingest_lines log_lines' source_file db' step'
              {| ingested := ingested result + 1;
                 alerts_generated := alerts_generated result + n |}
        end
  end.

Definition ingest_logs_from_text (log_lines : list string)
  (source_file : option string) (db : Session) : res (Session * IngestResult) :=
  ingest_lines log_lines source_file db 0 {| ingested := 0; alerts_generated := 0 |}.

(** The loop of [ingest_logs_from_file] over the parsed entries. *)
Fixpoint ingest_entries (parsed_entries : list LogEntry.t) (db : Session)
  (step : nat) (alerts_generated : Z) : Session * Z :=
  match parsed_entries with
  | [] => (db, alerts_generated)
  | log_entry :: rest =>
      let '(db', step', _, n) := store_and_detect log_entry db step in
      ingest_entries rest db' step' (alerts_generated + n)
  end.

(** [ingest_logs_from_file]; [lines] is the content of the file and
    [source_file] its base name. *)
Definition ingest_logs_from_file (lines : list string) (source_file : string)
  (db : Session) : Session * IngestResult :=
  let parsed_entries :=
    LogParser.parse_file pw world lines (Some source_file) (utcnow oracle) in
  let '(db', n) :=
    ingest_entries parsed_entries db (S (List.length lines)) 0 in
  (db', {| ingested := Z.of_nat (List.length parsed_entries);
           alerts_generated := n |}).

(** [ingest_single_log]; the third component is [log_entry_id]. *)
Definition ingest_single_log (log_data : LogData) (db : Session)
  : res (Session * IngestResult * Z) :=
  let now := utcnow oracle 0 in
  timestamp <-
    match ld_timestamp log_data with
    | Some s =>
        parsed <- parse_timestamp pw s ;;
        Ok (match parsed with Some t => t | None => now end)
    | None => Ok now
    end ;;
  let source_ip := ld_source_ip log_data in
  location_data <-
    (if String.eqb source_ip "" then Ok None else get_location world source_ip) ;;
  let log_entry := {|
    LogEntry.id := 0;
    LogEntry.timestamp := timestamp;
    LogEntry.source_ip := source_ip;
    LogEntry.username := ld_username log_data;
    LogEntry.event_type := ld_event_type log_data;
    LogEntry.status := ld_status log_data;
    LogEntry.raw_log := ld_raw_log log_data;
    LogEntry.source_file := None;
    LogEntry.country_code :=
      match location_data with Some l => loc_country_code l | None => None end;
    LogEntry.latitude :=
      match location_data with Some l => loc_latitude l | None => None end;
    LogEntry.longitude :=
      match location_data with Some l => loc_longitude l | None => None end
  |} in
  let '(db', _, stored, n) := store_and_detect log_entry db 1 in
  Ok (db', {| ingested := 1; alerts_generated := n |}, LogEntry.id stored).
End WithEnvironment.
End IngestionService.

(* ================================================================== *)
(** ** HTTP routes (routes.py) *)

(** What a route answers: a body, or [HTTPException(status_code)]. *)
Inductive response (A : Type) : Type :=
| Success (body : A)
| HTTPException (status_code : Z).
Arguments Success {A} body.
Arguments HTTPException {A} status_code.

(** The body of [get_alert_detail]: the alert and its related log entry. *)
Record AlertDetail : Type := {
  detail_alert : Alert.t;
  detail_log_entry : option LogEntry.t
}.

(** The body of [search_logs]. *)
Record LogPage : Type := {
  logs : list LogEntry.t;
  total : Z;
  page_limit : nat;
  page_offset : nat
}.

(** The body of [get_dashboard_stats]. *)
Record DashboardStats : Type := {
  total_logs : Z;
  alerts_by_severity : counters;
  recent_alerts : list Alert.t;
  total_alerts : option Z
}.

Module Routes.
Section WithEnvironment.
Variable settings : Settings.
Variable pw : ParserWorld.
Variable world : GeoWorld.
Variable libm : Libm.
Variable oracle : Oracle.

(** [datetime.fromisoformat]; it raises [ValueError] on a malformed date. *)
Variable fromisoformat : string -> res instant.

(** POST /api/logs/single *)
Definition ingest_single_log (log_data : LogData) (db : Session)
  : response (Session * IngestResult * Z) :=
  match IngestionService.ingest_single_log settings pw world libm oracle log_data db with
  | Ok result => Success result
  | Raise _ => HTTPException 500
  end.

(** The line that [ingest_bulk_logs] writes for one log of the request;
    [now] is the reading of the clock for it. *)
Definition bulk_line (log : LogData) (now : instant) : string :=
  let timestamp :=
    match ld_timestamp log with
    | Some (String c t) => String c t
    | _ => isoformat pw now
    end in
  let username :=
    match ld_username log with
    | Some (String c u) => String c u
    | _ => "unknown"
    end in
  let log_line :=
    timestamp ++ " " ++ ld_source_ip log ++ " " ++ username ++ " "
    ++ ld_event_type log ++ " " ++ ld_status log in
  match ld_raw_log log with
  | Some (String c r) => log_line ++ " " ++ String c r
  | _ => log_line
  end.

Fixpoint bulk_lines (logs : list LogData) (k : nat) : list string :=
  match logs with
  | [] => []
  | log :: logs' => bulk_line log (utcnow oracle k) :: bulk_lines logs' (S k)
  end.

(** POST /api/logs/bulk *)
Definition ingest_bulk_logs (logs : list LogData) (db : Session)
  : response (Session * IngestResult) :=
  let log_lines := bulk_lines logs 0 in
  match IngestionService.ingest_logs_from_text settings pw world libm oracle
          log_lines None db with
  | Ok result => Success result
  | Raise _ => HTTPException 500
  end.

(** GET /api/dashboard/stats *)
Definition get_dashboard_stats (db : Session) (severity : option string)
  (limit : nat) : DashboardStats :=
  let alerts_by_severity := AlertManager.get_alert_statistics db in
  {| total_logs := Z.of_nat (List.length (log_entries db));
     alerts_by_severity := alerts_by_severity;
     recent_alerts := AlertManager.get_alerts db severity None (Some false) limit 0;
     total_alerts := counter_get "total" alerts_by_severity |}.

(** The query of GET /api/alerts/export, before it is encoded. *)
Definition export_alerts (db : Session) (severity rule_name : option string)
  (resolved : option bool) (start_date end_date : option string)
  : response (list Alert.t) :=
  let parse (date : option string) : res (option instant) :=
    match date with
    | Some (String c d) =>
        t <- fromisoformat (replace_Z (String c d)) ;; Ok (Some t)
    | _ => Ok None
    end in
  match (start_datetime <- parse start_date ;;
         end_datetime <- parse end_date ;;
         Ok (start_datetime, end_datetime)) with
  | Ok (start_datetime, end_datetime) =>
      let query := alerts db in
      let query := filter_if_str (fun a => Some (Alert.severity a)) severity query in
      let query := filter_if_str (fun a => Some (Alert.rule_name a)) rule_name query in
      let query := filter_if_bool Alert.resolved resolved query in
      let query := filter_since Alert.triggered_at start_datetime query in
      let query := filter_until Alert.triggered_at end_datetime query in
      Success (order_by_desc Alert.triggered_at query)
  | Raise _ => HTTPException 500
  end.

(** GET /api/alerts/{alert_id} *)
Definition get_alert_detail (alert_id : string) (db : Session)
  : response AlertDetail :=
  match AlertManager.find_alert alert_id db with
  | None => HTTPException 404
  | Some alert =>
      Success {|
        detail_alert := alert;
        detail_log_entry :=
          match Alert.log_entry_id alert with
          | Some log_entry_id =>
              if log_entry_id =? 0 then None
              else first (filter (fun e => LogEntry.id e =? log_entry_id)
                                 (log_entries db))
          | None => None
          end |}
  end.

(** POST /api/alerts/{alert_id}/acknowledge *)
Definition acknowledge_alert (alert_id : string) (analyst : option string)
  (db : Session) (now : instant) : Session * response unit :=
  match AlertManager.find_alert alert_id db with
  | None => (db, HTTPException 404)
  | Some _ =>
      ({| log_entries := log_entries db;
          alerts := AlertManager.update_first alert_id
                      (AlertManager.acknowledge analyst now) (alerts db) |},
       Success tt)
  end.

(** POST /api/alerts/{alert_id}/resolve *)
Definition resolve_alert (alert_id : string) (analyst : option string)
  (db : Session) (now now' : instant) : Session * response unit :=
  match AlertManager.find_alert alert_id db with
  | None => (db, HTTPException 404)
  | Some _ =>
      ({| log_entries := log_entries db;
          alerts := AlertManager.update_first alert_id
                      (AlertManager.resolve analyst now now') (alerts db) |},
       Success tt)
  end.

(** [alert.notes = notes] *)
Definition set_notes (notes : string) (alert : Alert.t) : Alert.t := {|
  Alert.id := Alert.id alert;
  Alert.alert_id := Alert.alert_id alert;
  Alert.rule_name := Alert.rule_name alert;
  Alert.severity := Alert.severity alert;
  Alert.description := Alert.description alert;
  Alert.context := Alert.context alert;
  Alert.source_ip := Alert.source_ip alert;
  Alert.username := Alert.username alert;
  Alert.log_entry_id := Alert.log_entry_id alert;
  Alert.triggered_at := Alert.triggered_at alert;
  Alert.acknowledged := Alert.acknowledged alert;
  Alert.acknowledged_by := Alert.acknowledged_by alert;
  Alert.acknowledged_at := Alert.acknowledged_at alert;
  Alert.resolved := Alert.resolved alert;
  Alert.resolved_by := Alert.resolved_by alert;
  Alert.resolved_at := Alert.resolved_at alert;
  Alert.notes := Some notes
|}.

(** PUT /api/alerts/{alert_id}/notes *)
Definition update_alert_notes (alert_id notes : string) (db : Session)
  : Session * response unit :=
  match AlertManager.find_alert alert_id db with
  | None => (db, HTTPException 404)
  | Some _ =>
      ({| log_entries := log_entries db;
          alerts := AlertManager.update_first alert_id (set_notes notes) (alerts db) |},
       Success tt)
  end.

(** GET /api/logs, for non-negative [limit] and [offset]. *)
Definition search_logs (db : Session)
  (source_ip username event_type status start_date end_date : option string)
  (limit offset : nat) : response LogPage :=
  let query := log_entries db in
  let query := filter_if_str (fun e => Some (LogEntry.source_ip e)) source_ip query in
  let query := filter_if_str LogEntry.username username query in
  let query := filter_if_str (fun e => Some (LogEntry.event_type e)) event_type query in
  let query := filter_if_str (fun e => Some (LogEntry.status e)) status query in
  let parse (date : option string) : res (option instant) :=
    match date with
    | Some (String c d) =>
        t <- fromisoformat (replace_Z (String c d)) ;; Ok (Some t)
    | _ => Ok None
    end in
  match (start_datetime <- parse start_date ;;
         end_datetime <- parse end_date ;;
         Ok (start_datetime, end_datetime)) with
  | Ok (start_datetime, end_datetime) =>
      let query := filter_since LogEntry.timestamp start_datetime query in
      let query := filter_until LogEntry.timestamp end_datetime query in
      Success {|
        logs := paginate offset limit (order_by_desc LogEntry.timestamp query);
        total := Z.of_nat (List.length query);
        page_limit := limit;
        page_offset := offset |}
  | Raise _ => HTTPException 500
  end.

(** GET /api/logs/{log_id} *)
Definition get_log_detail (log_id : Z) (db : Session) : response LogEntry.t :=
  match first (filter (fun e => LogEntry.id e =? log_id) (log_entries db)) with
  | Some log => Success log
  | None => HTTPException 404
  end.
End WithEnvironment.
End Routes.

(* ================================================================== *)
(** ** Vocabulary of the properties *)

(** An event that counts for the brute-force rule: a failed login from [ip]
    with a timestamp in [[lo, hi]]. *)
Definition failed_login_from (ip : string) (lo hi : instant) (r : LogEntry.t) : Prop :=
  LogEntry.source_ip r = ip /\ LogEntry.status r = "failed"
  /\ LogEntry.event_type r = "login"
  /\ lo <= LogEntry.timestamp r <= hi.

Definition failed_login_fromb (ip : string) (lo hi : instant) (r : LogEntry.t) : bool :=
  String.eqb (LogEntry.source_ip r) ip && String.eqb (LogEntry.status r) "failed"
  && String.eqb (LogEntry.event_type r) "login"
  && (lo <=? LogEntry.timestamp r) && (LogEntry.timestamp r <=? hi).

(** The number of rows of [rows] that satisfy [p]. *)
Definition count_rows {A : Type} (p : A -> bool) (rows : list A) : Z :=
  Z.of_nat (List.length (filter p rows)).

(** An unresolved alert of [rule] for the address [ip], triggered at or
    after [since]. *)
Definition open_alert_for_ip (rule ip : string) (since : instant) (a : Alert.t) : Prop :=
  Alert.rule_name a = rule /\ Alert.source_ip a = Some ip
  /\ Alert.resolved a = false /\ since <= Alert.triggered_at a.

(** An unresolved alert of [rule] for the user [user], triggered at or
    after [since]. *)
Definition open_alert_for_user (rule : string) (user : option string)
  (since : instant) (a : Alert.t) : Prop :=
  Alert.rule_name a = rule /\ Alert.username a = user
  /\ Alert.resolved a = false /\ since <= Alert.triggered_at a.

(** [kw] occurs in [raw] up to the case of ASCII letters. *)
Definition matches_ignoring_case (kw raw : string) : Prop :=
  exists pre mid post, raw = pre ++ mid ++ post /\ lower mid = kw.

(** The three lifecycle invariants of an alert. *)
Definition lifecycle_ok (a : Alert.t) : Prop :=
  (Alert.resolved a = true -> Alert.acknowledged a = true)
  /\ (Alert.resolved a = true -> Alert.resolved_at a <> None)
  /\ (Alert.acknowledged a = true -> Alert.acknowledged_at a <> None).

(** The invariant carried along [reachable]: the three lifecycle
    implications and the converse of the third. *)
Definition alert_inv (a : Alert.t) : Prop :=
  lifecycle_ok a /\ (Alert.acknowledged a = false -> Alert.acknowledged_at a = None).

(** [c] occurs in [s]. *)
Fixpoint has_char (c : ascii) (s : string) : bool :=
  match s with
  | EmptyString => false
  | String d s' => Ascii.eqb d c || has_char c s'
  end.

(** A successful login of the same user from another address, within the
    hour before [e], with a stored latitude. *)
Definition prior_login_of (e r : LogEntry.t) : Prop :=
  LogEntry.username r = LogEntry.username e
  /\ LogEntry.status r = "success" /\ LogEntry.event_type r = "login"
  /\ LogEntry.timestamp e - timedelta_hours 1 <= LogEntry.timestamp r
     < LogEntry.timestamp e
  /\ LogEntry.source_ip r <> LogEntry.source_ip e
  /\ LogEntry.latitude r <> None.

(** [p] is a most recent such login among the stored events. *)
Definition most_recent_prior_login (e : LogEntry.t) (db : Session) (p : LogEntry.t)
  : Prop :=
  In p (log_entries db) /\ prior_login_of e p
  /\ forall q, In q (log_entries db) -> prior_login_of e q ->
               LogEntry.timestamp q <= LogEntry.timestamp p.

(** [p] is the most recent such login among the stored events: every
    other one is strictly earlier. *)
Definition the_most_recent_prior_login (e : LogEntry.t) (db : Session)
  (p : LogEntry.t) : Prop :=
  In p (log_entries db) /\ prior_login_of e p
  /\ forall q, In q (log_entries db) -> prior_login_of e q ->
               q = p \/ LogEntry.timestamp q < LogEntry.timestamp p.

(** The [status] and [event_type] of an event are lowercase. *)
Definition lowercase_tokens (e : LogEntry.t) : Prop :=
  is_lowercase (LogEntry.status e) = true
  /\ is_lowercase (LogEntry.event_type e) = true.

(** [analyst ?? "System"]: the analyst when one is named, else "System". *)
Definition analyst_or_system (analyst : option string) : string :=
  match analyst with
  | Some (String c s) => String c s
  | _ => "System"
  end.

(** The alerts [a] and [b] agree on every field but [acknowledged_at]. *)
Definition same_up_to_acknowledged_at (a b : Alert.t) : Prop :=
  Alert.id a = Alert.id b /\ Alert.alert_id a = Alert.alert_id b
  /\ Alert.rule_name a = Alert.rule_name b /\ Alert.severity a = Alert.severity b
  /\ Alert.description a = Alert.description b /\ Alert.context a = Alert.context b
  /\ Alert.source_ip a = Alert.source_ip b /\ Alert.username a = Alert.username b
  /\ Alert.log_entry_id a = Alert.log_entry_id b
  /\ Alert.triggered_at a = Alert.triggered_at b
  /\ Alert.acknowledged a = Alert.acknowledged b
  /\ Alert.acknowledged_by a = Alert.acknowledged_by b
  /\ Alert.resolved a = Alert.resolved b /\ Alert.resolved_by a = Alert.resolved_by b
  /\ Alert.resolved_at a = Alert.resolved_at b /\ Alert.notes a = Alert.notes b.

(** The sessions that [create_alert], [acknowledge_alert] and
    [resolve_alert] can produce, starting from an empty alert table. *)
Inductive reachable : Session -> Prop :=
| reach_init (entries : list LogEntry.t) :
    reachable {| log_entries := entries; alerts := [] |}
| reach_create db rule_name severity description context log_entry
    source_ip username new_id now :
    reachable db ->
    reachable (fst (AlertManager.create_alert rule_name severity description
                      context db log_entry source_ip username new_id now))
| reach_acknowledge db alert_id analyst now :
    reachable db ->
    reachable (fst (AlertManager.acknowledge_alert alert_id db analyst now))
| reach_resolve db alert_id analyst now now' :
    reachable db ->
    reachable (fst (AlertManager.resolve_alert alert_id db analyst now now')).

(** The decimal writing of an octet and the dotted quad of four octets. *)
Definition octet_string (n : nat) : string := NilZero.string_of_uint (Nat.to_uint n).

Definition dotted_quad (a b c d : nat) : string :=
  octet_string a ++ "." ++ octet_string b ++ "." ++ octet_string c ++ "."
  ++ octet_string d.

(** The octet [n] is written without a dot and [int] reads it back. *)
Definition octet_checked (n : nat) : bool :=
  negb (has_char "."%char (octet_string n))
  && match py_int (octet_string n) with
     | Some z => z =? Z.of_nat n
     | None => false
     end.

(** 10.0.0.0/8, 172.16.0.0/12, 192.168.0.0/16 and 127.0.0.0/8, by the first
    two octets. *)
Definition private_or_loopback (a b : nat) : Prop :=
  a = 10%nat \/ (a = 172%nat /\ (16 <= b <= 31)%nat)
  \/ (a = 192%nat /\ b = 168%nat) \/ a = 127%nat.

(** The configured reader, if any, raises nothing on [ip] but the two
    exceptions that [get_location] handles. *)
Definition reader_raises_only_handled (world : GeoWorld) (ip : string) : Prop :=
  match geoip_reader world with
  | None => True
  | Some city =>
      forall e, city ip = Raise e -> e = AddressNotFoundError \/ e = ValueError
  end.

(** An unresolved alert of [rule] for the user [user] at the address [ip],
    triggered at or after [since]. *)
Definition open_alert_for_user_ip (rule : string) (user : option string)
  (ip : string) (since : instant) (a : Alert.t) : Prop :=
  Alert.rule_name a = rule /\ Alert.username a = user /\ Alert.source_ip a = Some ip
  /\ Alert.resolved a = false /\ since <= Alert.triggered_at a.

(** [ip] is an entry of the comma-separated blacklist, surrounding
    whitespace apart. *)
Definition blacklisted (settings : Settings) (ip : string) : Prop :=
  exists part, In part (py_split ","%char (ip_blacklist settings)) /\ strip part = ip.

(** The dict that [get_location] builds from an answer of the reader. *)
Definition location_of_response (response : CityResponse) : Location := {|
  loc_country_code := country_iso_code response;
  loc_latitude := location_latitude response;
  loc_longitude := location_longitude response;
  loc_city := city_name response;
  loc_country_name := country_name response
|}.

(** The address that [get_location] requests for [ip]. *)
Definition api_url (ip : string) : string := "http://ip-api.com/json/" ++ ip.

(** [rows] is in decreasing order of [key]. *)
Definition sorted_desc {A : Type} (key : A -> Z) (rows : list A) : Prop :=
  StronglySorted (fun a b => key b <= key a) rows.

(** The alert [a] passes the filters of [get_alerts]: a filter that is
    [None] or empty passes every alert. *)
Definition alert_matches (severity rule_name : option string)
  (resolved : option bool) (a : Alert.t) : Prop :=
  (truthy_str severity = true -> Some (Alert.severity a) = severity)
  /\ (truthy_str rule_name = true -> Some (Alert.rule_name a) = rule_name)
  /\ (forall v, resolved = Some v -> Alert.resolved a = v).

(** The number of unresolved alerts of the given severity. *)
Definition unresolved_with (severity : string) (db : Session) : Z :=
  count_rows (fun a => negb (Alert.resolved a) && String.eqb (Alert.severity a) severity)
             (alerts db).

(** The statistics dict with the given five values. *)
Definition stats_form (critical high medium low total : Z) : counters :=
  [ ("Critical", critical); ("High", high); ("Medium", medium); ("Low", low);
    ("total", total) ].

(** The value of [key] in a list of rows of a grouped query, [default]
    when there is no such row. *)
Definition pick (key : string) (results : list (string * Z)) (default : Z) : Z :=
  match counter_get key results with
  | Some v => v
  | None => default
  end.

(** The alert [a] as ingestion creates it for the stored event [e]: open,
    pointing to [e] and carrying its address and username. *)
Definition issued_for (e : LogEntry.t) (a : Alert.t) : Prop :=
  Alert.log_entry_id a = Some (LogEntry.id e)
  /\ Alert.source_ip a = Some (LogEntry.source_ip e)
  /\ Alert.username a = LogEntry.username e
  /\ Alert.acknowledged a = false /\ Alert.resolved a = false
  /\ Alert.acknowledged_at a = None.

(** [stored] is the row that the database holds for the entry [entry]:
    every field but the row identifier is that of [entry]. *)
Definition stored_as (entry stored : LogEntry.t) : Prop :=
  LogEntry.timestamp stored = LogEntry.timestamp entry
  /\ LogEntry.source_ip stored = LogEntry.source_ip entry
  /\ LogEntry.username stored = LogEntry.username entry
  /\ LogEntry.event_type stored = LogEntry.event_type entry
  /\ LogEntry.status stored = LogEntry.status entry
  /\ LogEntry.raw_log stored = LogEntry.raw_log entry
  /\ LogEntry.source_file stored = LogEntry.source_file entry
  /\ LogEntry.country_code stored = LogEntry.country_code entry
  /\ LogEntry.latitude stored = LogEntry.latitude entry
  /\ LogEntry.longitude stored = LogEntry.longitude entry.

(** [db'] is [db] with the events [new_entries] and the alerts
    [new_alerts] appended; the events are numbered after those of [db] and
    every new alert was issued for one of them. *)
Definition ingested_into (db db' : Session) (new_entries : list LogEntry.t)
  (new_alerts : list Alert.t) : Prop :=
  log_entries db' = (log_entries db ++ new_entries)%list
  /\ alerts db' = (alerts db ++ new_alerts)%list
  /\ Forall (fun a => exists e, In e new_entries /\ issued_for e a) new_alerts
  /\ map LogEntry.id new_entries
     = map (fun k => Z.of_nat (List.length (log_entries db) + k))
           (seq 1 (List.length new_entries)).

(** The events are numbered 1, 2, ... in the order of the table. *)
Definition ids_sequential (db : Session) : Prop :=
  map LogEntry.id (log_entries db)
  = map Z.of_nat (seq 1 (List.length (log_entries db))).

(** Every alert points to a stored event with the same source address. *)
Definition alerts_reference_events (db : Session) : Prop :=
  forall a, In a (alerts db) ->
            exists e, In e (log_entries db)
                      /\ Alert.log_entry_id a = Some (LogEntry.id e)
                      /\ Alert.source_ip a = Some (LogEntry.source_ip e).

(** The sessions that completed requests of the API leave, starting from
    the empty database: the three ingestion paths, and the acknowledge,
    resolve and notes operations on alerts. *)
Inductive reachable_api : Session -> Prop :=
| api_init : reachable_api {| log_entries := []; alerts := [] |}
| api_ingest_single settings pw world libm oracle log_data db db' result id :
    reachable_api db ->
    IngestionService.ingest_single_log settings pw world libm oracle log_data db
    = Ok (db', result, id) ->
    reachable_api db'
| api_ingest_text settings pw world libm oracle log_lines source_file db db' result :
    reachable_api db ->
    IngestionService.ingest_logs_from_text settings pw world libm oracle
      log_lines source_file db = Ok (db', result) ->
    reachable_api db'
| api_ingest_file settings pw world libm oracle lines source_file db :
    reachable_api db ->
    reachable_api (fst (IngestionService.ingest_logs_from_file settings pw world libm
                          oracle lines source_file db))
| api_acknowledge alert_id analyst db now :
    reachable_api db ->
    reachable_api (fst (Routes.acknowledge_alert alert_id analyst db now))
| api_resolve alert_id analyst db now now' :
    reachable_api db ->
    reachable_api (fst (Routes.resolve_alert alert_id analyst db now now'))
| api_notes alert_id notes db :
    reachable_api db ->
    reachable_api (fst (Routes.update_alert_notes alert_id notes db)).

(** The reading of an optional date of a query string, as [search_logs]
    and [export_alerts] do it: [None] and the empty string set no bound. *)
Definition date_bound (fromisoformat : string -> res instant)
  (date : option string) : res (option instant) :=
  match date with
  | Some (String c d) =>
      t <- fromisoformat (replace_Z (String c d)) ;; Ok (Some t)
  | _ => Ok None
  end.

(** The event [e] passes the filters of [search_logs]; [since] and [until]
    are the bounds read from the two dates. *)
Definition log_matches (source_ip username event_type status : option string)
  (since until : option instant) (e : LogEntry.t) : Prop :=
  (truthy_str source_ip = true -> Some (LogEntry.source_ip e) = source_ip)
  /\ (truthy_str username = true -> LogEntry.username e = username)
  /\ (truthy_str event_type = true -> Some (LogEntry.event_type e) = event_type)
  /\ (truthy_str status = true -> Some (LogEntry.status e) = status)
  /\ (forall t, since = Some t -> t <= LogEntry.timestamp e)
  /\ (forall t, until = Some t -> LogEntry.timestamp e <= t).

(** The four severities that the statistics count. *)
Definition counted_severities : list string := ["Critical"; "High"; "Medium"; "Low"].

(* ================================================================== *)
(** ** Sample data for the examples *)

Module Sample.

(** Values of the C library (glibc, binary64) at the arguments that the
    examples below reach; any other argument raises. *)
Definition sin_table : list (float * float) :=
  [ ((-0x1.2ad29d006f8d0p-6)%float, (-0x1.2ace5f4537140p-6)%float);
    ((0x1.24c7991e59b1ep+1)%float, (0x1.8216b40060078p-1)%float);
    ((-0x1.1df46a2529d39p-3)%float, (-0x1.1d06c968d9e19p-3)%float);
    ((-0x1.921fb54442d18p+0)%float, (-0x1.0000000000000p+0)%float);
    ((-0x1.3ed6ec1ca31ddp-2)%float, (-0x1.39b66bb0ee71dp-2)%float);
    ((-0x1.0f4cb039a8a49p-2)%float, (-0x1.0c2302f357526p-2)%float);
    ((0x1.3ed6ec1ca31ddp-2)%float, (0x1.39b66bb0ee71dp-2)%float);
    ((0x1.0f4cb039a8a49p-2)%float, (0x1.0c2302f357526p-2)%float);
    ((-0x1.1a615c04b2e74p-3)%float, (-0x1.197c86b1f1e44p-3)%float);
    ((0x1.3812095bf51b3p+0)%float, (0x1.e0a5aa72b981ep-1)%float) ].

Definition cos_table : list (float * float) :=
  [ ((0x1.518415ecaa16ap-1)%float, (0x1.94b93f32a6a36p-1)%float);
    ((0x1.3ed6ec1ca31ddp-1)%float, (0x1.9fe41aab03035p-1)%float);
    ((0x1.1df46a2529d39p-3)%float, (0x1.fb046a930947ap-1)%float);
    ((-0x1.1df46a2529d39p-3)%float, (0x1.fb046a930947ap-1)%float);
    (0%float, 1%float);
    ((0x1.cc079a1efc917p-1)%float, (0x1.3ede0a3b16f94p-1)%float) ].

Definition square_table : list (float * float) :=
  [ ((-0x1.2ace5f4537140p-6)%float, (0x1.5cc51c2a9b13ap-12)%float);
    ((0x1.8216b40060078p-1)%float, (0x1.23243c6a481bdp-1)%float);
    ((-0x1.1d06c968d9e19p-3)%float, (0x1.3d581ca184804p-6)%float);
    ((-1)%float, 1%float);
    ((-0x1.39b66bb0ee71dp-2)%float, (0x1.806f9553f3f2cp-4)%float);
    ((-0x1.0c2302f357526p-2)%float, (0x1.18d952f74d671p-4)%float);
    ((0x1.39b66bb0ee71dp-2)%float, (0x1.806f9553f3f2cp-4)%float);
    ((0x1.0c2302f357526p-2)%float, (0x1.18d952f74d671p-4)%float);
    ((-0x1.197c86b1f1e44p-3)%float, (0x1.35829c4568483p-6)%float);
    ((0x1.e0a5aa72b981ep-1)%float, (0x1.c336d531b0836p-1)%float) ].

Definition atan2_table : list (float * float * float) :=
  [ ((0x1.35843d581868cp-1)%float, (0x1.97da3051ab7fbp-1)%float,
     (0x1.4c5fdc1958323p-1)%float);
    ((0x1.8c0046f17dc54p-2)%float, (0x1.d82a3d54e30dep-1)%float,
     (0x1.969a0a9dcf3f1p-2)%float);
    ((0x1.5d07b25f42ea0p-1)%float, (0x1.7698865965c84p-1)%float,
     (0x1.800ada8aee7f6p-1)%float) ].

Definition tabulated (table : list (float * float)) (x : float) : res float :=
  match find (fun kv => PrimFloat.eqb (fst kv) x) table with
  | Some kv => Ok (snd kv)
  | None => Raise (OtherException "not tabulated")
  end.

Definition libm : Libm := {|
  math_sin := tabulated sin_table;
  math_cos := tabulated cos_table;
  math_atan2 := fun y x =>
    match find (fun e => PrimFloat.eqb (fst (fst e)) y && PrimFloat.eqb (snd (fst e)) x)
               atan2_table with
    | Some e => Ok (snd e)
    | None => Raise (OtherException "not tabulated")
    end;
  float_pow := fun x y =>
    if PrimFloat.eqb y 2%float then tabulated square_table x
    else Raise (OtherException "not tabulated")
|}.

(** Coordinates: San Francisco, Tokyo, a point on the equator (Pontianak)
    and a point on the prime meridian (Greenwich). *)
Definition lat_sf : float := 0x1.2e28f5c28f5c3p+5%float.     (* 37.77 *)
Definition lon_sf : float := (-0x1.e9ae147ae147bp+6)%float.  (* -122.42 *)
Definition lat_tokyo : float := 0x1.1d70a3d70a3d7p+5%float.  (* 35.68 *)
Definition lon_tokyo : float := 0x1.176147ae147aep+7%float.  (* 139.69 *)
Definition lon_pontianak : float := 0x1.b551eb851eb85p+6%float. (* 109.33 *)
Definition lat_greenwich : float := 0x1.9bd70a3d70a3dp+5%float. (* 51.48 *)

Definition api_answer (cc : string) (lat lon : float) : res HttpResponse :=
  Ok {| status_code := 200;
        json := Ok {| api_status := Some "success";
                      api_countryCode := Some cc;
                      api_lat := Some lat;
                      api_lon := Some lon;
                      api_city := None;
                      api_country := None |} |}.

(** No local database; ip-api.com knows three addresses. *)
Definition world : GeoWorld := {|
  geoip_reader := None;
  requests_get := fun url =>
    if String.eqb url "http://ip-api.com/json/198.51.100.10"
    then api_answer "US" lat_sf lon_sf
    else if String.eqb url "http://ip-api.com/json/203.0.113.20"
    then api_answer "JP" lat_tokyo lon_tokyo
    else if String.eqb url "http://ip-api.com/json/203.0.113.30"
    then api_answer "ID" 0%float lon_pontianak
    else Raise (OtherException "ConnectionError")
|}.

(** A local database that is not a City database: [city] raises
    [TypeError]. *)
Definition world_with_country_db : GeoWorld := {|
  geoip_reader := Some (fun _ => Raise TypeError);
  requests_get := requests_get world
|}.

(** A local database that knows no address. *)
Definition world_with_empty_db : GeoWorld := {|
  geoip_reader := Some (fun _ => Raise AddressNotFoundError);
  requests_get := requests_get world
|}.

Definition parser_world : ParserWorld := {|
  pattern_search := fun _ _ => None;
  ip_search := fun _ => None;
  dt_fromisoformat := fun _ => None;
  py_float := fun _ => None;
  dt_fromtimestamp := fun _ => Raise ValueError;
  dt_strptime := fun _ _ => None;
  isoformat := fun _ => ""
|}.

Definition oracle : Oracle := {|
  utcnow := fun k => 1714566600000000 + Z.of_nat k;
  uuid4 := fun k => "00000000-0000-4000-8000-00000000000" ++ octet_string k
|}.

Definition empty_session : Session := {| log_entries := []; alerts := [] |}.

Definition login (id : Z) (t : instant) (ip user status : string)
  (lat lon : option float) : LogEntry.t := {|
  LogEntry.id := id;
  LogEntry.timestamp := t;
  LogEntry.source_ip := ip;
  LogEntry.username := Some user;
  LogEntry.event_type := "login";
  LogEntry.status := status;
  LogEntry.raw_log := None;
  LogEntry.source_file := None;
  LogEntry.country_code := None;
  LogEntry.latitude := lat;
  LogEntry.longitude := lon
|}.

(** 2024-05-01T10:00:00 and the four following minutes: five failed
    logins from 203.0.113.7. *)
Definition t_10_00 : instant := 1714557600000000.

Definition failed_attempt (k : Z) : LogEntry.t :=
  login (k + 1) (t_10_00 + k * usec_per_minute) "203.0.113.7" "user" "failed" None None.

Definition brute_force_session : Session := {|
  log_entries := map failed_attempt [0; 1; 2; 3; 4];
  alerts := []
|}.

(** Thursday 2024-05-02 at 03:15 and at 10:15, Saturday 2024-05-04 at
    03:15. *)
Definition thursday_03_15 : instant := 1714619700000000.
Definition thursday_10_15 : instant := 1714644900000000.
Definition saturday_03_15 : instant := 1714792500000000.

(** 2024-05-01T12:00:00 and 12:30:00: alice logs in from San Francisco,
    then from elsewhere. *)
Definition t_12_00 : instant := 1714564800000000.
Definition t_12_30 : instant := 1714566600000000.

Definition alice_sf : LogEntry.t :=
  login 1 t_12_00 "198.51.100.10" "alice" "success" (Some lat_sf) (Some lon_sf).
Definition alice_tokyo_earlier : LogEntry.t :=
  login 1 t_12_00 "203.0.113.20" "alice" "success" (Some lat_tokyo) (Some lon_tokyo).
Definition alice_equator_earlier : LogEntry.t :=
  login 1 t_12_00 "203.0.113.30" "alice" "success" (Some 0%float) (Some lon_pontianak).
Definition alice_greenwich_earlier : LogEntry.t :=
  login 1 t_12_00 "192.0.2.40" "alice" "success" (Some lat_greenwich) (Some 0%float).

Definition alice_tokyo : LogEntry.t :=
  login 2 t_12_30 "203.0.113.20" "alice" "success" (Some lat_tokyo) (Some lon_tokyo).
Definition alice_equator : LogEntry.t :=
  login 2 t_12_30 "203.0.113.30" "alice" "success" (Some 0%float) (Some lon_pontianak).

Definition session_of (entries : list LogEntry.t) : Session :=
  {| log_entries := entries; alerts := [] |}.

(** An escalation keyword in the raw line of an ordinary event. *)
Definition sudo_line : LogEntry.t := {|
  LogEntry.id := 1;
  LogEntry.timestamp := t_12_00;
  LogEntry.source_ip := "198.51.100.11";
  LogEntry.username := Some "bob";
  LogEntry.event_type := "authentication";
  LogEntry.status := "success";
  LogEntry.raw_log := Some "bob ran SUDO apt update";
  LogEntry.source_file := None;
  LogEntry.country_code := None;
  LogEntry.latitude := None;
  LogEntry.longitude := None
|}.

(** An open alert, as [create_alert] stores it. *)
Definition open_alert : Alert.t := {|
  Alert.id := 1;
  Alert.alert_id := "a-1";
  Alert.rule_name := "blacklisted_ip";
  Alert.severity := "Critical";
  Alert.description := [];
  Alert.context := None;
  Alert.source_ip := Some "10.0.0.100";
  Alert.username := None;
  Alert.log_entry_id := None;
  Alert.triggered_at := t_12_00;
  Alert.acknowledged := false;
  Alert.acknowledged_by := None;
  Alert.acknowledged_at := None;
  Alert.resolved := false;
  Alert.resolved_by := None;
  Alert.resolved_at := None;
  Alert.notes := None
|}.

Definition session_with_alert : Session :=
  {| log_entries := []; alerts := [open_alert] |}.

(** A request of the single-event API from a blacklisted address. *)
Definition blacklisted_request : LogData := {|
  ld_timestamp := None;
  ld_source_ip := "10.0.0.100";
  ld_username := Some "mallory";
  ld_event_type := "login";
  ld_status := "failed";
  ld_raw_log := None
|}.

(** The database that [blacklisted_request] leaves on the empty one. *)
Definition blacklisted_session : Session :=
  match IngestionService.ingest_single_log default_settings parser_world world libm
          oracle blacklisted_request empty_session with
  | Ok (db, _, _) => db
  | Raise _ => empty_session
  end.

(** The identifier of the alert of [blacklisted_session]. *)
Definition blacklisted_alert_id : string := "00000000-0000-4000-8000-000000000001".

(** A request of the single-event API with upper-case tokens. *)
Definition upper_case_request : LogData := {|
  ld_timestamp := None;
  ld_source_ip := "203.0.113.7";
  ld_username := Some "mallory";
  ld_event_type := "LOGIN";
  ld_status := "FAILED";
  ld_raw_log := None
|}.

End Sample.

(* ================================================================== *)
(** ** General lemmas *)

(** Splits the conjunctions of the goal as they are written. *)
Ltac conjs := repeat match goal with |- _ /\ _ => split end.

Lemma bind_Ok_inv {A B : Type} (m : res A) (k : A -> res B) (b : B) :
  bind m k = Ok b -> exists a, m = Ok a /\ k a = Ok b.
Proof. destruct m as [a|e]; simpl; [now exists a | discriminate]. Qed.

Lemma first_filter_none {A : Type} (p : A -> bool) (rows : list A) :
  first (filter p rows) = None <-> forall a, In a rows -> p a = false.
Proof.
  unfold first. induction rows as [|a rows IH]; simpl.
  - split; [intros _ a [] | reflexivity].
  - destruct (p a) eqn:Ha; simpl.
    + split; [discriminate|].
      intros H. rewrite (H a (or_introl eq_refl)) in Ha. discriminate.
    + rewrite IH. split.
      * intros H b [<-|Hb]; auto.
      * intros H b Hb. apply H. now right.
Qed.

Lemma first_filter_some {A : Type} (p : A -> bool) (rows : list A) (a : A) :
  first (filter p rows) = Some a -> In a rows /\ p a = true.
Proof.
  unfold first. intros H.
  assert (Hin : In a (filter p rows)).
  { destruct (filter p rows); simpl in H; [discriminate|].
    injection H as ->. now left. }
  now apply filter_In in Hin.
Qed.

Lemma opt_str_eqb_eq (a b : option string) : opt_str_eqb a b = true <-> a = b.
Proof.
  destruct a as [x|], b as [y|]; simpl; try (split; congruence).
  rewrite String.eqb_eq. split; congruence.
Qed.

Lemma failed_login_fromb_spec ip lo hi r :
  failed_login_fromb ip lo hi r = true <-> failed_login_from ip lo hi r.
Proof.
  unfold failed_login_fromb, failed_login_from.
  rewrite !andb_true_iff, !String.eqb_eq, !Z.leb_le. tauto.
Qed.

Lemma recent_alert_by_ip_none rule ip since db :
  recent_alert_by_ip rule ip since db = None
  <-> ~ exists a, In a (alerts db) /\ open_alert_for_ip rule ip since a.
Proof.
  unfold recent_alert_by_ip. rewrite first_filter_none. split.
  - intros H (a & Ha & Hr & Hi & Hres & Ht).
    specialize (H a Ha).
    rewrite (proj2 (String.eqb_eq _ _) Hr), (proj2 (opt_str_eqb_eq _ _) Hi),
      (proj2 (Z.leb_le _ _) Ht), Hres in H.
    discriminate.
  - intros H a Ha.
    destruct (_ && _) eqn:E; [|reflexivity].
    exfalso. apply H. exists a. split; [assumption|].
    rewrite !andb_true_iff, String.eqb_eq, opt_str_eqb_eq, Z.leb_le,
      negb_true_iff in E.
    unfold open_alert_for_ip. tauto.
Qed.

Lemma recent_alert_by_user_none rule user since db :
  recent_alert_by_user rule user since db = None
  <-> ~ exists a, In a (alerts db) /\ open_alert_for_user rule user since a.
Proof.
  unfold recent_alert_by_user. rewrite first_filter_none. split.
  - intros H (a & Ha & Hr & Hu & Hres & Ht).
    specialize (H a Ha).
    rewrite (proj2 (String.eqb_eq _ _) Hr), (proj2 (opt_str_eqb_eq _ _) Hu),
      (proj2 (Z.leb_le _ _) Ht), Hres in H.
    discriminate.
  - intros H a Ha.
    destruct (_ && _) eqn:E; [|reflexivity].
    exfalso. apply H. exists a. split; [assumption|].
    rewrite !andb_true_iff, String.eqb_eq, opt_str_eqb_eq, Z.leb_le,
      negb_true_iff in E.
    unfold open_alert_for_user. tauto.
Qed.

Lemma Ok_inj {A : Type} (a b : A) : Ok a = Ok b -> a = b.
Proof. intros H. now injection H. Qed.

Lemma weekday_range (t : instant) : 0 <= weekday t < 7.
Proof. unfold weekday. apply Z.mod_pos_bound. lia. Qed.

(* ================================================================== *)
(** ** Business hours *)

(** C7. [is_business_hours t start end] is false when [t] falls on a
    Saturday (weekday 5) or a Sunday (weekday 6); on any other day it is
    true exactly when [start <= t.hour < end].  The assumption
    [start < end] of the configuration is not needed. *)
Theorem is_business_hours_spec (t : instant) (start_hour end_hour : Z) :
  ((weekday t = 5 \/ weekday t = 6) ->
   is_business_hours t start_hour end_hour = false)
  /\ (~ (weekday t = 5 \/ weekday t = 6) ->
      (is_business_hours t start_hour end_hour = true
       <-> start_hour <= hour t < end_hour)).
Proof.
  unfold is_business_hours. pose proof (weekday_range t) as Hr. split.
  - intros Hw. destruct (Z.leb_spec 5 (weekday t)); [reflexivity | lia].
  - intros Hw. destruct (Z.leb_spec 5 (weekday t)); [lia|].
    rewrite andb_true_iff, Z.leb_le, Z.ltb_lt. tauto.
Qed.

Lemma is_business_hours_examples :
  is_business_hours Sample.saturday_03_15 8 18 = false
  /\ (is_business_hours Sample.thursday_10_15 8 18 = true
      <-> 8 <= hour Sample.thursday_10_15 < 18).
Proof.
  split.
  - apply (proj1 (is_business_hours_spec Sample.saturday_03_15 8 18)).
    left. reflexivity.
  - apply (proj2 (is_business_hours_spec Sample.thursday_10_15 8 18)).
    intros [H|H]; discriminate H.
Defined.

(* ================================================================== *)
(** ** Brute-force rule *)

(** C1. For a failed login [e] with a non-empty source address, the
    brute-force rule returns a result exactly when the number of stored
    failed logins from that address with a timestamp in
    [[e.timestamp - W, e.timestamp]] reaches the threshold and no unresolved
    [brute_force_login] alert for that address was triggered at or after
    [e.timestamp - W]; [failed_attempts] in the returned context is that
    number. *)
Theorem brute_force_check_spec (settings : Settings) (e : LogEntry.t) (db : Session) :
  LogEntry.event_type e = "login" ->
  LogEntry.status e = "failed" ->
  LogEntry.source_ip e <> "" ->
  let W := timedelta_minutes (brute_force_window_minutes settings) in
  let since := LogEntry.timestamp e - W in
  let count :=
    count_rows (failed_login_fromb (LogEntry.source_ip e) since (LogEntry.timestamp e))
               (log_entries db) in
  ((exists r, BruteForceDetectionRule.check settings e db = Ok (Some r))
   <-> (brute_force_threshold settings <= count
        /\ ~ exists a, In a (alerts db)
                       /\ open_alert_for_ip "brute_force_login"
                            (LogEntry.source_ip e) since a))
  /\ (forall r, BruteForceDetectionRule.check settings e db = Ok (Some r) ->
                ctx_get "failed_attempts" (result_context r) = Some (VInt count)).
Proof.
  intros Hty Hst Hip W since count.
  assert (Hcount : Z.of_nat (List.length (BruteForceDetectionRule.failed_logins settings e db))
                   = count) by reflexivity.
  unfold BruteForceDetectionRule.check.
  rewrite Hty, Hst. simpl (negb _ || negb _).
  destruct (String.eqb_spec (LogEntry.source_ip e) "") as [E|_]; [contradiction|].
  rewrite Hcount. fold W. fold since.
  change BruteForceDetectionRule.rule_name with "brute_force_login".
  pose proof (recent_alert_by_ip_none "brute_force_login" (LogEntry.source_ip e) since db)
    as Hnone.
  destruct (Z.leb_spec (brute_force_threshold settings) count) as [Hge|Hlt].
  - destruct (recent_alert_by_ip _ _ _ _) as [a|] eqn:Hrecent.
    + split.
      * split; [intros [r Hr]; discriminate|].
        intros [_ Hno]. apply Hnone in Hno. discriminate.
      * intros r Hr. discriminate.
    + split.
      * split; [|intros _; eexists; reflexivity].
        intros _. split; [assumption|]. now apply Hnone.
      * intros r Hr. injection Hr as <-. reflexivity.
  - split.
    + split; [intros [r Hr]; discriminate | lia].
    + intros r Hr. discriminate.
Qed.

Lemma brute_force_check_example :
  (exists r, BruteForceDetectionRule.check default_settings
               (Sample.failed_attempt 4) Sample.brute_force_session = Ok (Some r))
  /\ forall r, BruteForceDetectionRule.check default_settings
                 (Sample.failed_attempt 4) Sample.brute_force_session = Ok (Some r) ->
               ctx_get "failed_attempts" (result_context r) = Some (VInt 5).
Proof.
  assert (Hip : LogEntry.source_ip (Sample.failed_attempt 4) <> "") by discriminate.
  destruct (brute_force_check_spec default_settings (Sample.failed_attempt 4)
              Sample.brute_force_session eq_refl eq_refl Hip) as [Hiff Hctx].
  split.
  - apply Hiff. split.
    + vm_compute. discriminate.
    + intros (a & Ha & _). destruct Ha.
  - exact Hctx.
Defined.

(* ================================================================== *)
(** ** Strings *)

Lemma prefix_app (a b : string) :
  String.prefix a b = true <-> exists post, b = a ++ post.
Proof.
  revert b. induction a as [|c a IH]; intros b.
  - split; [intros _; now exists b | intros _; destruct b; reflexivity].
  - destruct b as [|d b]; simpl.
    + split; [discriminate | intros [post H]; discriminate].
    + destruct (Ascii.ascii_dec c d) as [->|Hcd].
      * rewrite IH. split; intros [post H]; exists post; congruence.
      * split; [discriminate | intros [post H]; congruence].
Qed.

Lemma contains_app (needle hay : string) :
  contains needle hay = true <-> exists pre post, hay = pre ++ needle ++ post.
Proof.
  induction hay as [|c hay IH].
  - cbn [contains]. rewrite orb_false_r, prefix_app. split.
    + intros [post H]. now exists "", post.
    + intros (pre & post & H). destruct pre; [now exists post | discriminate].
  - cbn [contains]. rewrite orb_true_iff, prefix_app, IH. split.
    + intros [[post H] | (pre & post & H)].
      * now exists "", post.
      * exists (String c pre), post. simpl. now rewrite H.
    + intros (pre & post & H). destruct pre as [|d pre].
      * left. now exists post.
      * right. exists pre, post. simpl in H. congruence.
Qed.

Lemma lower_app (a b : string) : lower (a ++ b) = lower a ++ lower b.
Proof. induction a as [|c a IH]; simpl; [reflexivity | now rewrite IH]. Qed.

Lemma lower_eq_app (s a b : string) :
  lower s = a ++ b -> exists s1 s2, s = s1 ++ s2 /\ lower s1 = a /\ lower s2 = b.
Proof.
  revert s. induction a as [|c a IH]; intros s H.
  - now exists "", s.
  - destruct s as [|d s]; [discriminate|].
    simpl in H. injection H as Hc Hs.
    destruct (IH s Hs) as (s1 & s2 & -> & H1 & H2).
    exists (String d s1), s2. simpl. now rewrite Hc, H1, H2.
Qed.

(** [keyword in raw.lower()] is a match of [keyword] in [raw] up to case. *)
Lemma contains_lower (kw raw : string) :
  contains kw (lower raw) = true <-> matches_ignoring_case kw raw.
Proof.
  rewrite contains_app. unfold matches_ignoring_case. split.
  - intros (pre & post & H).
    destruct (lower_eq_app _ _ _ H) as (s1 & s23 & -> & H1 & H23).
    destruct (lower_eq_app _ _ _ H23) as (s2 & s3 & -> & H2 & H3).
    now exists s1, s2, s3.
  - intros (pre & mid & post & -> & <-).
    exists (lower pre), (lower post). now rewrite !lower_app.
Qed.

Lemma py_take_length (n : nat) (s : string) : (String.length (py_take n s) <= n)%nat.
Proof.
  unfold py_take. revert s. induction n as [|n IH]; intros [|c s]; simpl; try lia.
  specialize (IH s). lia.
Qed.

Lemma py_take_prefix (n : nat) (s : string) : exists rest, s = py_take n s ++ rest.
Proof.
  unfold py_take. revert s. induction n as [|n IH]; intros [|c s]; simpl.
  - now exists "".
  - now exists (String c s).
  - now exists "".
  - destruct (IH s) as [rest H]. exists rest. now rewrite <- H.
Qed.

Lemma existsb_eqb_In (x : string) (l : list string) :
  existsb (String.eqb x) l = true <-> In x l.
Proof.
  rewrite existsb_exists. split.
  - intros (y & Hy & E). apply String.eqb_eq in E. now subst.
  - intros H. exists x. split; [assumption | apply String.eqb_refl].
Qed.

(* ================================================================== *)
(** ** Privilege-escalation rule *)

Lemma scan_keywords_some keywords raw e db r :
  PrivilegeEscalationDetectionRule.scan_keywords keywords raw e db = Some r ->
  PrivilegeEscalationDetectionRule.recent_alert e db = None
  /\ exists kw, In kw keywords /\ contains kw (lower raw) = true
                /\ ctx_get "keyword" (result_context r) = Some (VStr kw)
                /\ ctx_get "raw_log" (result_context r) = Some (VStr (py_take 500 raw)).
Proof.
  induction keywords as [|kw keywords IH]; simpl; [discriminate|].
  destruct (contains kw (lower raw)) eqn:Hkw.
  - destruct (PrivilegeEscalationDetectionRule.recent_alert e db) eqn:Hrecent.
    + intros H. destruct (IH H) as [Hn _]. discriminate.
    + intros H. injection H as <-. split; [reflexivity|].
      exists kw. repeat split; auto.
  - intros H. destruct (IH H) as (Hn & kw' & Hin & Hc).
    split; [assumption|]. exists kw'. split; [now right | assumption].
Qed.

Lemma scan_keywords_fires keywords raw e db kw :
  In kw keywords -> contains kw (lower raw) = true ->
  PrivilegeEscalationDetectionRule.recent_alert e db = None ->
  exists r, PrivilegeEscalationDetectionRule.scan_keywords keywords raw e db = Some r.
Proof.
  intros Hin Hkw Hrecent. induction keywords as [|k keywords IH]; [destruct Hin|].
  simpl. rewrite Hrecent.
  destruct (contains k (lower raw)) eqn:Hk; [eexists; reflexivity|].
  destruct Hin as [->|Hin]; [congruence | auto].
Qed.

(** C4. When the event type is one of [privilege_escalation],
    [admin_access], [sudo], [su], the rule fires whatever the stored alerts
    are.  Otherwise it fires exactly when [raw_log] contains, up to case,
    one of the nine keywords and no unresolved [privilege_escalation] alert
    for the same username was triggered in the preceding 30 minutes; the
    context then holds a keyword that matches and the first 500 characters
    of [raw_log] at most. *)
Theorem privilege_escalation_check_spec (e : LogEntry.t) (db : Session) :
  let event_types := ["privilege_escalation"; "admin_access"; "sudo"; "su"] in
  let keywords := ["sudo"; "su"; "admin"; "root"; "elevate"; "privilege";
                   "runas"; "impersonate"; "escalate"] in
  let since := LogEntry.timestamp e - timedelta_minutes 30 in
  (In (LogEntry.event_type e) event_types ->
   exists r, PrivilegeEscalationDetectionRule.check e db = Ok (Some r))
  /\ (~ In (LogEntry.event_type e) event_types ->
      ((exists r, PrivilegeEscalationDetectionRule.check e db = Ok (Some r))
       <-> ((exists raw kw, LogEntry.raw_log e = Some raw /\ In kw keywords
                            /\ matches_ignoring_case kw raw)
            /\ ~ exists a, In a (alerts db)
                           /\ open_alert_for_user "privilege_escalation"
                                (LogEntry.username e) since a))
      /\ forall r,
          PrivilegeEscalationDetectionRule.check e db = Ok (Some r) ->
          exists raw kw,
            LogEntry.raw_log e = Some raw /\ In kw keywords
            /\ matches_ignoring_case kw raw
            /\ ctx_get "keyword" (result_context r) = Some (VStr kw)
            /\ ctx_get "raw_log" (result_context r) = Some (VStr (py_take 500 raw))
            /\ (String.length (py_take 500 raw) <= 500)%nat
            /\ exists rest, raw = py_take 500 raw ++ rest).
Proof.
  intros event_types keywords since.
  unfold PrivilegeEscalationDetectionRule.check.
  change PrivilegeEscalationDetectionRule.escalation_event_types with event_types.
  change PrivilegeEscalationDetectionRule.escalation_keywords with keywords.
  pose proof (existsb_eqb_In (LogEntry.event_type e) event_types) as Hty.
  pose proof (recent_alert_by_user_none "privilege_escalation"
                (LogEntry.username e) since db) as Hnone.
  change (recent_alert_by_user "privilege_escalation" (LogEntry.username e) since db)
    with (PrivilegeEscalationDetectionRule.recent_alert e db) in Hnone.
  assert (Hnonempty : forall kw, In kw keywords -> contains kw "" = false).
  { intros kw Hin. repeat (destruct Hin as [<-|Hin]; [reflexivity|]). destruct Hin. }
  clearbody keywords.
  destruct (existsb _ event_types).
  - split; [intros _; eexists; reflexivity|].
    intros Hn. exfalso. apply Hn, Hty. reflexivity.
  - split; [intros Hin; apply Hty in Hin; discriminate|].
    intros _. destruct (LogEntry.raw_log e) as [[|c raw]|].
    + split.
      * split; [intros [r H]; discriminate|].
        intros [(raw & kw & Hraw & Hin & Hm) _]. injection Hraw as <-.
        apply contains_lower in Hm. change (lower "") with "" in Hm.
        rewrite (Hnonempty kw Hin) in Hm. discriminate.
      * intros r H. discriminate.
    + split.
      * split.
        -- intros [r H]. apply Ok_inj in H.
           apply scan_keywords_some in H. destruct H as (Hrec & kw & Hin & Hkw & _).
           split; [|now apply Hnone].
           exists (String c raw), kw. repeat split; auto. now apply contains_lower.
        -- intros [(raw' & kw & Hraw & Hin & Hm) Hno]. injection Hraw as <-.
           apply contains_lower in Hm. apply Hnone in Hno.
           destruct (scan_keywords_fires keywords _ e db kw Hin Hm Hno) as [r Hr].
           exists r. now rewrite Hr.
      * intros r H. apply Ok_inj in H.
        apply scan_keywords_some in H. destruct H as (_ & kw & Hin & Hkw & Hk & Hraw).
        exists (String c raw), kw. repeat split; auto.
        -- now apply contains_lower.
        -- apply py_take_length.
        -- apply py_take_prefix.
    + split.
      * split; [intros [r H]; discriminate|].
        intros [(raw & kw & Hraw & _) _]. discriminate.
      * intros r H. discriminate.
Qed.

Lemma privilege_escalation_check_example :
  exists r,
    PrivilegeEscalationDetectionRule.check Sample.sudo_line Sample.empty_session
    = Ok (Some r).
Proof.
  destruct (privilege_escalation_check_spec Sample.sudo_line Sample.empty_session)
    as [_ Hkw].
  assert (Hty : ~ In (LogEntry.event_type Sample.sudo_line)
                   ["privilege_escalation"; "admin_access"; "sudo"; "su"]).
  { simpl. intros H. repeat (destruct H as [H|H]; [discriminate H|]). exact H. }
  apply (proj1 (Hkw Hty)). split.
  - exists "bob ran SUDO apt update", "sudo". split; [reflexivity|]. split.
    + simpl. auto.
    + exists "bob ran ", "SUDO", " apt update". split; reflexivity.
  - intros (a & Ha & _). destruct Ha.
Defined.

(* ================================================================== *)
(** ** Alert lifecycle *)

Section UpdateFirst.
Variable alert_id : string.
Variables f g : Alert.t -> Alert.t.
Hypothesis g_keeps_id : forall a, Alert.alert_id (g a) = Alert.alert_id a.

Lemma update_first_twice (rows : list Alert.t) :
  AlertManager.update_first alert_id f (AlertManager.update_first alert_id g rows)
  = AlertManager.update_first alert_id (fun a => f (g a)) rows.
Proof.
  induction rows as [|a rows IH]; simpl; [reflexivity|].
  destruct (String.eqb (Alert.alert_id a) alert_id) eqn:E; simpl.
  - now rewrite g_keeps_id, E.
  - now rewrite E, IH.
Qed.

Lemma find_update_first (entries : list LogEntry.t) (rows : list Alert.t) :
  AlertManager.find_alert alert_id
    {| log_entries := entries; alerts := AlertManager.update_first alert_id g rows |}
  = option_map g (AlertManager.find_alert alert_id
                    {| log_entries := entries; alerts := rows |}).
Proof.
  unfold AlertManager.find_alert, first. simpl.
  induction rows as [|a rows IH]; simpl; [reflexivity|].
  destruct (String.eqb (Alert.alert_id a) alert_id) eqn:E; simpl.
  - now rewrite g_keeps_id, E.
  - now rewrite E.
Qed.
End UpdateFirst.

Lemma update_first_ext (alert_id : string) (f g : Alert.t -> Alert.t)
  (rows : list Alert.t) :
  (forall a, f a = g a) ->
  AlertManager.update_first alert_id f rows = AlertManager.update_first alert_id g rows.
Proof.
  intros H. induction rows as [|a rows IH]; simpl; [reflexivity|].
  now rewrite H, IH.
Qed.

Lemma Forall_update_first (P : Alert.t -> Prop) (alert_id : string)
  (f : Alert.t -> Alert.t) (rows : list Alert.t) :
  (forall a, P a -> P (f a)) -> Forall P rows ->
  Forall P (AlertManager.update_first alert_id f rows).
Proof.
  intros Hf. induction 1 as [|a rows Ha Hrows IH]; simpl; [constructor|].
  destruct (String.eqb (Alert.alert_id a) alert_id); constructor; auto.
Qed.

Lemma or_str_system (analyst : option string) :
  or_str analyst (Some "System") = Some (analyst_or_system analyst).
Proof. destruct analyst as [[|c s]|]; reflexivity. Qed.

Lemma find_alert_session (alert_id : string) (db : Session) :
  AlertManager.find_alert alert_id db
  = AlertManager.find_alert alert_id
      {| log_entries := log_entries db; alerts := alerts db |}.
Proof. reflexivity. Qed.

(** C5 (as the code has it). Two calls of [acknowledge_alert] on the same
    alert with the same analyst leave the session that a single call made at
    the time of the second call leaves.  The alert then agrees with the one
    left by the first call on every field but [acknowledged_at], which holds
    the time of the second call; with equal clock readings the second call
    changes nothing. *)
Theorem acknowledge_twice (alert_id : string) (db : Session)
  (analyst : option string) (now1 now2 : instant) :
  let once := AlertManager.acknowledge_alert alert_id db analyst now1 in
  let twice := AlertManager.acknowledge_alert alert_id (fst once) analyst now2 in
  twice = AlertManager.acknowledge_alert alert_id db analyst now2
  /\ (forall a1 a2, snd once = Some a1 -> snd twice = Some a2 ->
        same_up_to_acknowledged_at a2 a1
        /\ Alert.acknowledged_at a1 = Some now1
        /\ Alert.acknowledged_at a2 = Some now2)
  /\ (now1 = now2 -> twice = once).
Proof.
  intros once twice.
  assert (Hkeep : forall t a,
             Alert.alert_id (AlertManager.acknowledge analyst t a) = Alert.alert_id a)
    by reflexivity.
  assert (Heq : twice = AlertManager.acknowledge_alert alert_id db analyst now2).
  { subst once twice. unfold AlertManager.acknowledge_alert.
    destruct (AlertManager.find_alert alert_id db) as [a|] eqn:Hfind.
    - cbn [fst]. rewrite find_update_first by apply Hkeep.
      rewrite <- find_alert_session, Hfind. cbn [option_map alerts log_entries].
      rewrite update_first_twice by apply Hkeep.
      f_equal.
    - cbn [fst]. now rewrite Hfind. }
  split; [exact Heq|]. split.
  - intros a1 a2 H1 H2. rewrite Heq in H2. subst once.
    unfold AlertManager.acknowledge_alert in H1, H2.
    destruct (AlertManager.find_alert alert_id db) as [a|]; [|discriminate].
    cbn [snd] in H1, H2. injection H1 as <-. injection H2 as <-.
    unfold same_up_to_acknowledged_at. cbn. repeat split; reflexivity.
  - intros <-. exact Heq.
Qed.

Lemma acknowledge_twice_example :
  exists a2,
    snd (AlertManager.acknowledge_alert "a-1"
           (fst (AlertManager.acknowledge_alert "a-1" Sample.session_with_alert
                   (Some "carol") Sample.t_12_00))
           (Some "carol") Sample.t_12_30) = Some a2
    /\ Alert.acknowledged_by a2 = Some "carol"
    /\ Alert.acknowledged_at a2 = Some Sample.t_12_30.
Proof.
  destruct (acknowledge_twice "a-1" Sample.session_with_alert (Some "carol")
              Sample.t_12_00 Sample.t_12_30) as (_ & H & _).
  eexists. split; [reflexivity|].
  destruct (H _ _ eq_refl eq_refl) as (Hsame & _ & Hat).
  split; [reflexivity | exact Hat].
Defined.

(** The second call overwrites the time of the first acknowledgement: the
    state after two calls is not the state after one. *)
Lemma acknowledge_twice_differs :
  let once :=
    AlertManager.acknowledge_alert "a-1" Sample.session_with_alert
      (Some "carol") Sample.t_12_00 in
  let twice :=
    AlertManager.acknowledge_alert "a-1" (fst once) (Some "carol") Sample.t_12_30 in
  fst twice <> fst once.
Proof.
  intros once twice H.
  apply (f_equal (fun db => map Alert.acknowledged_at (alerts db))) in H.
  vm_compute in H. discriminate H.
Qed.

Lemma acknowledge_inv analyst now a :
  alert_inv a -> alert_inv (AlertManager.acknowledge analyst now a).
Proof.
  intros [(H1 & H2 & H3) H4]. unfold alert_inv, lifecycle_ok. cbn.
  repeat split; auto; discriminate.
Qed.

Lemma resolve_inv analyst now now' a :
  alert_inv a -> alert_inv (AlertManager.resolve analyst now now' a).
Proof.
  intros [(H1 & H2 & H3) H4]. unfold alert_inv, lifecycle_ok. cbn.
  repeat split; auto; try discriminate.
  intros _. destruct (Alert.acknowledged_at a); discriminate.
Qed.

Lemma reachable_inv (db : Session) : reachable db -> Forall alert_inv (alerts db).
Proof.
  induction 1 as [entries
                 | db rn sev descr ctx le ip user new_id now Hr IH
                 | db alert_id analyst now Hr IH
                 | db alert_id analyst now now' Hr IH].
  - constructor.
  - unfold AlertManager.create_alert.
    destruct le as [e|]; cbn [fst alerts]; apply Forall_app; (split; [assumption|]);
      constructor; try constructor;
      unfold alert_inv, lifecycle_ok; cbn; repeat split; auto; discriminate.
  - unfold AlertManager.acknowledge_alert.
    destruct (AlertManager.find_alert alert_id db); cbn [fst alerts]; [|assumption].
    apply Forall_update_first; [apply acknowledge_inv | assumption].
  - unfold AlertManager.resolve_alert.
    destruct (AlertManager.find_alert alert_id db); cbn [fst alerts]; [|assumption].
    apply Forall_update_first; [apply resolve_inv | assumption].
Qed.

(** C6. In every session reachable through [create_alert],
    [acknowledge_alert] and [resolve_alert], each alert satisfies: resolved
    implies acknowledged, resolved implies [resolved_at] is set, acknowledged
    implies [acknowledged_at] is set.  Resolving an alert that was not
    acknowledged also marks it acknowledged and fills [acknowledged_by] and
    [acknowledged_at]. *)
Theorem alert_lifecycle (db : Session) :
  reachable db ->
  (forall a, In a (alerts db) -> lifecycle_ok a)
  /\ (forall alert_id analyst now now' a,
        AlertManager.find_alert alert_id db = Some a ->
        Alert.acknowledged a = false ->
        let after := AlertManager.resolve_alert alert_id db analyst now now' in
        exists a',
          snd after = Some a'
          /\ AlertManager.find_alert alert_id (fst after) = Some a'
          /\ Alert.resolved a' = true
          /\ Alert.acknowledged a' = true
          /\ Alert.acknowledged_by a' = Some (analyst_or_system analyst)
          /\ Alert.acknowledged_at a' = Some now').
Proof.
  intros Hr. pose proof (reachable_inv db Hr) as Hinv.
  rewrite Forall_forall in Hinv. split.
  - intros a Ha. apply (Hinv a Ha).
  - intros alert_id analyst now now' a Hfind Hack after.
    assert (Hnone : Alert.acknowledged_at a = None).
    { apply first_filter_some in Hfind. destruct Hfind as [Hin _].
      now apply (Hinv a Hin). }
    subst after. unfold AlertManager.resolve_alert. rewrite Hfind. cbn [fst snd].
    exists (AlertManager.resolve analyst now now' a).
    split; [reflexivity|]. split.
    + rewrite find_update_first by reflexivity.
      now rewrite <- find_alert_session, Hfind.
    + cbn. rewrite Hnone, or_str_system. repeat split; reflexivity.
Qed.

Lemma alert_lifecycle_example :
  lifecycle_ok Sample.open_alert
  /\ exists a',
      snd (AlertManager.resolve_alert "a-1" Sample.session_with_alert (Some "carol")
             Sample.t_12_00 Sample.t_12_30) = Some a'
      /\ Alert.acknowledged a' = true
      /\ Alert.acknowledged_by a' = Some "carol"
      /\ Alert.acknowledged_at a' = Some Sample.t_12_30.
Proof.
  assert (Hreach : reachable Sample.session_with_alert).
  { change Sample.session_with_alert
      with (fst (AlertManager.create_alert "blacklisted_ip" "Critical" [] []
                   Sample.empty_session None (Some "10.0.0.100") None "a-1"
                   Sample.t_12_00)).
    apply reach_create, reach_init. }
  destruct (alert_lifecycle Sample.session_with_alert Hreach) as [Hall Hres].
  split.
  - apply Hall. now left.
  - destruct (Hres "a-1" (Some "carol") Sample.t_12_00 Sample.t_12_30
                Sample.open_alert eq_refl eq_refl)
      as (a' & Hsnd & _ & _ & Hack & Hby & Hat).
    exists a'. repeat split; assumption.
Defined.

(* ================================================================== *)
(** ** Geolocation resolver *)

Lemma py_split_not_nil (sep : ascii) (s : string) : py_split sep s <> [].
Proof.
  destruct s as [|c s]; simpl; [discriminate|].
  destruct (Ascii.eqb c sep); [discriminate|].
  destruct (py_split sep s); discriminate.
Qed.

Lemma py_split_no_sep (sep : ascii) (s : string) :
  has_char sep s = false -> py_split sep s = [s].
Proof.
  induction s as [|c s IH]; simpl; [reflexivity|].
  intros H. apply orb_false_iff in H. destruct H as [Hc Hs].
  now rewrite Hc, (IH Hs).
Qed.

Lemma py_split_app (sep : ascii) (s rest : string) :
  has_char sep s = false ->
  py_split sep (s ++ String sep rest) = s :: py_split sep rest.
Proof.
  induction s as [|c s IH]; simpl.
  - intros _. now rewrite Ascii.eqb_refl.
  - intros H. apply orb_false_iff in H. destruct H as [Hc Hs].
    now rewrite Hc, (IH Hs).
Qed.

Lemma octets_checked : forallb octet_checked (seq 0 256) = true.
Proof. vm_compute. reflexivity. Qed.

Lemma octet_string_ok (n : nat) :
  (n < 256)%nat ->
  has_char "."%char (octet_string n) = false
  /\ py_int (octet_string n) = Some (Z.of_nat n).
Proof.
  intros Hn. pose proof octets_checked as H.
  rewrite forallb_forall in H. specialize (H n).
  unfold octet_checked in H. rewrite andb_true_iff, negb_true_iff in H.
  destruct H as [Hdot Hint]; [apply in_seq; lia|].
  split; [assumption|].
  destruct (py_int (octet_string n)) as [z|]; [|discriminate].
  apply Z.eqb_eq in Hint. now subst.
Qed.

Lemma is_private_ip_dotted_quad (a b c d : nat) :
  (a < 256)%nat -> (b < 256)%nat -> (c < 256)%nat -> (d < 256)%nat ->
  private_or_loopback a b ->
  _is_private_ip (dotted_quad a b c d) = true.
Proof.
  intros Ha Hb Hc Hd Hpriv.
  destruct (octet_string_ok a Ha) as [Da Ia], (octet_string_ok b Hb) as [Db Ib],
    (octet_string_ok c Hc) as [Dc _], (octet_string_ok d Hd) as [Dd _].
  unfold _is_private_ip, dotted_quad.
  cbn [append].
  rewrite !py_split_app, py_split_no_sep by assumption.
  cbn [List.length Nat.eqb negb nth]. rewrite Ia, Ib.
  destruct Hpriv as [-> | [[-> Hb'] | [[-> ->] | ->]]]; try reflexivity.
  cbn [Z.of_nat Z.eqb Pos.eqb Pos.of_succ_nat Pos.succ andb].
  destruct (Z.leb_spec 16 (Z.of_nat b)), (Z.leb_spec (Z.of_nat b) 31);
    try lia; reflexivity.
Qed.

(** C8 (as the code has it). For every dotted quad in 10.0.0.0/8,
    172.16.0.0/12, 192.168.0.0/16 or 127.0.0.0/8, [get_location] returns
    [None] and performs no database or network lookup.  For every input
    string it returns without raising, provided the local database reader,
    when one is configured, raises nothing on that string but
    [AddressNotFoundError] or [ValueError]; in particular when no database is
    configured. *)
Theorem get_location_spec (world : GeoWorld) :
  (forall a b c d : nat,
     (a < 256)%nat -> (b < 256)%nat -> (c < 256)%nat -> (d < 256)%nat ->
     private_or_loopback a b ->
     get_location_traced world (dotted_quad a b c d) = ([], Ok None))
  /\ (forall ip : string,
        reader_raises_only_handled world ip ->
        exists r, get_location world ip = Ok r)
  /\ (geoip_reader world = None ->
      forall ip : string, exists r, get_location world ip = Ok r).
Proof.
  assert (Hsafe : forall ip, reader_raises_only_handled world ip ->
                             exists r, get_location world ip = Ok r).
  { intros ip Hreader.
    unfold get_location, get_location_traced.
    destruct (_is_private_ip ip); [now exists None|].
    unfold maxmind_lookup, reader_raises_only_handled in *.
    destruct (geoip_reader world) as [city|].
    - destruct (city ip) as [response|e] eqn:Hcity.
      + eexists. reflexivity.
      + destruct (Hreader e eq_refl) as [-> | ->];
          destruct (api_lookup world ip) as [tr r]; now exists r.
    - destruct (api_lookup world ip) as [tr r]. now exists r. }
  split; [|split].
  - intros a b c d Ha Hb Hc Hd Hpriv. unfold get_location_traced.
    now rewrite is_private_ip_dotted_quad.
  - exact Hsafe.
  - intros Hnone ip. apply Hsafe. unfold reader_raises_only_handled.
    now rewrite Hnone.
Qed.

Lemma get_location_example :
  get_location_traced Sample.world_with_empty_db "172.16.0.50" = ([], Ok None)
  /\ exists r, get_location Sample.world_with_empty_db "203.0.113.20" = Ok r.
Proof.
  destruct (get_location_spec Sample.world_with_empty_db) as (Hpriv & Hsafe & _).
  split.
  - apply (Hpriv 172 16 0 50)%nat; try lia.
    right. left. split; [reflexivity | lia].
  - apply Hsafe. intros e He. left. now injection He as <-.
Defined.

(** A reader that raises another exception (here [TypeError], as the
    [city] method of a database of another type does) makes [get_location]
    raise. *)
Lemma get_location_raises :
  get_location Sample.world_with_country_db "8.8.8.8" = Raise TypeError.
Proof. reflexivity. Qed.

(* ================================================================== *)
(** ** Impossible-travel rule *)

Lemma fold_latest (rows : list LogEntry.t) :
  forall acc : option LogEntry.t,
    let step := fun (best : option LogEntry.t) (r : LogEntry.t) =>
                  match best with
                  | None => Some r
                  | Some b => if LogEntry.timestamp b <? LogEntry.timestamp r
                              then Some r else Some b
                  end in
    match fold_left step rows acc with
    | None => acc = None /\ rows = []
    | Some p =>
        (In p rows \/ acc = Some p)
        /\ (forall q, In q rows -> LogEntry.timestamp q <= LogEntry.timestamp p)
        /\ (forall b, acc = Some b -> LogEntry.timestamp b <= LogEntry.timestamp p)
    end.
Proof.
  induction rows as [|r rows IH]; intros acc step.
  - simpl. destruct acc as [b|]; [|now split].
    split; [now right|]. split; [intros q []|].
    intros b' H. injection H as <-. lia.
  - simpl. specialize (IH (step acc r)). cbv zeta in IH. fold step in IH.
    destruct (fold_left step rows (step acc r)) as [p|].
    + destruct IH as (Hin & Hmax & Hacc).
      assert (Hr : LogEntry.timestamp r <= LogEntry.timestamp p).
      { destruct acc as [b|]; simpl in Hacc.
        - destruct (Z.ltb_spec (LogEntry.timestamp b) (LogEntry.timestamp r)).
          + apply Hacc. reflexivity.
          + specialize (Hacc b eq_refl). lia.
        - apply Hacc. reflexivity. }
      split; [|split].
      * destruct Hin as [Hin|Hin]; [left; now right|].
        destruct acc as [b|]; simpl in Hin.
        -- destruct (LogEntry.timestamp b <? LogEntry.timestamp r);
             injection Hin as <-; [left; now left | now right].
        -- injection Hin as <-. left. now left.
      * intros q [<-|Hq]; [assumption | now apply Hmax].
      * intros b ->. simpl in Hacc.
        destruct (Z.ltb_spec (LogEntry.timestamp b) (LogEntry.timestamp r)).
        -- specialize (Hacc r eq_refl). lia.
        -- now apply Hacc.
    + destruct IH as [Hstep _]. destruct acc as [b|]; simpl in Hstep.
      * destruct (LogEntry.timestamp b <? LogEntry.timestamp r); discriminate.
      * discriminate.
Qed.

Lemma latest_spec (rows : list LogEntry.t) (p : LogEntry.t) :
  latest rows = Some p ->
  In p rows /\ forall q, In q rows -> LogEntry.timestamp q <= LogEntry.timestamp p.
Proof.
  unfold latest. intros H. pose proof (fold_latest rows None) as Hf.
  cbv zeta in Hf. rewrite H in Hf. destruct Hf as ([Hin|Hin] & Hmax & _).
  - now split.
  - discriminate.
Qed.

(** The filter of the rule's query selects the prior logins in the sense
    of [prior_login_of]. *)
Lemma prior_login_filter (e r : LogEntry.t) :
  (opt_str_eqb (LogEntry.username r) (LogEntry.username e)
   && String.eqb (LogEntry.status r) "success"
   && String.eqb (LogEntry.event_type r) "login"
   && (LogEntry.timestamp e
       - timedelta_hours ImpossibleTravelDetectionRule.max_travel_time_hours
       <=? LogEntry.timestamp r)
   && (LogEntry.timestamp r <? LogEntry.timestamp e)
   && negb (String.eqb (LogEntry.source_ip r) (LogEntry.source_ip e))
   && match LogEntry.latitude r with Some _ => true | None => false end)
  = true <-> prior_login_of e r.
Proof.
  unfold prior_login_of.
  rewrite !andb_true_iff, opt_str_eqb_eq, !String.eqb_eq, Z.leb_le, Z.ltb_lt,
    negb_true_iff, String.eqb_neq.
  change (timedelta_hours ImpossibleTravelDetectionRule.max_travel_time_hours)
    with (timedelta_hours 1).
  destruct (LogEntry.latitude r); intuition congruence.
Qed.

(** The row that the query of the rule selects is a most recent prior
    login in the sense of [most_recent_prior_login]. *)
Lemma previous_login_spec (e : LogEntry.t) (db : Session) (p : LogEntry.t) :
  ImpossibleTravelDetectionRule.previous_login e db = Some p ->
  most_recent_prior_login e db p.
Proof.
  unfold ImpossibleTravelDetectionRule.previous_login. intros H.
  apply latest_spec in H. destruct H as [Hin Hmax].
  apply filter_In in Hin. destruct Hin as [Hin Hp].
  split; [assumption|]. split; [now apply prior_login_filter|].
  intros q Hq Hprior. apply Hmax. apply filter_In. split; [assumption|].
  now apply prior_login_filter.
Qed.

Lemma latest_some (rows : list LogEntry.t) (r : LogEntry.t) :
  In r rows -> exists p, latest rows = Some p.
Proof.
  intros Hin. unfold latest. pose proof (fold_latest rows None) as Hf.
  cbv zeta in Hf.
  destruct (fold_left _ rows None) as [p|]; [now exists p|].
  destruct Hf as [_ Hnil]. subst rows. destruct Hin.
Qed.

(** Conversely the query finds the most recent prior login of the stored
    events when there is one that is later than every other. *)
Lemma previous_login_complete (e : LogEntry.t) (db : Session) (p : LogEntry.t) :
  the_most_recent_prior_login e db p ->
  ImpossibleTravelDetectionRule.previous_login e db = Some p.
Proof.
  intros (Hin & Hprior & Hlast).
  assert (Hsel : In p (filter (fun r =>
                   opt_str_eqb (LogEntry.username r) (LogEntry.username e)
                   && String.eqb (LogEntry.status r) "success"
                   && String.eqb (LogEntry.event_type r) "login"
                   && (LogEntry.timestamp e
                       - timedelta_hours
                           ImpossibleTravelDetectionRule.max_travel_time_hours
                       <=? LogEntry.timestamp r)
                   && (LogEntry.timestamp r <? LogEntry.timestamp e)
                   && negb (String.eqb (LogEntry.source_ip r) (LogEntry.source_ip e))
                   && match LogEntry.latitude r with
                      | Some _ => true
                      | None => false
                      end)
                 (log_entries db))).
  { apply filter_In. split; [assumption | now apply prior_login_filter]. }
  unfold ImpossibleTravelDetectionRule.previous_login. cbv zeta.
  destruct (latest_some _ _ Hsel) as [p' Hp']. rewrite Hp'. f_equal.
  apply latest_spec in Hp'. destruct Hp' as [Hin' Hmax].
  specialize (Hmax p Hsel).
  apply filter_In in Hin'. destruct Hin' as [Hin' Hp'].
  apply prior_login_filter in Hp'.
  destruct (Hlast p' Hin' Hp') as [E|Hlt]; [assumption | lia].
Qed.

(** X29. Away from the zero coordinates the impossible-travel rule
    decides as the distance and the elapsed time say.  Let [e] be a
    successful login with a non-empty username and source address whose
    location resolves with a non-zero latitude and with a longitude; let [p]
    be the most recent stored successful login of the same user from
    another address within the preceding hour (every other one is strictly
    earlier), stored with non-zero latitude and longitude; let
    [calculate_distance] return [distance] for the two coordinate pairs.
    Then the rule returns a result exactly when [distance >= 1000], the
    elapsed time in hours is below [distance / 800] and no unresolved
    [impossible_travel] alert for the user was triggered within the
    preceding hour. *)
Theorem impossible_travel_check_spec (world : GeoWorld) (libm : Libm)
  (e : LogEntry.t) (db : Session) (user : string) (loc : Location)
  (p : LogEntry.t) (lat1 lon1 lat2 lon2 distance : float) :
  LogEntry.status e = "success" ->
  LogEntry.event_type e = "login" ->
  LogEntry.username e = Some user -> user <> "" ->
  LogEntry.source_ip e <> "" ->
  get_location world (LogEntry.source_ip e) = Ok (Some loc) ->
  loc_latitude loc = Some lat2 -> PrimFloat.eqb lat2 0 = false ->
  loc_longitude loc = Some lon2 ->
  the_most_recent_prior_login e db p ->
  LogEntry.latitude p = Some lat1 -> PrimFloat.eqb lat1 0 = false ->
  LogEntry.longitude p = Some lon1 -> PrimFloat.eqb lon1 0 = false ->
  calculate_distance libm lat1 lon1 lat2 lon2 = Ok distance ->
  let hours :=
    ImpossibleTravelDetectionRule.hours_between
      (LogEntry.timestamp e) (LogEntry.timestamp p) in
  (exists r, ImpossibleTravelDetectionRule.check world libm e db = Ok (Some r))
  <-> (PrimFloat.leb 1000 distance = true
       /\ PrimFloat.ltb hours (distance / 800) = true
       /\ ~ exists a, In a (alerts db)
                      /\ open_alert_for_user "impossible_travel" (Some user)
                           (LogEntry.timestamp e - timedelta_hours 1) a).
Proof.
  intros Hst Hty Huser Hne Hip Hloc Hlat2 Hz2 Hlon2 Hlast Hlat1 Hz1 Hlon1 Hzl1 Hdist
    hours.
  pose proof (previous_login_complete e db p Hlast) as Hprev.
  unfold ImpossibleTravelDetectionRule.check.
  rewrite Hst, Hty, Huser. simpl (negb _ || negb _).
  destruct user as [|c user]; [contradiction|]. cbn [truthy_str negb orb].
  destruct (String.eqb_spec (LogEntry.source_ip e) "") as [E|_]; [contradiction|].
  rewrite Hloc. cbn [bind]. rewrite Hlat2. cbn [truthy_float]. rewrite Hz2.
  cbn [negb]. rewrite Hprev, Hlat1, Hlon1. cbn [truthy_float].
  rewrite Hz1, Hzl1. cbn [negb andb]. rewrite Hlon2, Hdist. cbn [bind].
  fold hours.
  change ImpossibleTravelDetectionRule.min_distance_km with 1000%float.
  change ImpossibleTravelDetectionRule.rule_name with "impossible_travel".
  change (timedelta_hours ImpossibleTravelDetectionRule.max_travel_time_hours)
    with (timedelta_hours 1).
  pose proof (recent_alert_by_user_none "impossible_travel" (Some (String c user))
                (LogEntry.timestamp e - timedelta_hours 1) db) as Hnone.
  destruct (PrimFloat.leb 1000 distance); cbn [andb].
  - destruct (PrimFloat.ltb hours (distance / 800)).
    + destruct (recent_alert_by_user _ _ _ _) as [a|].
      * split; [intros [r H]; discriminate|].
        intros (_ & _ & Hno). apply Hnone in Hno. discriminate.
      * split; [|intros _; eexists; reflexivity].
        intros _. repeat split. now apply Hnone.
    + split; [intros [r H]; discriminate | intros (_ & H & _); discriminate].
  - split; [intros [r H]; discriminate | intros (H & _); discriminate].
Qed.

(** In a table of two events, the first is the most recent prior login of
    the second as soon as it is a prior login of it. *)
Lemma two_events_latest (e p : LogEntry.t) :
  prior_login_of e p ->
  the_most_recent_prior_login e {| log_entries := [p; e]; alerts := [] |} p.
Proof.
  intros Hprior. split; [now left|]. split; [assumption|].
  intros q [<-|[<-|[]]] Hq; [now left|].
  destruct Hq as (_ & _ & _ & [_ Hlt] & _). lia.
Qed.

Lemma impossible_travel_check_example :
  exists r,
    ImpossibleTravelDetectionRule.check Sample.world Sample.libm Sample.alice_tokyo
      (Sample.session_of [Sample.alice_sf; Sample.alice_tokyo]) = Ok (Some r).
Proof.
  assert (Huser : "alice" <> "") by discriminate.
  assert (Hip : LogEntry.source_ip Sample.alice_tokyo <> "") by discriminate.
  destruct (impossible_travel_check_spec Sample.world Sample.libm Sample.alice_tokyo
              (Sample.session_of [Sample.alice_sf; Sample.alice_tokyo]) "alice"
              {| loc_country_code := Some "JP";
                 loc_latitude := Some Sample.lat_tokyo;
                 loc_longitude := Some Sample.lon_tokyo;
                 loc_city := None;
                 loc_country_name := None |}
              Sample.alice_sf Sample.lat_sf Sample.lon_sf
              Sample.lat_tokyo Sample.lon_tokyo 0x1.027dad1455ef5p+13%float
              eq_refl eq_refl eq_refl Huser Hip eq_refl eq_refl eq_refl eq_refl)
    as [_ Hiff]; try reflexivity.
  - apply (two_events_latest Sample.alice_tokyo Sample.alice_sf).
    unfold prior_login_of. conjs; try reflexivity; discriminate.
  - apply Hiff. split; [reflexivity|]. split; [reflexivity|].
    intros (a & Ha & _). destruct Ha.
Defined.

(** C2 (where the code departs from it). A login of alice from a point on
    the equator: the event is a successful login, its location resolves with
    the latitude 0.0 and a longitude, the most recent prior successful login
    of alice within the preceding hour came from another address in Tokyo,
    stored with its coordinates, the distance between the two is 5059 km,
    which is at least 1000, the elapsed half hour is below [distance / 800],
    and no alert is stored.  The rule returns nothing: the presence check
    [not current_location.get('latitude')] takes the latitude 0.0 for a
    missing one. *)
Theorem impossible_travel_equator :
  let e := Sample.alice_equator in
  let p := Sample.alice_tokyo_earlier in
  let db := Sample.session_of [p; e] in
  let distance := 0x1.3c37dcb1aae57p+12%float in
  LogEntry.status e = "success" /\ LogEntry.event_type e = "login"
  /\ LogEntry.username e = Some "alice" /\ LogEntry.source_ip e <> ""
  /\ (exists loc, get_location Sample.world (LogEntry.source_ip e) = Ok (Some loc)
                  /\ loc_latitude loc = Some 0%float
                  /\ loc_longitude loc = Some Sample.lon_pontianak)
  /\ the_most_recent_prior_login e db p
  /\ LogEntry.latitude p = Some Sample.lat_tokyo
  /\ LogEntry.longitude p = Some Sample.lon_tokyo
  /\ calculate_distance Sample.libm Sample.lat_tokyo Sample.lon_tokyo
       0 Sample.lon_pontianak = Ok distance
  /\ PrimFloat.leb 1000 distance = true
  /\ PrimFloat.ltb
       (ImpossibleTravelDetectionRule.hours_between
          (LogEntry.timestamp e) (LogEntry.timestamp p))
       (distance / 800) = true
  /\ alerts db = []
  /\ ImpossibleTravelDetectionRule.check Sample.world Sample.libm e db = Ok None
  /\ ~ ((exists r, ImpossibleTravelDetectionRule.check Sample.world Sample.libm e db
                   = Ok (Some r))
        <-> (PrimFloat.leb 1000 distance = true
             /\ PrimFloat.ltb
                  (ImpossibleTravelDetectionRule.hours_between
                     (LogEntry.timestamp e) (LogEntry.timestamp p))
                  (distance / 800) = true
             /\ ~ exists a, In a (alerts db)
                            /\ open_alert_for_user "impossible_travel" (Some "alice")
                                 (LogEntry.timestamp e - timedelta_hours 1) a)).
Proof.
  cbv zeta.
  assert (Hnone : ImpossibleTravelDetectionRule.check Sample.world Sample.libm
                    Sample.alice_equator
                    (Sample.session_of [Sample.alice_tokyo_earlier; Sample.alice_equator])
                  = Ok None) by reflexivity.
  split; [reflexivity|]. split; [reflexivity|]. split; [reflexivity|].
  split; [discriminate|].
  split; [eexists; repeat split; reflexivity|].
  split.
  { apply (two_events_latest Sample.alice_equator Sample.alice_tokyo_earlier).
    unfold prior_login_of. conjs; try reflexivity; discriminate. }
  split; [reflexivity|]. split; [reflexivity|].
  split; [reflexivity|]. split; [reflexivity|]. split; [reflexivity|].
  split; [reflexivity|]. split; [exact Hnone|].
  intros [_ Hfire].
  destruct Hfire as [r Hr].
  - split; [reflexivity|]. split; [reflexivity|].
    intros (a & Ha & _). destruct Ha.
  - rewrite Hnone in Hr. discriminate Hr.
Qed.

(** C10. The rule returns [None] whenever the resolved location of the
    event has latitude 0, and whenever the selected prior login has latitude
    0 or longitude 0, whatever the distance, the elapsed time and the stored
    alerts are. *)
Theorem impossible_travel_zero_coordinate (world : GeoWorld) (libm : Libm)
  (e : LogEntry.t) (db : Session) :
  (forall loc lat,
     get_location world (LogEntry.source_ip e) = Ok (Some loc) ->
     loc_latitude loc = Some lat -> PrimFloat.eqb lat 0 = true ->
     ImpossibleTravelDetectionRule.check world libm e db = Ok None)
  /\ (forall loc p x,
        get_location world (LogEntry.source_ip e) = Ok loc ->
        ImpossibleTravelDetectionRule.previous_login e db = Some p ->
        LogEntry.latitude p = Some x \/ LogEntry.longitude p = Some x ->
        PrimFloat.eqb x 0 = true ->
        ImpossibleTravelDetectionRule.check world libm e db = Ok None).
Proof.
  split.
  - intros loc lat Hloc Hlat Hz. unfold ImpossibleTravelDetectionRule.check.
    destruct (_ || _); [reflexivity|]. destruct (_ || _); [reflexivity|].
    rewrite Hloc. cbn [bind]. rewrite Hlat. cbn [truthy_float]. rewrite Hz.
    reflexivity.
  - intros loc p x Hloc Hprev Hcoord Hz. unfold ImpossibleTravelDetectionRule.check.
    destruct (_ || _); [reflexivity|]. destruct (_ || _); [reflexivity|].
    rewrite Hloc. cbn [bind]. destruct loc as [loc|]; [|reflexivity].
    destruct (negb (truthy_float (loc_latitude loc))); [reflexivity|].
    rewrite Hprev.
    assert (Hfalsy : truthy_float (LogEntry.latitude p)
                     && truthy_float (LogEntry.longitude p) = false).
    { destruct Hcoord as [H|H]; rewrite H; cbn [truthy_float]; rewrite Hz;
        cbn [negb]; [reflexivity | apply andb_false_r]. }
    now rewrite Hfalsy.
Qed.

Lemma impossible_travel_zero_coordinate_examples :
  ImpossibleTravelDetectionRule.check Sample.world Sample.libm Sample.alice_equator
    (Sample.session_of [Sample.alice_tokyo_earlier; Sample.alice_equator]) = Ok None
  /\ ImpossibleTravelDetectionRule.check Sample.world Sample.libm Sample.alice_tokyo
       (Sample.session_of [Sample.alice_equator_earlier; Sample.alice_tokyo]) = Ok None
  /\ ImpossibleTravelDetectionRule.check Sample.world Sample.libm Sample.alice_tokyo
       (Sample.session_of [Sample.alice_greenwich_earlier; Sample.alice_tokyo]) = Ok None
  /\ calculate_distance Sample.libm 0 Sample.lon_pontianak
       Sample.lat_tokyo Sample.lon_tokyo = Ok 0x1.3c37dcb1aae57p+12%float
  /\ calculate_distance Sample.libm Sample.lat_greenwich 0
       Sample.lat_tokyo Sample.lon_tokyo = Ok 0x1.2aac70e67c6b6p+13%float.
Proof.
  split; [|split; [|split; [|split]]].
  - apply (proj1 (impossible_travel_zero_coordinate Sample.world Sample.libm
                    Sample.alice_equator
                    (Sample.session_of [Sample.alice_tokyo_earlier; Sample.alice_equator]))
             {| loc_country_code := Some "ID";
                loc_latitude := Some 0%float;
                loc_longitude := Some Sample.lon_pontianak;
                loc_city := None;
                loc_country_name := None |} 0%float);
      reflexivity.
  - eapply (proj2 (impossible_travel_zero_coordinate Sample.world Sample.libm
                     Sample.alice_tokyo
                     (Sample.session_of [Sample.alice_equator_earlier; Sample.alice_tokyo])))
      with (p := Sample.alice_equator_earlier) (x := 0%float);
      [reflexivity | reflexivity | left; reflexivity | reflexivity].
  - eapply (proj2 (impossible_travel_zero_coordinate Sample.world Sample.libm
                     Sample.alice_tokyo
                     (Sample.session_of [Sample.alice_greenwich_earlier; Sample.alice_tokyo])))
      with (p := Sample.alice_greenwich_earlier) (x := 0%float);
      [reflexivity | reflexivity | right; reflexivity | reflexivity].
  - reflexivity.
  - reflexivity.
Defined.

(* ================================================================== *)
(** ** Haversine distance *)

(** C9 (where the code departs from it). Between (8, 10) and its antipode
    (-8, -170), with the values that the C library returns for the sines,
    cosines and squares involved, the haversine term [a] is rounded to
    [1 + 2^-52], [1 - a] is negative and [calculate_distance] raises
    [ValueError] out of [math.sqrt] instead of returning a distance. *)
Theorem calculate_distance_antipodes (libm : Libm) :
  math_sin libm (-0x1.1df46a2529d39p-3)%float = Ok (-0x1.1d06c968d9e19p-3)%float ->
  float_pow libm (-0x1.1d06c968d9e19p-3)%float 2%float = Ok 0x1.3d581ca184804p-6%float ->
  math_cos libm 0x1.1df46a2529d39p-3%float = Ok 0x1.fb046a930947ap-1%float ->
  math_cos libm (-0x1.1df46a2529d39p-3)%float = Ok 0x1.fb046a930947ap-1%float ->
  math_sin libm (-0x1.921fb54442d18p+0)%float = Ok (-1)%float ->
  float_pow libm (-1)%float 2%float = Ok 1%float ->
  calculate_distance libm 8 10 (-8) (-170) = Raise ValueError.
Proof.
  intros Hs1 Hp1 Hc1 Hc2 Hs2 Hp2.
  unfold calculate_distance. cbv zeta.
  replace (radians (-8 - 8) / 2)%float with (-0x1.1df46a2529d39p-3)%float
    by reflexivity.
  replace (radians 8) with 0x1.1df46a2529d39p-3%float by reflexivity.
  replace (radians (-8)) with (-0x1.1df46a2529d39p-3)%float by reflexivity.
  replace (radians (-170 - 10) / 2)%float with (-0x1.921fb54442d18p+0)%float
    by reflexivity.
  rewrite Hs1. cbn [bind]. rewrite Hp1. cbn [bind]. rewrite Hc1. cbn [bind].
  rewrite Hc2. cbn [bind]. rewrite Hs2. cbn [bind]. rewrite Hp2. cbn [bind].
  reflexivity.
Qed.

Lemma calculate_distance_antipodes_example :
  calculate_distance Sample.libm 8 10 (-8) (-170) = Raise ValueError.
Proof.
  apply (calculate_distance_antipodes Sample.libm); reflexivity.
Defined.

(** Between San Francisco and Tokyo the same function returns 8271.7 km. *)
Lemma calculate_distance_sf_tokyo :
  calculate_distance Sample.libm Sample.lat_sf Sample.lon_sf
    Sample.lat_tokyo Sample.lon_tokyo = Ok 0x1.027dad1455ef5p+13%float.
Proof. reflexivity. Qed.

(* ================================================================== *)
(** ** Case of the stored tokens *)

Lemma lower_ascii_not_upper (c : ascii) : is_upper (lower_ascii c) = false.
Proof.
  destruct c as [b0 b1 b2 b3 b4 b5 b6 b7].
  destruct b0, b1, b2, b3, b4, b5, b6, b7; reflexivity.
Qed.

Lemma is_lowercase_lower (s : string) : is_lowercase (lower s) = true.
Proof.
  induction s as [|c s IH]; simpl; [reflexivity|].
  now rewrite lower_ascii_not_upper, IH.
Qed.

(** The line parser lowercases both tokens. *)
Lemma parse_line_lowercase pw world line source_file now entry :
  LogParser.parse_line pw world line source_file now = Ok (Some entry) ->
  lowercase_tokens entry.
Proof.
  unfold LogParser.parse_line.
  destruct (String.eqb (strip line) ""); [discriminate|].
  destruct (LogParser._extract_fields pw (strip line) now) as [[|kv data]|];
    try discriminate.
  intros H. apply bind_Ok_inv in H. destruct H as (timestamp & _ & H).
  apply bind_Ok_inv in H. destruct H as (location_data & _ & H).
  apply Ok_inj in H. injection H as <-.
  split; apply is_lowercase_lower.
Qed.

Lemma parse_lines_lowercase pw world lines source_file clock line_num :
  Forall lowercase_tokens
    (LogParser.parse_lines pw world lines source_file clock line_num).
Proof.
  revert line_num. induction lines as [|line lines IH]; intros line_num; simpl.
  - constructor.
  - destruct (LogParser.parse_line pw world line source_file (clock line_num))
      as [[entry|]|err] eqn:Hparse; auto.
    constructor; [|apply IH]. eapply parse_line_lowercase, Hparse.
Qed.

Section IngestionLemmas.
Variable settings : Settings.
Variable pw : ParserWorld.
Variable world : GeoWorld.
Variable libm : Libm.
Variable oracle : Oracle.

Lemma create_alerts_log_entries detected log_entry db step :
  log_entries (fst (IngestionService.create_alerts oracle detected log_entry db step))
  = log_entries db.
Proof.
  revert db step. induction detected as [|alert_data rest IH]; intros db step.
  - reflexivity.
  - cbn [IngestionService.create_alerts].
    destruct (AlertManager.create_alert _ _ _ _ db _ _ _ _ _) as [db' a] eqn:E.
    rewrite IH. unfold AlertManager.create_alert in E.
    injection E as <- _. reflexivity.
Qed.

(** Storing an entry appends it, with its tokens unchanged. *)
Lemma store_and_detect_entries log_entry db step :
  let '(db', _, stored, _) :=
    IngestionService.store_and_detect settings world libm oracle log_entry db step in
  log_entries db' = (log_entries db ++ [stored])%list
  /\ LogEntry.status stored = LogEntry.status log_entry
  /\ LogEntry.event_type stored = LogEntry.event_type log_entry.
Proof.
  unfold IngestionService.store_and_detect.
  cbn [IngestionService.add_log_entry].
  match goal with
  | |- context [IngestionService.create_alerts oracle ?d ?e ?s ?k] =>
      pose proof (create_alerts_log_entries d e s k) as H;
      destruct (IngestionService.create_alerts oracle d e s k) as [db2 step']
  end.
  cbn [fst] in H. rewrite H. cbn [log_entries]. repeat split.
Qed.

Lemma store_and_detect_lowercase log_entry db step :
  lowercase_tokens log_entry ->
  Forall lowercase_tokens (log_entries db) ->
  Forall lowercase_tokens
    (log_entries
       (fst (fst (fst (IngestionService.store_and_detect settings world libm oracle
                         log_entry db step))))).
Proof.
  intros [Hs Ht] Hdb.
  pose proof (store_and_detect_entries log_entry db step) as H.
  destruct (IngestionService.store_and_detect _ _ _ _ _ _ _) as [[[db' k] stored] n].
  cbn [fst]. destruct H as (-> & Es & Et).
  apply Forall_app. split; [assumption|].
  constructor; [|constructor]. split; congruence.
Qed.

(** The text path stores lowercase tokens only. *)
Lemma ingest_logs_from_text_lowercase log_lines source_file db db' result :
  Forall lowercase_tokens (log_entries db) ->
  IngestionService.ingest_logs_from_text settings pw world libm oracle
    log_lines source_file db = Ok (db', result) ->
  Forall lowercase_tokens (log_entries db').
Proof.
  unfold IngestionService.ingest_logs_from_text.
  generalize 0%nat as step.
  generalize {| ingested := 0; alerts_generated := 0 |} as acc.
  revert db. induction log_lines as [|line log_lines IH]; intros db acc step Hdb.
  - simpl. intros H. now injection H as <- _.
  - cbn [IngestionService.ingest_lines].
    destruct (String.eqb (strip line) ""); [now apply IH|].
    destruct (LogParser.parse_line pw world line source_file (utcnow oracle step))
      as [[entry|]|err] eqn:Hparse; cbn [bind]; [| now apply IH | discriminate].
    pose proof (store_and_detect_lowercase entry db (S step)
                  (parse_line_lowercase _ _ _ _ _ _ Hparse) Hdb) as Hnew.
    destruct (IngestionService.store_and_detect _ _ _ _ _ _ _) as [[[db1 k] stored] n].
    cbn [fst] in Hnew. now apply IH.
Qed.

(** The file path stores lowercase tokens only. *)
Lemma ingest_logs_from_file_lowercase lines source_file db :
  Forall lowercase_tokens (log_entries db) ->
  Forall lowercase_tokens
    (log_entries
       (fst (IngestionService.ingest_logs_from_file settings pw world libm oracle
               lines source_file db))).
Proof.
  unfold IngestionService.ingest_logs_from_file, LogParser.parse_file.
  pose proof (parse_lines_lowercase pw world lines (Some source_file)
                (utcnow oracle) 1) as Hparsed.
  generalize dependent (LogParser.parse_lines pw world lines (Some source_file)
                          (utcnow oracle) 1).
  intros parsed Hparsed Hdb.
  assert (Hloop : forall entries db0 step n,
             Forall lowercase_tokens entries ->
             Forall lowercase_tokens (log_entries db0) ->
             Forall lowercase_tokens
               (log_entries
                  (fst (IngestionService.ingest_entries settings world libm oracle
                          entries db0 step n)))).
  { induction entries as [|entry entries IH]; intros db0 step n He Hdb0.
    - assumption.
    - cbn [IngestionService.ingest_entries].
      inversion He as [|? ? Hentry Hrest]; subst.
      pose proof (store_and_detect_lowercase entry db0 step Hentry Hdb0) as Hnew.
      destruct (IngestionService.store_and_detect _ _ _ _ _ _ _)
        as [[[db1 k] stored] m].
      cbn [fst] in Hnew. now apply IH. }
  specialize (Hloop parsed db (S (List.length lines)) 0 Hparsed Hdb).
  destruct (IngestionService.ingest_entries _ _ _ _ _ _ _ _) as [db1 n].
  exact Hloop.
Qed.

(** The single-event path stores both tokens as they were sent. *)
Lemma ingest_single_log_verbatim log_data db db' result id :
  IngestionService.ingest_single_log settings pw world libm oracle log_data db
  = Ok (db', result, id) ->
  exists stored,
    log_entries db' = (log_entries db ++ [stored])%list
    /\ LogEntry.id stored = id
    /\ LogEntry.status stored = ld_status log_data
    /\ LogEntry.event_type stored = ld_event_type log_data.
Proof.
  unfold IngestionService.ingest_single_log. intros E.
  apply bind_Ok_inv in E. destruct E as (timestamp & _ & E).
  apply bind_Ok_inv in E. destruct E as (location_data & _ & E).
  revert E.
  match goal with
  | |- context [IngestionService.store_and_detect settings world libm oracle ?e db 1] =>
      pose proof (store_and_detect_entries e db 1) as H;
      destruct (IngestionService.store_and_detect settings world libm oracle e db 1)
        as [[[db1 k] stored] n]
  end.
  destruct H as (Hentries & Hs & Ht). cbn in Hs, Ht.
  intros E. injection E as <- _ <-.
  exists stored. repeat split; assumption.
Qed.
End IngestionLemmas.

(** C3 (where the code departs from it). The single-event path stores the
    tokens of the request as they are: the request with [status = "FAILED"]
    and [event_type = "LOGIN"] leaves an event whose two tokens are not
    lowercase, and no rule fires on it.  The line parser and the file path
    lowercase both tokens ([parse_line_lowercase],
    [ingest_logs_from_text_lowercase], [ingest_logs_from_file_lowercase]). *)
Theorem ingest_single_log_keeps_case :
  exists db' result id stored,
    IngestionService.ingest_single_log default_settings Sample.parser_world
      Sample.world Sample.libm Sample.oracle Sample.upper_case_request
      Sample.empty_session = Ok (db', result, id)
    /\ log_entries db' = [stored]
    /\ LogEntry.status stored = "FAILED"
    /\ LogEntry.event_type stored = "LOGIN"
    /\ is_lowercase (LogEntry.status stored) = false
    /\ is_lowercase (LogEntry.event_type stored) = false
    /\ alerts db' = [].
Proof.
  do 4 eexists. split; [reflexivity|]. repeat split.
Qed.


(* ================================================================== *)
(** ** Further properties of the rules *)

Lemma recent_alert_by_user_ip_none rule user ip since db :
  recent_alert_by_user_ip rule user ip since db = None
  <-> ~ exists a, In a (alerts db) /\ open_alert_for_user_ip rule user ip since a.
Proof.
  unfold recent_alert_by_user_ip. rewrite first_filter_none. split.
  - intros H (a & Ha & Hr & Hu & Hi & Hres & Ht).
    specialize (H a Ha).
    rewrite (proj2 (String.eqb_eq _ _) Hr), (proj2 (opt_str_eqb_eq _ _) Hu),
      (proj2 (opt_str_eqb_eq _ _) Hi), (proj2 (Z.leb_le _ _) Ht), Hres in H.
    discriminate.
  - intros H a Ha.
    destruct (_ && _) eqn:E; [|reflexivity].
    exfalso. apply H. exists a. split; [assumption|].
    rewrite !andb_true_iff, String.eqb_eq, !opt_str_eqb_eq, Z.leb_le,
      negb_true_iff in E.
    unfold open_alert_for_user_ip. tauto.
Qed.

(** X1. The off-hours rule fires exactly on a successful login that falls
    on a weekday (Monday to Friday), at an hour outside
    [[business_hours_start, business_hours_end)], when no unresolved alert of
    the rule for the same username and source address was triggered within
    the preceding hour.  In particular a weekend login never fires. *)
Theorem business_hours_check_spec (settings : Settings) (e : LogEntry.t) (db : Session) :
  let t := LogEntry.timestamp e in
  ((exists r, BusinessHoursDetectionRule.check settings e db = Ok (Some r))
   <-> (LogEntry.status e = "success" /\ LogEntry.event_type e = "login"
        /\ weekday t < 5
        /\ ~ (business_hours_start settings <= hour t < business_hours_end settings)
        /\ ~ exists a, In a (alerts db)
                       /\ open_alert_for_user_ip "login_outside_business_hours"
                            (LogEntry.username e) (LogEntry.source_ip e)
                            (t - timedelta_hours 1) a))
  /\ ((weekday t = 5 \/ weekday t = 6) ->
      BusinessHoursDetectionRule.check settings e db = Ok None).
Proof.
  intros t. unfold BusinessHoursDetectionRule.check.
  change BusinessHoursDetectionRule.rule_name with "login_outside_business_hours".
  fold t.
  pose proof (recent_alert_by_user_ip_none "login_outside_business_hours"
                (LogEntry.username e) (LogEntry.source_ip e)
                (t - timedelta_hours 1) db) as Hnone.
  unfold is_business_hours.
  destruct (String.eqb_spec (LogEntry.status e) "success") as [Hst|Hst];
    destruct (String.eqb_spec (LogEntry.event_type e) "login") as [Hty|Hty];
    cbn [negb orb];
    try (split; [split; [intros [r H]; discriminate | tauto] | reflexivity]).
  destruct (Z.leb_spec 5 (weekday t)) as [Hwe|Hwd].
  - split; [|reflexivity]. split; [intros [r H]; discriminate | lia].
  - destruct (Z.leb_spec (business_hours_start settings) (hour t)) as [Hs|Hs];
      destruct (Z.ltb_spec (hour t) (business_hours_end settings)) as [He|He];
      cbn [andb];
      try (split; [|lia]; split; [intros [r H]; discriminate | intros; lia]);
      (destruct (recent_alert_by_user_ip _ _ _ _ _) as [a|];
       [ split; [|lia]; split; [intros [r H]; discriminate|];
         intros (_ & _ & _ & _ & Hno); apply Hnone in Hno; discriminate
       | split; [|lia]; split; [|intros _; eexists; reflexivity];
         intros _; repeat split; try assumption; try lia; now apply Hnone ]).
Qed.

Lemma business_hours_check_example :
  BusinessHoursDetectionRule.check default_settings
    (Sample.login 1 Sample.saturday_03_15 "198.51.100.11" "bob" "success" None None)
    Sample.empty_session = Ok None.
Proof.
  apply (proj2 (business_hours_check_spec default_settings
                  (Sample.login 1 Sample.saturday_03_15 "198.51.100.11" "bob"
                     "success" None None)
                  Sample.empty_session)).
  left. reflexivity.
Defined.

Lemma blacklist_In (settings : Settings) (ip : string) :
  ip <> "" ->
  (existsb (String.eqb ip) (BlacklistIPDetectionRule.blacklist settings) = true
   <-> blacklisted settings ip).
Proof.
  intros Hip. rewrite existsb_eqb_In.
  unfold BlacklistIPDetectionRule.blacklist, blacklisted.
  rewrite in_map_iff. split.
  - intros (part & Hs & Hin). apply filter_In in Hin. exists part. tauto.
  - intros (part & Hin & Hs). exists part. split; [assumption|].
    apply filter_In. split; [assumption|].
    rewrite Hs. destruct ip; [contradiction | reflexivity].
Qed.

(** X2. The blacklist rule fires exactly when the source address is not
    empty, equals an entry of the comma-separated [ip_blacklist] setting
    (whitespace around an entry is ignored) and no unresolved
    [blacklisted_ip] alert for the address was triggered within the
    preceding hour. *)
Theorem blacklist_check_spec (settings : Settings) (e : LogEntry.t) (db : Session) :
  (exists r, BlacklistIPDetectionRule.check settings e db = Ok (Some r))
  <-> (LogEntry.source_ip e <> ""
       /\ blacklisted settings (LogEntry.source_ip e)
       /\ ~ exists a, In a (alerts db)
                      /\ open_alert_for_ip "blacklisted_ip" (LogEntry.source_ip e)
                           (LogEntry.timestamp e - timedelta_hours 1) a).
Proof.
  unfold BlacklistIPDetectionRule.check.
  change BlacklistIPDetectionRule.rule_name with "blacklisted_ip".
  pose proof (recent_alert_by_ip_none "blacklisted_ip" (LogEntry.source_ip e)
                (LogEntry.timestamp e - timedelta_hours 1) db) as Hnone.
  destruct (String.eqb_spec (LogEntry.source_ip e) "") as [Hip|Hip].
  - split; [intros [r H]; discriminate | tauto].
  - pose proof (blacklist_In settings _ Hip) as Hbl.
    destruct (existsb _ (BlacklistIPDetectionRule.blacklist settings)).
    + destruct (recent_alert_by_ip _ _ _ _) as [a|].
      * split; [intros [r H]; discriminate|].
        intros (_ & _ & Hno). apply Hnone in Hno. discriminate.
      * split; [|intros _; eexists; reflexivity].
        intros _. split; [assumption|]. split; [now apply Hbl | now apply Hnone].
    + split; [intros [r H]; discriminate|].
      intros (_ & H & _). apply Hbl in H. discriminate.
Qed.

(** X3. The impossible-travel rule returns nothing, whatever is stored,
    for an event whose source address lies in 10.0.0.0/8, 172.16.0.0/12,
    192.168.0.0/16 or 127.0.0.0/8: the resolver gives no location for it. *)
Theorem impossible_travel_private_address (world : GeoWorld) (libm : Libm)
  (e : LogEntry.t) (db : Session) (a b c d : nat) :
  (a < 256)%nat -> (b < 256)%nat -> (c < 256)%nat -> (d < 256)%nat ->
  private_or_loopback a b ->
  LogEntry.source_ip e = dotted_quad a b c d ->
  ImpossibleTravelDetectionRule.check world libm e db = Ok None.
Proof.
  intros Ha Hb Hc Hd Hpriv Hip. unfold ImpossibleTravelDetectionRule.check.
  destruct (_ || _); [reflexivity|]. destruct (_ || _); [reflexivity|].
  unfold get_location, get_location_traced.
  now rewrite Hip, is_private_ip_dotted_quad.
Qed.

Lemma impossible_travel_private_address_example :
  ImpossibleTravelDetectionRule.check Sample.world Sample.libm
    (Sample.login 2 Sample.t_12_30 "192.168.1.7" "alice" "success" None None)
    (Sample.session_of [Sample.alice_sf]) = Ok None.
Proof.
  apply (impossible_travel_private_address Sample.world Sample.libm _ _
           192 168 1 7); try lia; [|reflexivity].
  right. right. left. split; reflexivity.
Defined.

(* ================================================================== *)
(** ** Further properties of the resolver *)

(** X4. On a dotted quad, [_is_private_ip] answers [True] exactly for the
    four private and loopback ranges: 172.15.x.x, 172.32.x.x or 192.167.x.x
    are public.  A string that does not split into four parts at its dots
    is never private. *)
Theorem is_private_ip_exact (a b c d : nat) :
  (a < 256)%nat -> (b < 256)%nat -> (c < 256)%nat -> (d < 256)%nat ->
  (_is_private_ip (dotted_quad a b c d) = true <-> private_or_loopback a b)
  /\ (forall ip, List.length (py_split "."%char ip) <> 4%nat ->
                 _is_private_ip ip = false).
Proof.
  intros Ha Hb Hc Hd. split.
  - split; [|now apply is_private_ip_dotted_quad].
    destruct (octet_string_ok a Ha) as [Da Ia], (octet_string_ok b Hb) as [Db Ib],
      (octet_string_ok c Hc) as [Dc _], (octet_string_ok d Hd) as [Dd _].
    unfold _is_private_ip, dotted_quad. cbn [append].
    rewrite !py_split_app, py_split_no_sep by assumption.
    cbn [List.length Nat.eqb negb nth]. rewrite Ia, Ib.
    unfold private_or_loopback.
    destruct (Z.eqb_spec (Z.of_nat a) 10); [intros _; left; lia|].
    destruct (Z.eqb_spec (Z.of_nat a) 172); cbn [andb].
    + destruct (Z.leb_spec 16 (Z.of_nat b)); cbn [andb].
      * destruct (Z.leb_spec (Z.of_nat b) 31); [intros _; right; left; lia|].
        destruct (Z.eqb_spec (Z.of_nat a) 192); [lia|].
        destruct (Z.eqb_spec (Z.of_nat a) 127); [lia | discriminate].
      * destruct (Z.eqb_spec (Z.of_nat a) 192); [lia|].
        destruct (Z.eqb_spec (Z.of_nat a) 127); [lia | discriminate].
    + destruct (Z.eqb_spec (Z.of_nat a) 192); cbn [andb].
      * destruct (Z.eqb_spec (Z.of_nat b) 168); [intros _; right; right; left; lia|].
        destruct (Z.eqb_spec (Z.of_nat a) 127); [lia | discriminate].
      * destruct (Z.eqb_spec (Z.of_nat a) 127);
          [intros _; right; right; right; lia | discriminate].
  - intros ip Hlen. unfold _is_private_ip.
    destruct (Nat.eqb_spec (List.length (py_split "."%char ip)) 4);
      [contradiction | reflexivity].
Qed.

Lemma is_private_ip_exact_example :
  _is_private_ip "172.32.0.1" = false /\ _is_private_ip "10.0.0" = false.
Proof.
  assert (H32 : (32 < 256)%nat) by lia. assert (H0 : (0 < 256)%nat) by lia.
  assert (H1 : (1 < 256)%nat) by lia. assert (H172 : (172 < 256)%nat) by lia.
  destruct (is_private_ip_exact 172 32 0 1 H172 H32 H0 H1) as [Hiff Hshape].
  split.
  - destruct (_is_private_ip "172.32.0.1") eqn:E; [|reflexivity].
    exfalso. change "172.32.0.1" with (dotted_quad 172 32 0 1) in E.
    apply Hiff in E. unfold private_or_loopback in E. lia.
  - apply Hshape. discriminate.
Defined.

(** X5. For an address that is not private, [get_location] consults the
    local database first, when there is one, and asks ip-api.com at most
    once and only after the database had no answer: the lookups performed
    are none but [DbLookup ip] followed or not by the GET of
    [http://ip-api.com/json/<ip>].  When the database answers, its answer is
    returned and no request leaves; without a database exactly one request
    is made. *)
Theorem get_location_lookups (world : GeoWorld) (ip : string) :
  _is_private_ip ip = false ->
  let trace := fst (get_location_traced world ip) in
  (trace = [DbLookup ip] \/ trace = [HttpGet (api_url ip)]
   \/ trace = [DbLookup ip; HttpGet (api_url ip)])
  /\ (forall city response,
        geoip_reader world = Some city -> city ip = Ok response ->
        get_location_traced world ip
        = ([DbLookup ip], Ok (Some (location_of_response response))))
  /\ (geoip_reader world = None -> trace = [HttpGet (api_url ip)])
  /\ (In (HttpGet (api_url ip)) trace ->
      forall city, geoip_reader world = Some city ->
                   city ip = Raise AddressNotFoundError \/ city ip = Raise ValueError).
Proof.
  intros Hpub trace. subst trace. unfold get_location_traced. rewrite Hpub.
  unfold maxmind_lookup, api_lookup. fold (api_url ip).
  destruct (geoip_reader world) as [city|].
  - destruct (city ip) as [response|e] eqn:Hcity.
    + cbn [fst]. split; [now left|]. split.
      * intros city' response' Hc Hr. injection Hc as <-.
        rewrite Hcity in Hr. now injection Hr as <-.
      * split; [discriminate|].
        intros [H|[]]. discriminate H.
    + destruct e; cbn [fst app].
      * split; [right; right; reflexivity|]. split.
        -- intros city' response' Hc Hr. injection Hc as <-. congruence.
        -- split; [discriminate|]. intros _ city' Hc. injection Hc as <-. now right.
      * split; [now left|]. split.
        -- intros city' response' Hc Hr. injection Hc as <-. congruence.
        -- split; [discriminate|]. intros [H|[]]. discriminate H.
      * split; [right; right; reflexivity|]. split.
        -- intros city' response' Hc Hr. injection Hc as <-. congruence.
        -- split; [discriminate|]. intros _ city' Hc. injection Hc as <-. now left.
      * split; [now left|]. split.
        -- intros city' response' Hc Hr. injection Hc as <-. congruence.
        -- split; [discriminate|]. intros [H|[]]. discriminate H.
  - cbn [fst app]. split; [right; now left|]. split; [discriminate|].
    split; [reflexivity|]. intros _ city Hc. discriminate.
Qed.

Lemma get_location_lookups_example :
  fst (get_location_traced Sample.world "203.0.113.20")
  = [HttpGet "http://ip-api.com/json/203.0.113.20"].
Proof.
  destruct (get_location_lookups Sample.world "203.0.113.20" eq_refl)
    as (_ & _ & Hnone & _).
  apply Hnone. reflexivity.
Defined.

(* ================================================================== *)
(** ** Detection engine *)

Section Analyze.
Variable e : LogEntry.t.
Variable db : Session.

(** What one rule contributes to the analysis. *)
Let report (rule : Rule.t) : list AlertSpec.t :=
  match Rule.check rule e db with
  | Ok (Some result) =>
      [ {| AlertSpec.rule_name := Rule.rule_name rule;
           AlertSpec.severity := Rule.severity rule;
           AlertSpec.description := description result;
           AlertSpec.context := result_context result |} ]
  | Ok None => []
  | Raise _ => []
  end.

Lemma report_cases (rule : Rule.t) :
  (report rule = [] /\ ~ exists r, Rule.check rule e db = Ok (Some r))
  \/ (exists r, Rule.check rule e db = Ok (Some r)
                /\ report rule
                   = [ {| AlertSpec.rule_name := Rule.rule_name rule;
                          AlertSpec.severity := Rule.severity rule;
                          AlertSpec.description := description r;
                          AlertSpec.context := result_context r |} ]).
Proof.
  unfold report. destruct (Rule.check rule e db) as [[r|]|err].
  - right. now exists r.
  - left. split; [reflexivity | intros [r H]; discriminate].
  - left. split; [reflexivity | intros [r H]; discriminate].
Qed.

Lemma report_names (rules : list Rule.t) (spec : AlertSpec.t) :
  In spec (flat_map report rules) ->
  exists rule, In rule rules /\ AlertSpec.rule_name spec = Rule.rule_name rule
               /\ AlertSpec.severity spec = Rule.severity rule
               /\ exists r, Rule.check rule e db = Ok (Some r).
Proof.
  intros H. apply in_flat_map in H. destruct H as (rule & Hin & Hspec).
  exists rule. split; [assumption|].
  destruct (report_cases rule) as [[Hnil _]|(r & Hr & Hone)].
  - rewrite Hnil in Hspec. destruct Hspec.
  - rewrite Hone in Hspec. destruct Hspec as [<-|[]].
    repeat split. now exists r.
Qed.

Lemma report_length (rules : list Rule.t) :
  (List.length (flat_map report rules) <= List.length rules)%nat.
Proof.
  induction rules as [|rule rules IH]; simpl; [lia|].
  rewrite length_app.
  destruct (report_cases rule) as [[-> _]|(r & _ & ->)]; simpl; lia.
Qed.

Lemma report_NoDup (rules : list Rule.t) :
  NoDup (map Rule.rule_name rules) ->
  NoDup (map AlertSpec.rule_name (flat_map report rules)).
Proof.
  induction rules as [|rule rules IH]; simpl; [constructor|].
  intros Hnd. inversion Hnd as [|? ? Hnot Hrest]; subst.
  rewrite map_app.
  destruct (report_cases rule) as [[-> _]|(r & _ & ->)]; simpl; [now apply IH|].
  constructor; [|now apply IH].
  intros Hin. apply in_map_iff in Hin. destruct Hin as (spec & Hname & Hspec).
  apply report_names in Hspec. destruct Hspec as (rule' & Hin' & Hn & _).
  apply Hnot. apply in_map_iff. exists rule'. split; [congruence | assumption].
Qed.

Lemma report_fires (rules : list Rule.t) (rule : Rule.t) :
  In rule rules -> (exists r, Rule.check rule e db = Ok (Some r)) ->
  exists spec, In spec (flat_map report rules)
               /\ AlertSpec.rule_name spec = Rule.rule_name rule
               /\ AlertSpec.severity spec = Rule.severity rule.
Proof.
  intros Hin Hfire.
  destruct (report_cases rule) as [[_ Hno]|(r & _ & Hone)]; [contradiction|].
  eexists. split.
  - apply in_flat_map. exists rule. split; [assumption|]. rewrite Hone. now left.
  - split; reflexivity.
Qed.

Lemma analyze_length (settings : Settings) (world : GeoWorld) (libm : Libm) :
  (List.length (DetectionEngine.analyze settings world libm e db) <= 5)%nat.
Proof. apply (report_length (DetectionEngine.rules settings world libm)). Qed.

(** X6. The engine reports at most one alert per rule, five at most, each
    under the name and severity of its rule, and a rule is reported exactly
    when its own [check] returns a result: a rule that raises or returns
    nothing (the impossible-travel rule when the resolver fails, say) takes
    nothing away from the others. *)
Theorem analyze_isolates_rules (settings : Settings) (world : GeoWorld) (libm : Libm) :
  let found := DetectionEngine.analyze settings world libm e db in
  let reported (name severity : string) :=
    exists spec, In spec found /\ AlertSpec.rule_name spec = name
                 /\ AlertSpec.severity spec = severity in
  (List.length found <= 5)%nat
  /\ NoDup (map AlertSpec.rule_name found)
  /\ (forall spec, In spec found ->
        In (AlertSpec.rule_name spec, AlertSpec.severity spec)
           [ ("brute_force_login", "High"); ("impossible_travel", "Critical");
             ("login_outside_business_hours", "Medium");
             ("privilege_escalation", "High"); ("blacklisted_ip", "Critical") ])
  /\ (reported "brute_force_login" "High"
      <-> exists r, BruteForceDetectionRule.check settings e db = Ok (Some r))
  /\ (reported "impossible_travel" "Critical"
      <-> exists r, ImpossibleTravelDetectionRule.check world libm e db = Ok (Some r))
  /\ (reported "login_outside_business_hours" "Medium"
      <-> exists r, BusinessHoursDetectionRule.check settings e db = Ok (Some r))
  /\ (reported "privilege_escalation" "High"
      <-> exists r, PrivilegeEscalationDetectionRule.check e db = Ok (Some r))
  /\ (reported "blacklisted_ip" "Critical"
      <-> exists r, BlacklistIPDetectionRule.check settings e db = Ok (Some r)).
Proof.
  intros found reported.
  set (rules := DetectionEngine.rules settings world libm).
  assert (Hfound : found = flat_map report rules) by reflexivity.
  assert (Hnames : NoDup (map Rule.rule_name rules)).
  { cbn. repeat constructor; cbn; intros H;
      repeat (destruct H as [H|H]; [discriminate H|]); exact H. }
  assert (Hone : forall rule,
             In rule rules ->
             (reported (Rule.rule_name rule) (Rule.severity rule)
              <-> exists r, Rule.check rule e db = Ok (Some r))).
  { intros rule Hin. split.
    - intros (spec & Hspec & Hn & _). rewrite Hfound in Hspec.
      apply report_names in Hspec.
      destruct Hspec as (rule' & Hin' & Hn' & _ & Hfire).
      assert (rule' = rule).
      { rewrite Hn in Hn'. clear - Hin Hin' Hn'.
        cbn in Hin, Hin'.
        repeat (destruct Hin as [<-|Hin]);
          repeat (destruct Hin' as [<-|Hin']);
          try reflexivity; try discriminate Hn'; try contradiction. }
      now subst.
    - intros Hfire. unfold reported. rewrite Hfound. now apply report_fires. }
  split; [rewrite Hfound; apply (report_length rules)|].
  split; [rewrite Hfound; now apply report_NoDup|]. split.
  - intros spec Hspec. rewrite Hfound in Hspec. apply report_names in Hspec.
    destruct Hspec as (rule & Hin & -> & -> & _). cbn in Hin.
    repeat (destruct Hin as [<-|Hin]); cbn; auto 10.
  - split; [apply (Hone (BruteForceDetectionRule.rule settings)); cbn; auto|].
    split; [apply (Hone (ImpossibleTravelDetectionRule.rule world libm)); cbn; auto|].
    split; [apply (Hone (BusinessHoursDetectionRule.rule settings)); cbn; auto|].
    split; [apply (Hone PrivilegeEscalationDetectionRule.rule); cbn; auto 6|].
    apply (Hone (BlacklistIPDetectionRule.rule settings)); cbn; auto 7.
Qed.
End Analyze.

(* ================================================================== *)
(** ** Alert manager: creation and lookup *)

Lemma find_alert_app (alert_id : string) (entries : list LogEntry.t)
  (rows rows' : list Alert.t) :
  AlertManager.find_alert alert_id {| log_entries := entries; alerts := (rows ++ rows')%list |}
  = match AlertManager.find_alert alert_id {| log_entries := entries; alerts := rows |} with
    | Some a => Some a
    | None => AlertManager.find_alert alert_id {| log_entries := entries; alerts := rows' |}
    end.
Proof.
  unfold AlertManager.find_alert, first. cbn [alerts].
  rewrite filter_app. destruct (filter _ rows); reflexivity.
Qed.

(** X7. [create_alert] appends one open alert that can be looked up by
    its identifier when no stored alert carries that identifier, and it
    leaves every earlier lookup as it was.  The alert points to the
    triggering event; its address and username are those passed explicitly
    when they are non-empty, else those of the event. *)
Theorem create_alert_lookup (rule_name severity : string) (description : fstring)
  (context : context) (db : Session) (log_entry : option LogEntry.t)
  (source_ip username : option string) (new_id : string) (now : instant) :
  let created :=
    AlertManager.create_alert rule_name severity description context db log_entry
      source_ip username new_id now in
  let alert := snd created in
  alerts (fst created) = (alerts db ++ [alert])%list
  /\ ((forall a, In a (alerts db) -> Alert.alert_id a <> new_id) ->
      AlertManager.find_alert new_id (fst created) = Some alert)
  /\ (forall id a, AlertManager.find_alert id db = Some a ->
                   AlertManager.find_alert id (fst created) = Some a)
  /\ Alert.acknowledged alert = false /\ Alert.resolved alert = false
  /\ Alert.triggered_at alert = now
  /\ (forall e, log_entry = Some e ->
        Alert.log_entry_id alert = Some (LogEntry.id e)
        /\ Alert.source_ip alert
           = (if truthy_str source_ip then source_ip else Some (LogEntry.source_ip e))
        /\ Alert.username alert
           = (if truthy_str username then username else LogEntry.username e))
  /\ (log_entry = None ->
      Alert.log_entry_id alert = None /\ Alert.source_ip alert = source_ip
      /\ Alert.username alert = username).
Proof.
  intros created alert.
  assert (Halerts : alerts (fst created) = (alerts db ++ [alert])%list).
  { subst alert created. unfold AlertManager.create_alert.
    destruct log_entry; reflexivity. }
  assert (Hentries : log_entries (fst created) = log_entries db).
  { subst created. unfold AlertManager.create_alert. destruct log_entry; reflexivity. }
  assert (Hid : Alert.alert_id alert = new_id).
  { subst alert created. unfold AlertManager.create_alert.
    destruct log_entry; reflexivity. }
  assert (Hfind : forall id,
             AlertManager.find_alert id (fst created)
             = match AlertManager.find_alert id db with
               | Some a => Some a
               | None => if String.eqb (Alert.alert_id alert) id then Some alert else None
               end).
  { intros id. rewrite (find_alert_session id (fst created)), Halerts, Hentries.
    rewrite find_alert_app, <- find_alert_session.
    destruct (AlertManager.find_alert id db); [reflexivity|].
    unfold AlertManager.find_alert, first. cbn.
    destruct (String.eqb (Alert.alert_id alert) id); reflexivity. }
  split; [exact Halerts|]. split; [|split].
  - intros Hfresh. rewrite Hfind, Hid, String.eqb_refl.
    destruct (AlertManager.find_alert new_id db) as [a|] eqn:E; [|reflexivity].
    apply first_filter_some in E. destruct E as [Hin Heq].
    apply String.eqb_eq in Heq. now apply Hfresh in Hin.
  - intros id a Ha. now rewrite Hfind, Ha.
  - subst alert created. unfold AlertManager.create_alert.
    destruct log_entry as [e|]; cbn.
    + split; [reflexivity|]. split; [reflexivity|]. split; [reflexivity|].
      split; [|discriminate].
      intros e' He'. injection He' as <-. unfold or_str. repeat split.
    + split; [reflexivity|]. split; [reflexivity|]. split; [reflexivity|].
      split; [discriminate|]. intros _. repeat split.
Qed.

Lemma create_alert_lookup_example :
  AlertManager.find_alert "a-2"
    (fst (AlertManager.create_alert "brute_force_login" "High" [] []
            Sample.session_with_alert (Some (Sample.failed_attempt 4)) None None
            "a-2" Sample.t_12_30))
  = Some (snd (AlertManager.create_alert "brute_force_login" "High" [] []
                 Sample.session_with_alert (Some (Sample.failed_attempt 4)) None None
                 "a-2" Sample.t_12_30)).
Proof.
  pose proof (create_alert_lookup "brute_force_login" "High" [] []
                Sample.session_with_alert (Some (Sample.failed_attempt 4)) None None
                "a-2" Sample.t_12_30) as H.
  cbv zeta in H. destruct H as (_ & Hfind & _).
  apply Hfind. intros a [<-|[]]. discriminate.
Defined.

(* ================================================================== *)
(** ** Alert manager: lifecycle updates *)

Lemma update_first_split (alert_id : string) (f : Alert.t -> Alert.t)
  (entries : list LogEntry.t) (rows : list Alert.t) (a : Alert.t) :
  AlertManager.find_alert alert_id {| log_entries := entries; alerts := rows |} = Some a ->
  exists pre post,
    rows = (pre ++ a :: post)%list
    /\ (forall b, In b pre -> Alert.alert_id b <> alert_id)
    /\ Alert.alert_id a = alert_id
    /\ AlertManager.update_first alert_id f rows = (pre ++ f a :: post)%list.
Proof.
  unfold AlertManager.find_alert, first. cbn [alerts].
  induction rows as [|b rows IH]; simpl; [discriminate|].
  destruct (String.eqb_spec (Alert.alert_id b) alert_id) as [E|E]; simpl.
  - intros H. injection H as <-. exists [], rows.
    split; [reflexivity|]. split; [intros b' []|]. split; [assumption | reflexivity].
  - intros H. destruct (IH H) as (pre & post & -> & Hpre & Ha & Hupd).
    exists (b :: pre), post.
    split; [reflexivity|]. split; [intros b' [<-|Hb']; auto|].
    split; [assumption|]. simpl. now rewrite Hupd.
Qed.

Lemma update_first_missing (alert_id : string) (f : Alert.t -> Alert.t)
  (rows : list Alert.t) :
  (forall b, In b rows -> Alert.alert_id b <> alert_id) ->
  AlertManager.update_first alert_id f rows = rows.
Proof.
  induction rows as [|b rows IH]; simpl; [reflexivity|].
  intros H. destruct (String.eqb_spec (Alert.alert_id b) alert_id) as [E|E].
  - exfalso. apply (H b); auto.
  - rewrite IH; auto.
Qed.

(** X8. [acknowledge_alert] and [resolve_alert] rewrite the first alert
    that carries the identifier and nothing else: the log entries, the
    alerts before and after that row and the number of alerts stay as they
    were.  For an identifier that no alert carries they return [None] and
    leave the session unchanged. *)
Theorem lifecycle_updates_frame (alert_id : string) (db : Session)
  (analyst : option string) (now now' : instant) :
  let acked := AlertManager.acknowledge_alert alert_id db analyst now in
  let resolved := AlertManager.resolve_alert alert_id db analyst now now' in
  log_entries (fst acked) = log_entries db
  /\ log_entries (fst resolved) = log_entries db
  /\ (forall a, AlertManager.find_alert alert_id db = Some a ->
        exists pre post,
          alerts db = (pre ++ a :: post)%list
          /\ (forall b, In b pre -> Alert.alert_id b <> alert_id)
          /\ alerts (fst acked)
             = (pre ++ AlertManager.acknowledge analyst now a :: post)%list
          /\ alerts (fst resolved)
             = (pre ++ AlertManager.resolve analyst now now' a :: post)%list)
  /\ (AlertManager.find_alert alert_id db = None ->
      acked = (db, None) /\ resolved = (db, None)).
Proof.
  intros acked resolved. subst acked resolved.
  unfold AlertManager.acknowledge_alert, AlertManager.resolve_alert.
  destruct (AlertManager.find_alert alert_id db) as [a|] eqn:Hfind; cbn [fst].
  - repeat split; try discriminate.
    intros a' Ha'. injection Ha' as <-.
    rewrite find_alert_session in Hfind.
    destruct (update_first_split alert_id (AlertManager.acknowledge analyst now)
                _ _ _ Hfind) as (pre & post & Hrows & Hpre & Hid & Hack).
    exists pre, post. repeat split; try assumption.
    cbn [alerts]. rewrite Hrows.
    clear - Hpre Hid. induction pre as [|b pre IH]; simpl.
    + now rewrite Hid, String.eqb_refl.
    + destruct (String.eqb_spec (Alert.alert_id b) alert_id) as [E|E].
      * exfalso. apply (Hpre b); auto. now left.
      * rewrite IH; auto. intros b' Hb'. apply Hpre. now right.
  - repeat split; discriminate.
Qed.

Lemma lifecycle_updates_frame_example :
  AlertManager.acknowledge_alert "no-such-alert" Sample.session_with_alert
    (Some "carol") Sample.t_12_30 = (Sample.session_with_alert, None).
Proof.
  destruct (lifecycle_updates_frame "no-such-alert" Sample.session_with_alert
              (Some "carol") Sample.t_12_30 Sample.t_12_30) as (_ & _ & _ & Hnone).
  apply Hnone. reflexivity.
Defined.

(** X9. An acknowledgement survives the resolution: after
    [acknowledge_alert] by one analyst and [resolve_alert] by another, the
    alert is acknowledged and resolved, [acknowledged_by] and
    [acknowledged_at] are those of the acknowledgement, [resolved_by] and
    [resolved_at] those of the resolution. *)
Theorem acknowledge_then_resolve (alert_id : string) (db : Session)
  (analyst1 analyst2 : option string) (t1 t2 t2' : instant) (a : Alert.t) :
  AlertManager.find_alert alert_id db = Some a ->
  let db1 := fst (AlertManager.acknowledge_alert alert_id db analyst1 t1) in
  let after := AlertManager.resolve_alert alert_id db1 analyst2 t2 t2' in
  exists a',
    snd after = Some a'
    /\ AlertManager.find_alert alert_id (fst after) = Some a'
    /\ Alert.acknowledged a' = true
    /\ Alert.acknowledged_by a' = Some (analyst_or_system analyst1)
    /\ Alert.acknowledged_at a' = Some t1
    /\ Alert.resolved a' = true
    /\ Alert.resolved_by a' = Some (analyst_or_system analyst2)
    /\ Alert.resolved_at a' = Some t2.
Proof.
  intros Hfind db1 after. subst after db1.
  unfold AlertManager.acknowledge_alert. rewrite Hfind. cbn [fst].
  unfold AlertManager.resolve_alert.
  rewrite find_update_first by reflexivity.
  rewrite <- find_alert_session, Hfind. cbn [option_map fst snd].
  eexists. split; [reflexivity|]. split.
  - rewrite find_update_first by reflexivity. cbn [log_entries alerts].
    rewrite find_update_first by reflexivity.
    now rewrite <- find_alert_session, Hfind.
  - cbn. rewrite !or_str_system. repeat split.
Qed.

Lemma acknowledge_then_resolve_example :
  exists a',
    snd (AlertManager.resolve_alert "a-1"
           (fst (AlertManager.acknowledge_alert "a-1" Sample.session_with_alert
                   (Some "carol") Sample.t_12_00))
           None Sample.t_12_30 Sample.t_12_30) = Some a'
    /\ Alert.acknowledged_by a' = Some "carol"
    /\ Alert.acknowledged_at a' = Some Sample.t_12_00
    /\ Alert.resolved_by a' = Some "System"
    /\ Alert.resolved_at a' = Some Sample.t_12_30.
Proof.
  destruct (acknowledge_then_resolve "a-1" Sample.session_with_alert (Some "carol")
              None Sample.t_12_00 Sample.t_12_30 Sample.t_12_30 Sample.open_alert
              eq_refl) as (a' & H1 & _ & _ & H2 & H3 & _ & H4 & H5).
  exists a'. repeat split; assumption.
Defined.

(** X10. Resolving an alert again overwrites [resolved_by] and
    [resolved_at] with those of the later call and leaves the
    acknowledgement of the first resolution in place. *)
Theorem resolve_twice (alert_id : string) (db : Session)
  (analyst1 analyst2 : option string) (t1 t1' t2 t2' : instant) (a : Alert.t) :
  AlertManager.find_alert alert_id db = Some a ->
  let once := AlertManager.resolve_alert alert_id db analyst1 t1 t1' in
  let twice := AlertManager.resolve_alert alert_id (fst once) analyst2 t2 t2' in
  exists a1 a2,
    snd once = Some a1 /\ snd twice = Some a2
    /\ AlertManager.find_alert alert_id (fst twice) = Some a2
    /\ Alert.acknowledged_by a2 = Alert.acknowledged_by a1
    /\ Alert.acknowledged_at a2 = Alert.acknowledged_at a1
    /\ Alert.acknowledged_at a1 <> None
    /\ Alert.resolved_by a2 = Some (analyst_or_system analyst2)
    /\ Alert.resolved_at a2 = Some t2.
Proof.
  intros Hfind once twice.
  assert (Honce : once
                  = ({| log_entries := log_entries db;
                        alerts := AlertManager.update_first alert_id
                                    (AlertManager.resolve analyst1 t1 t1') (alerts db) |},
                     Some (AlertManager.resolve analyst1 t1 t1' a))).
  { subst once. unfold AlertManager.resolve_alert. now rewrite Hfind. }
  subst twice. rewrite Honce. cbn [fst snd].
  unfold AlertManager.resolve_alert.
  rewrite find_update_first by reflexivity.
  rewrite <- find_alert_session, Hfind. cbn [option_map fst snd].
  do 2 eexists. split; [reflexivity|]. split; [reflexivity|]. split.
  - rewrite find_update_first by reflexivity. cbn [log_entries alerts].
    rewrite find_update_first by reflexivity.
    now rewrite <- find_alert_session, Hfind.
  - cbn. rewrite !or_str_system.
    destruct (Alert.acknowledged_at a); repeat split; discriminate.
Qed.

Lemma resolve_twice_example :
  exists a2,
    snd (AlertManager.resolve_alert "a-1"
           (fst (AlertManager.resolve_alert "a-1" Sample.session_with_alert
                   (Some "carol") Sample.t_12_00 Sample.t_12_00))
           (Some "dave") Sample.t_12_30 Sample.t_12_30) = Some a2
    /\ Alert.acknowledged_by a2 = Some "carol"
    /\ Alert.resolved_by a2 = Some "dave"
    /\ Alert.resolved_at a2 = Some Sample.t_12_30.
Proof.
  destruct (resolve_twice "a-1" Sample.session_with_alert (Some "carol") (Some "dave")
              Sample.t_12_00 Sample.t_12_00 Sample.t_12_30 Sample.t_12_30
              Sample.open_alert eq_refl)
    as (a1 & a2 & H1 & H2 & _ & Hby & _ & _ & Hrb & Hra).
  exists a2. injection H1 as <-. repeat split; assumption.
Defined.

(* ================================================================== *)
(** ** Queries: ordering, pagination, filters *)

Section OrderBy.
Context {A : Type}.
Variable key : A -> Z.

Lemma insert_desc_perm (a : A) (rows : list A) :
  Permutation (insert_desc key a rows) (a :: rows).
Proof.
  induction rows as [|b rows IH]; simpl; [reflexivity|].
  destruct (key b <=? key a); [reflexivity|].
  rewrite IH. apply perm_swap.
Qed.

Lemma order_by_desc_perm (rows : list A) : Permutation (order_by_desc key rows) rows.
Proof.
  unfold order_by_desc. induction rows as [|a rows IH]; simpl; [reflexivity|].
  rewrite insert_desc_perm. now constructor.
Qed.

Lemma order_by_desc_In (rows : list A) (a : A) :
  In a (order_by_desc key rows) <-> In a rows.
Proof.
  split; apply Permutation_in;
    [apply order_by_desc_perm | symmetry; apply order_by_desc_perm].
Qed.

Lemma insert_desc_sorted (a : A) (rows : list A) :
  sorted_desc key rows -> sorted_desc key (insert_desc key a rows).
Proof.
  unfold sorted_desc. induction 1 as [|b rows Hs IH Hb]; simpl.
  - repeat constructor.
  - destruct (Z.leb_spec (key b) (key a)) as [Hle|Hlt].
    + constructor; [now constructor|].
      constructor; [assumption|].
      rewrite Forall_forall in *. intros c Hc. specialize (Hb c Hc). lia.
    + constructor; [assumption|].
      rewrite Forall_forall in *. intros c Hc.
      apply (Permutation_in _ (insert_desc_perm a rows)) in Hc.
      destruct Hc as [<-|Hc]; [lia | now apply Hb].
Qed.

Lemma order_by_desc_sorted (rows : list A) : sorted_desc key (order_by_desc key rows).
Proof.
  unfold order_by_desc. induction rows as [|a rows IH]; simpl.
  - constructor.
  - now apply insert_desc_sorted.
Qed.

Lemma sorted_desc_skipn (n : nat) (rows : list A) :
  sorted_desc key rows -> sorted_desc key (skipn n rows).
Proof.
  unfold sorted_desc. revert rows. induction n as [|n IH]; intros rows H; [assumption|].
  destruct rows as [|a rows]; [constructor|]. simpl. apply IH.
  now inversion H.
Qed.

Lemma sorted_desc_firstn (n : nat) (rows : list A) :
  sorted_desc key rows -> sorted_desc key (firstn n rows).
Proof.
  unfold sorted_desc. revert rows. induction n as [|n IH]; intros rows H; [constructor|].
  destruct rows as [|a rows]; [constructor|]. simpl.
  inversion H as [|? ? Hs Hall]; subst. constructor; [now apply IH|].
  rewrite Forall_forall in *. intros b Hb. apply Hall.
  revert Hb. clear. revert rows. induction n as [|n IH]; intros rows; [intros []|].
  destruct rows as [|c rows]; [intros []|]. simpl. intros [<-|Hb]; auto.
Qed.

Lemma paginate_In (offset limit : nat) (rows : list A) (a : A) :
  In a (paginate offset limit rows) -> In a rows.
Proof.
  unfold paginate. intros H.
  assert (Hskip : In a (skipn offset rows)).
  { revert H. generalize (skipn offset rows). clear. intros l. revert l.
    induction limit as [|n IH]; intros l; [intros []|].
    destruct l as [|c l]; [intros []|]. simpl. intros [<-|Hb]; auto. }
  revert Hskip. clear. revert rows.
  induction offset as [|n IH]; intros rows; [auto|].
  destruct rows as [|c rows]; [intros []|]. simpl. auto.
Qed.

Lemma paginate_length (offset limit : nat) (rows : list A) :
  (List.length (paginate offset limit rows) <= limit)%nat.
Proof. unfold paginate. rewrite length_firstn. lia. Qed.

Lemma paginate_all (limit : nat) (rows : list A) :
  (List.length rows <= limit)%nat -> paginate 0 limit rows = rows.
Proof. intros H. unfold paginate. simpl. now apply firstn_all2. Qed.

Lemma paginate_sorted (offset limit : nat) (rows : list A) :
  sorted_desc key rows -> sorted_desc key (paginate offset limit rows).
Proof. intros H. unfold paginate. now apply sorted_desc_firstn, sorted_desc_skipn. Qed.
End OrderBy.

Lemma filter_if_str_In {A : Type} (column : A -> option string)
  (value : option string) (rows : list A) (r : A) :
  In r (filter_if_str column value rows)
  <-> In r rows /\ (truthy_str value = true -> column r = value).
Proof.
  unfold filter_if_str. destruct (truthy_str value).
  - rewrite filter_In, opt_str_eqb_eq. tauto.
  - split; [intros H; split; [assumption | discriminate] | tauto].
Qed.

Lemma filter_if_bool_In {A : Type} (column : A -> bool)
  (value : option bool) (rows : list A) (r : A) :
  In r (filter_if_bool column value rows)
  <-> In r rows /\ (forall v, value = Some v -> column r = v).
Proof.
  unfold filter_if_bool. destruct value as [v|].
  - rewrite filter_In, Bool.eqb_true_iff. split.
    + intros [Hin Hv]. split; [assumption|]. intros v' E. now injection E as <-.
    + intros [Hin Hv]. split; [assumption | now apply Hv].
  - split; [intros H; split; [assumption | discriminate] | tauto].
Qed.

Lemma filter_since_In {A : Type} (column : A -> instant)
  (bound : option instant) (rows : list A) (r : A) :
  In r (filter_since column bound rows)
  <-> In r rows /\ (forall t, bound = Some t -> t <= column r).
Proof.
  unfold filter_since. destruct bound as [t|].
  - rewrite filter_In, Z.leb_le. split.
    + intros [Hin Hv]. split; [assumption|]. intros t' E. now injection E as <-.
    + intros [Hin Hv]. split; [assumption | now apply Hv].
  - split; [intros H; split; [assumption | discriminate] | tauto].
Qed.

Lemma filter_until_In {A : Type} (column : A -> instant)
  (bound : option instant) (rows : list A) (r : A) :
  In r (filter_until column bound rows)
  <-> In r rows /\ (forall t, bound = Some t -> column r <= t).
Proof.
  unfold filter_until. destruct bound as [t|].
  - rewrite filter_In, Z.leb_le. split.
    + intros [Hin Hv]. split; [assumption|]. intros t' E. now injection E as <-.
    + intros [Hin Hv]. split; [assumption | now apply Hv].
  - split; [intros H; split; [assumption | discriminate] | tauto].
Qed.

(** X11. [get_alerts] returns at most [limit] alerts, each of them stored
    and passing every filter that is set, in decreasing order of
    [triggered_at]; with [offset = 0] and a [limit] that the table does not
    exceed, every stored alert that passes the filters is returned.  An
    empty [severity] or [rule_name] filters nothing. *)
Theorem get_alerts_spec (db : Session) (severity rule_name : option string)
  (resolved : option bool) (limit offset : nat) :
  let result := AlertManager.get_alerts db severity rule_name resolved limit offset in
  (List.length result <= limit)%nat
  /\ (forall a, In a result ->
        In a (alerts db) /\ alert_matches severity rule_name resolved a)
  /\ sorted_desc Alert.triggered_at result
  /\ (offset = 0%nat -> (List.length (alerts db) <= limit)%nat ->
      forall a, In a (alerts db) -> alert_matches severity rule_name resolved a ->
                In a result)
  /\ AlertManager.get_alerts db (Some "") (Some "") resolved limit offset
     = AlertManager.get_alerts db None None resolved limit offset.
Proof.
  intros result. subst result. unfold AlertManager.get_alerts.
  set (query := filter_if_bool _ _ _).
  assert (Hquery : forall a, In a query
                             <-> In a (alerts db)
                                 /\ alert_matches severity rule_name resolved a).
  { intros a. subst query.
    rewrite filter_if_bool_In, !filter_if_str_In. unfold alert_matches. tauto. }
  split; [apply paginate_length|]. split; [|split; [|split]].
  - intros a Ha. apply paginate_In in Ha. apply order_by_desc_In in Ha.
    now apply Hquery.
  - apply paginate_sorted, order_by_desc_sorted.
  - intros -> Hlimit a Hin Hmatch.
    rewrite paginate_all.
    + apply order_by_desc_In. now apply Hquery.
    + rewrite (Permutation_length (order_by_desc_perm _ _)).
      subst query.
      assert (Hle : forall (A : Type) (p : A -> bool) l,
                 (List.length (filter p l) <= List.length l)%nat).
      { intros A p l. induction l as [|x l IH]; simpl; [lia|].
        destruct (p x); simpl; lia. }
      unfold filter_if_bool, filter_if_str.
      repeat match goal with
             | |- context [match ?v with Some _ => _ | None => _ end] => destruct v
             | |- context [if ?b then _ else _] => destruct b
             end;
        repeat (etransitivity; [apply Hle|]); lia.
  - reflexivity.
Qed.

Lemma get_alerts_example :
  In Sample.open_alert
     (AlertManager.get_alerts Sample.session_with_alert (Some "Critical") None
        (Some false) 100 0).
Proof.
  pose proof (get_alerts_spec Sample.session_with_alert (Some "Critical") None
                (Some false) 100 0) as H.
  cbv zeta in H. destruct H as (_ & _ & _ & Hall & _).
  apply Hall; [reflexivity | simpl; lia | now left |].
  unfold alert_matches. repeat split; try discriminate.
  intros v E. now injection E as <-.
Defined.

(* ================================================================== *)
(** ** Alert statistics *)

Lemma distinct_In (l : list string) (x : string) : In x (distinct l) <-> In x l.
Proof.
  induction l as [|y l IH]; simpl; [tauto|].
  rewrite filter_In, IH, negb_true_iff, String.eqb_neq.
  destruct (String.eqb_spec x y) as [->|Hxy]; [tauto|]. split.
  - intros [H|[H _]]; auto.
  - intros [H|H]; [congruence | auto].
Qed.

Lemma distinct_NoDup (l : list string) : NoDup (distinct l).
Proof.
  induction l as [|y l IH]; simpl; constructor.
  - rewrite filter_In, String.eqb_refl. intros [_ H]. discriminate.
  - now apply NoDup_filter.
Qed.

Lemma counter_get_notin (k : string) (rs : list (string * Z)) :
  ~ In k (map fst rs) -> counter_get k rs = None.
Proof.
  induction rs as [|[s n] rs IH]; simpl; [reflexivity|].
  intros H. destruct (String.eqb_spec s k) as [->|_]; [tauto | auto].
Qed.

Lemma counter_get_map (f : string -> Z) (l : list string) (k : string) :
  counter_get k (map (fun s => (s, f s)) l) = if in_dec string_dec k l then Some (f k) else None.
Proof.
  induction l as [|s l IH]; simpl; [reflexivity|].
  destruct (String.eqb_spec s k) as [->|Hsk].
  - destruct (string_dec k k); [reflexivity | contradiction].
  - rewrite IH. destruct (string_dec s k); [contradiction|].
    destruct (in_dec string_dec k l); reflexivity.
Qed.

Lemma pick_cons_other (k s : string) (n : Z) (rs : list (string * Z)) (d : Z) :
  s <> k -> pick k ((s, n) :: rs) d = pick k rs d.
Proof.
  intros H. unfold pick. simpl.
  destruct (String.eqb_spec s k); [contradiction | reflexivity].
Qed.

Lemma pick_notin (k : string) (rs : list (string * Z)) (d : Z) :
  ~ In k (map fst rs) -> pick k rs d = d.
Proof. intros H. unfold pick. now rewrite counter_get_notin. Qed.

Lemma pick_cons_same (k : string) (n : Z) (rs : list (string * Z)) (d : Z) :
  pick k ((k, n) :: rs) d = n.
Proof. unfold pick. simpl. now rewrite String.eqb_refl. Qed.

Lemma tally_cons_hit (s : string) (n : Z) (rs : list (string * Z))
  (stats : counters) (v : Z) :
  counter_get s stats = Some v ->
  AlertManager.tally ((s, n) :: rs) stats
  = AlertManager.tally rs (counter_add "total" n (counter_set s n stats)).
Proof. intros H. cbn [AlertManager.tally]. now rewrite H. Qed.

Lemma tally_cons_miss (s : string) (n : Z) (rs : list (string * Z))
  (stats : counters) :
  counter_get s stats = None ->
  AlertManager.tally ((s, n) :: rs) stats = AlertManager.tally rs stats.
Proof. intros H. cbn [AlertManager.tally]. now rewrite H. Qed.

(** The loop of [get_alert_statistics] on rows with distinct severities:
    each of the four counters takes the count of its row, [total] adds them
    up when no row is named "total". *)
Lemma tally_form (results : list (string * Z)) :
  forall c h m l t,
    NoDup (map fst results) ->
    exists t',
      AlertManager.tally results (stats_form c h m l t)
      = stats_form (pick "Critical" results c) (pick "High" results h)
          (pick "Medium" results m) (pick "Low" results l) t'
      /\ (~ In "total" (map fst results) ->
          t' = t + pick "Critical" results 0 + pick "High" results 0
               + pick "Medium" results 0 + pick "Low" results 0).
Proof.
  induction results as [|[s n] rs IH]; intros c h m l t Hnd.
  - exists t. split; [reflexivity|]. intros _. unfold pick. simpl. lia.
  - inversion Hnd as [|? ? Hnot Hrest]; subst. cbn [map fst] in Hnot.
    destruct (String.eqb_spec s "Critical") as [->|HCritical].
    { rewrite (tally_cons_hit "Critical" n rs (stats_form c h m l t) c eq_refl).
      change (counter_add "total" n (counter_set "Critical" n (stats_form c h m l t)))
        with (stats_form n h m l (t + n)).
      destruct (IH n h m l (t + n) Hrest) as (t' & Heq & Ht).
      exists t'. split.
      - rewrite Heq. rewrite pick_cons_same.
        rewrite !pick_cons_other by discriminate.
        now rewrite (pick_notin "Critical" rs n Hnot).
      - intros Hno. rewrite Ht by (intros H; apply Hno; now right).
        rewrite pick_cons_same, !pick_cons_other by discriminate.
        rewrite (pick_notin "Critical" rs 0 Hnot). lia. }
    destruct (String.eqb_spec s "High") as [->|HHigh].
    { rewrite (tally_cons_hit "High" n rs (stats_form c h m l t) h eq_refl).
      change (counter_add "total" n (counter_set "High" n (stats_form c h m l t)))
        with (stats_form c n m l (t + n)).
      destruct (IH c n m l (t + n) Hrest) as (t' & Heq & Ht).
      exists t'. split.
      - rewrite Heq. rewrite pick_cons_same.
        rewrite !pick_cons_other by discriminate.
        now rewrite (pick_notin "High" rs n Hnot).
      - intros Hno. rewrite Ht by (intros H; apply Hno; now right).
        rewrite pick_cons_same, !pick_cons_other by discriminate.
        rewrite (pick_notin "High" rs 0 Hnot). lia. }
    destruct (String.eqb_spec s "Medium") as [->|HMedium].
    { rewrite (tally_cons_hit "Medium" n rs (stats_form c h m l t) m eq_refl).
      change (counter_add "total" n (counter_set "Medium" n (stats_form c h m l t)))
        with (stats_form c h n l (t + n)).
      destruct (IH c h n l (t + n) Hrest) as (t' & Heq & Ht).
      exists t'. split.
      - rewrite Heq. rewrite pick_cons_same.
        rewrite !pick_cons_other by discriminate.
        now rewrite (pick_notin "Medium" rs n Hnot).
      - intros Hno. rewrite Ht by (intros H; apply Hno; now right).
        rewrite pick_cons_same, !pick_cons_other by discriminate.
        rewrite (pick_notin "Medium" rs 0 Hnot). lia. }
    destruct (String.eqb_spec s "Low") as [->|HLow].
    { rewrite (tally_cons_hit "Low" n rs (stats_form c h m l t) l eq_refl).
      change (counter_add "total" n (counter_set "Low" n (stats_form c h m l t)))
        with (stats_form c h m n (t + n)).
      destruct (IH c h m n (t + n) Hrest) as (t' & Heq & Ht).
      exists t'. split.
      - rewrite Heq. rewrite pick_cons_same.
        rewrite !pick_cons_other by discriminate.
        now rewrite (pick_notin "Low" rs n Hnot).
      - intros Hno. rewrite Ht by (intros H; apply Hno; now right).
        rewrite pick_cons_same, !pick_cons_other by discriminate.
        rewrite (pick_notin "Low" rs 0 Hnot). lia. }
    destruct (String.eqb_spec s "total") as [->|H5].
    { rewrite (tally_cons_hit "total" n rs (stats_form c h m l t) t eq_refl).
      change (counter_add "total" n (counter_set "total" n (stats_form c h m l t)))
        with (stats_form c h m l (n + n)).
      destruct (IH c h m l (n + n) Hrest) as (t' & Heq & Ht).
      exists t'. split.
      - rewrite Heq. now rewrite !pick_cons_other by discriminate.
      - intros Hno. exfalso. apply Hno. now left. }
    assert (Hget : counter_get s (stats_form c h m l t) = None).
    { unfold stats_form. cbn [counter_get].
      repeat match goal with
             | |- context [String.eqb ?k s] =>
                 destruct (String.eqb_spec k s) as [E|_]; [symmetry in E; contradiction|]
             end.
      reflexivity. }
    rewrite (tally_cons_miss s n rs _ Hget).
    destruct (IH c h m l t Hrest) as (t' & Heq & Ht).
    exists t'. split.
    + rewrite Heq. now rewrite !pick_cons_other by assumption.
    + intros Hno. rewrite Ht by (intros H; apply Hno; now right).
      now rewrite !pick_cons_other by assumption.
Qed.

Lemma filter_filter_length {A : Type} (p q : A -> bool) (l : list A) :
  List.length (filter q (filter p l)) = List.length (filter (fun a => p a && q a) l).
Proof.
  induction l as [|a l IH]; simpl; [reflexivity|].
  destruct (p a); simpl; [destruct (q a); simpl; congruence | assumption].
Qed.

Lemma count_by_severity_keys (db : Session) :
  NoDup (map fst (AlertManager.count_by_severity db))
  /\ forall s, In s (map fst (AlertManager.count_by_severity db))
               <-> exists a, In a (alerts db) /\ Alert.resolved a = false
                             /\ Alert.severity a = s.
Proof.
  unfold AlertManager.count_by_severity. rewrite map_map. cbn [fst]. rewrite map_id.
  split; [apply distinct_NoDup|].
  intros s. rewrite distinct_In, in_map_iff. split.
  - intros (a & Hs & Hin). apply filter_In in Hin. destruct Hin as [Hin Hr].
    apply negb_true_iff in Hr. now exists a.
  - intros (a & Hin & Hr & Hs). exists a. split; [assumption|].
    apply filter_In. split; [assumption|]. now rewrite Hr.
Qed.

Lemma count_by_severity_pick (db : Session) (s : string) :
  pick s (AlertManager.count_by_severity db) 0 = unresolved_with s db.
Proof.
  unfold pick, AlertManager.count_by_severity, unresolved_with, count_rows.
  rewrite (counter_get_map
             (fun severity =>
                Z.of_nat (List.length
                            (filter (fun a => String.eqb (Alert.severity a) severity)
                                    (filter (fun a => negb (Alert.resolved a))
                                            (alerts db)))))).
  rewrite <- filter_filter_length.
  destruct (in_dec string_dec s _) as [Hin|Hnot]; [reflexivity|].
  rewrite distinct_In, in_map_iff in Hnot.
  destruct (filter _ (filter _ (alerts db))) as [|a l] eqn:E; [reflexivity|].
  exfalso. apply Hnot. exists a.
  assert (Ha : In a (filter (fun a => String.eqb (Alert.severity a) s)
                            (filter (fun a => negb (Alert.resolved a)) (alerts db))))
    by (rewrite E; now left).
  apply filter_In in Ha. destruct Ha as [Ha Hs]. apply String.eqb_eq in Hs. tauto.
Qed.

(** The statistics dict in closed form. *)
Lemma get_alert_statistics_form (db : Session) :
  exists t',
    AlertManager.get_alert_statistics db
    = stats_form (unresolved_with "Critical" db) (unresolved_with "High" db)
        (unresolved_with "Medium" db) (unresolved_with "Low" db) t'
    /\ ((forall a, In a (alerts db) -> Alert.resolved a = false ->
                   Alert.severity a <> "total") ->
        t' = unresolved_with "Critical" db + unresolved_with "High" db
             + unresolved_with "Medium" db + unresolved_with "Low" db).
Proof.
  destruct (count_by_severity_keys db) as [Hnd Hkeys].
  destruct (tally_form (AlertManager.count_by_severity db) 0 0 0 0 0 Hnd)
    as (t' & Heq & Ht).
  exists t'. rewrite !count_by_severity_pick in Heq, Ht. split.
  - exact Heq.
  - intros Hno. rewrite Ht; [lia|].
    intros Hin. apply Hkeys in Hin. destruct Hin as (a & Hin & Hr & Hs).
    now apply (Hno a).
Qed.

(** X12. [get_alert_statistics] returns the five keys [Critical], [High],
    [Medium], [Low] and [total]; each of the four severities maps to the
    number of unresolved alerts of that severity, resolved alerts and other
    severities count nowhere, and [total] is the sum of the four counters
    unless an unresolved alert has the severity "total". *)
Theorem get_alert_statistics_spec (db : Session) :
  let stats := AlertManager.get_alert_statistics db in
  map fst stats = ["Critical"; "High"; "Medium"; "Low"; "total"]
  /\ counter_get "Critical" stats = Some (unresolved_with "Critical" db)
  /\ counter_get "High" stats = Some (unresolved_with "High" db)
  /\ counter_get "Medium" stats = Some (unresolved_with "Medium" db)
  /\ counter_get "Low" stats = Some (unresolved_with "Low" db)
  /\ ((forall a, In a (alerts db) -> Alert.resolved a = false ->
                 Alert.severity a <> "total") ->
      counter_get "total" stats
      = Some (unresolved_with "Critical" db + unresolved_with "High" db
              + unresolved_with "Medium" db + unresolved_with "Low" db)).
Proof.
  intros stats. subst stats.
  destruct (get_alert_statistics_form db) as (t' & -> & Ht).
  repeat split. intros Hno. rewrite (Ht Hno). reflexivity.
Qed.

Lemma get_alert_statistics_example :
  counter_get "total" (AlertManager.get_alert_statistics Sample.session_with_alert)
  = Some 1.
Proof.
  pose proof (get_alert_statistics_spec Sample.session_with_alert) as H.
  cbv zeta in H. destruct H as (_ & _ & _ & _ & _ & Htotal).
  rewrite Htotal; [reflexivity|].
  intros a [<-|[]] _. discriminate.
Defined.

(* ================================================================== *)
(** ** Log parser *)

Lemma dict_get_set_same (k v : string) (d : fields) :
  dict_get k (dict_set k v d) = Some v.
Proof.
  induction d as [|[k' v'] d IH]; simpl.
  - now rewrite String.eqb_refl.
  - destruct (String.eqb_spec k' k) as [->|H]; simpl.
    + now rewrite String.eqb_refl.
    + destruct (String.eqb_spec k' k); [contradiction | assumption].
Qed.

Lemma dict_get_set_other (k k' v : string) (d : fields) :
  k' <> k -> dict_get k (dict_set k' v d) = dict_get k d.
Proof.
  intros Hk. induction d as [|[k0 v0] d IH]; simpl.
  - destruct (String.eqb_spec k' k); [contradiction | reflexivity].
  - destruct (String.eqb_spec k0 k') as [->|H]; simpl.
    + destruct (String.eqb_spec k' k); [contradiction | reflexivity].
    + destruct (String.eqb_spec k0 k); [reflexivity | assumption].
Qed.

Lemma dict_set_not_nil (k v : string) (d : fields) : dict_set k v d <> [].
Proof.
  destruct d as [|[k' v'] d]; simpl; [discriminate|].
  destruct (String.eqb k' k); discriminate.
Qed.

(** The first pattern of the table that matches decides. *)
Lemma try_patterns_first (pw : ParserWorld) (line : string)
  (before after : list pattern_name) (pattern : pattern_name) (data : fields) :
  (forall q, In q before -> pattern_search pw q line = None) ->
  pattern_search pw pattern line = Some data ->
  LogParser.try_patterns pw (before ++ pattern :: after) line
  = Some (LogParser.normalize_event data).
Proof.
  intros Hbefore Hmatch. induction before as [|q before IH]; simpl.
  - now rewrite Hmatch.
  - rewrite (Hbefore q (or_introl eq_refl)). apply IH.
    intros q' Hq'. apply Hbefore. now right.
Qed.

(** The entry that [parse_line] builds from the extracted fields. *)
Lemma parse_line_fields (pw : ParserWorld) (world : GeoWorld) (line : string)
  (source_file : option string) (now : instant) (data : fields) :
  strip line <> "" -> data <> [] ->
  LogParser._extract_fields pw (strip line) now = Some data ->
  (forall s, dict_get "timestamp" data = Some s ->
             exists parsed, parse_timestamp pw s = Ok parsed) ->
  (dict_get_default "source_ip" "" data = ""
   \/ exists loc, get_location world (dict_get_default "source_ip" "" data) = Ok loc) ->
  exists entry,
    LogParser.parse_line pw world line source_file now = Ok (Some entry)
    /\ LogEntry.source_ip entry = dict_get_default "source_ip" "" data
    /\ LogEntry.username entry = Some (dict_get_default "username" "" data)
    /\ LogEntry.event_type entry
       = lower (dict_get_default "event_type"
                  (dict_get_default "event" "authentication" data) data)
    /\ LogEntry.status entry = lower (dict_get_default "status" "unknown" data)
    /\ LogEntry.timestamp entry
       = match dict_get "timestamp" data with
         | Some s =>
             match parse_timestamp pw s with Ok (Some t) => t | _ => now end
         | None => now
         end
    /\ LogEntry.raw_log entry = Some (strip line)
    /\ LogEntry.source_file entry = source_file.
Proof.
  intros Hline Hdata Hfields Hts Hloc. unfold LogParser.parse_line.
  destruct (String.eqb_spec (strip line) ""); [contradiction|].
  rewrite Hfields. destruct data as [|kv data]; [contradiction|].
  assert (Htime : exists timestamp,
             match dict_get "timestamp" (kv :: data) with
             | Some s =>
                 parsed <- parse_timestamp pw s ;;
                 Ok (match parsed with Some t => t | None => now end)
             | None => Ok now
             end = Ok timestamp
             /\ timestamp
                = match dict_get "timestamp" (kv :: data) with
                  | Some s =>
                      match parse_timestamp pw s with Ok (Some t) => t | _ => now end
                  | None => now
                  end).
  { destruct (dict_get "timestamp" (kv :: data)) as [s|]; [|now exists now].
    destruct (Hts s eq_refl) as [parsed ->]. cbn [bind].
    eexists. split; reflexivity. }
  destruct Htime as (timestamp & -> & Htimestamp). cbn [bind].
  destruct (String.eqb_spec (dict_get_default "source_ip" "" (kv :: data)) "")
    as [Hip|Hip].
  - cbn [bind]. eexists. split; [reflexivity|]. cbn. conjs; auto.
  - destruct Hloc as [Hempty|[loc Hloc]]; [contradiction|].
    rewrite Hloc. cbn [bind]. eexists. split; [reflexivity|]. cbn. conjs; auto.
Qed.

(** X13. When a pattern matches before any other of the table and its
    groups hold an [event] but no [event_type] (the SSH pattern), the parsed
    entry is a login: [success] for the events Accepted and Success,
    [failed] for Failed, Denied and Rejected, whatever their case; the
    address and the username are those of the groups.  The entry is returned
    when [parse_timestamp] returns on the timestamp group and the resolver
    on the address. *)
Theorem parse_line_event_group (pw : ParserWorld) (world : GeoWorld) (line : string)
  (source_file : option string) (now : instant)
  (before after : list pattern_name) (pattern : pattern_name)
  (data : fields) (event : string) :
  PATTERNS = (before ++ pattern :: after)%list ->
  strip line <> "" ->
  (forall q, In q before -> pattern_search pw q (strip line) = None) ->
  pattern_search pw pattern (strip line) = Some data ->
  dict_get "event" data = Some event ->
  dict_get "event_type" data = None ->
  (forall s, dict_get "timestamp" data = Some s ->
             exists parsed, parse_timestamp pw s = Ok parsed) ->
  (dict_get_default "source_ip" "" data = ""
   \/ exists loc, get_location world (dict_get_default "source_ip" "" data) = Ok loc) ->
  In (lower event) ["accepted"; "success"; "failed"; "denied"; "rejected"] ->
  exists entry,
    LogParser.parse_line pw world line source_file now = Ok (Some entry)
    /\ LogEntry.event_type entry = "login"
    /\ LogEntry.status entry
       = (if existsb (String.eqb (lower event)) ["accepted"; "success"]
          then "success" else "failed")
    /\ LogEntry.source_ip entry = dict_get_default "source_ip" "" data
    /\ LogEntry.username entry = Some (dict_get_default "username" "" data).
Proof.
  intros Htable Hline Hbefore Hmatch Hevent Hnotype Hts Hloc Hknown.
  set (status := if existsb (String.eqb (lower event)) ["accepted"; "success"]
                 then "success" else "failed").
  set (data' := dict_set "event_type" "login" (dict_set "status" status data)).
  assert (Hnorm : LogParser.normalize_event data = data').
  { unfold LogParser.normalize_event, dict_has, dict_get_default.
    rewrite Hevent, Hnotype. cbn [andb negb]. subst data' status.
    destruct (existsb (String.eqb (lower event)) ["accepted"; "success"]) eqn:E1;
      [reflexivity|].
    assert (E2 : existsb (String.eqb (lower event)) ["failed"; "denied"; "rejected"]
                 = true).
    { apply existsb_eqb_In.
      assert (Hnot : ~ In (lower event) ["accepted"; "success"]).
      { intros H. apply existsb_eqb_In in H. congruence. }
      simpl in Hknown, Hnot |- *. tauto. }
    now rewrite E2. }
  assert (Hfields : LogParser._extract_fields pw (strip line) now = Some data').
  { unfold LogParser._extract_fields. rewrite Htable.
    now rewrite (try_patterns_first pw _ before after pattern data Hbefore Hmatch), Hnorm. }
  assert (Hget : forall k, k <> "event_type" -> k <> "status" ->
                           dict_get k data' = dict_get k data).
  { intros k H1 H2. subst data'.
    rewrite dict_get_set_other by congruence.
    now rewrite dict_get_set_other by congruence. }
  assert (Hip : dict_get_default "source_ip" "" data'
                = dict_get_default "source_ip" "" data).
  { unfold dict_get_default. now rewrite Hget by discriminate. }
  destruct (parse_line_fields pw world line source_file now data' Hline
              (dict_set_not_nil _ _ _) Hfields)
    as (entry & Hparse & Hsrc & Huser & Hty & Hst & _).
  { intros s Hs. apply Hts. now rewrite <- (Hget "timestamp") by discriminate. }
  { now rewrite Hip. }
  exists entry. split; [assumption|].
  rewrite Hty, Hst, Hsrc, Huser, Hip. unfold dict_get_default.
  rewrite (Hget "username") by discriminate.
  subst data'. rewrite dict_get_set_same.
  rewrite dict_get_set_other by discriminate. rewrite dict_get_set_same.
  repeat split. subst status.
  destruct (existsb _ _); reflexivity.
Qed.

Lemma parse_line_event_group_example :
  let pw := {| pattern_search := fun p _ =>
                 match p with
                 | ssh_auth => Some [ ("timestamp", "May  1 10:00:00");
                                      ("event", "Failed");
                                      ("source_ip", "203.0.113.7");
                                      ("username", "root") ]
                 | _ => None
                 end;
               ip_search := fun _ => None;
               dt_fromisoformat := fun _ => None;
               py_float := fun _ => None;
               dt_fromtimestamp := fun _ => Raise ValueError;
               dt_strptime := fun _ _ => None;
               isoformat := fun _ => "" |} in
  exists entry,
    LogParser.parse_line pw Sample.world
      "May  1 10:00:00 host sshd[1]: Failed password for 203.0.113.7 port 22 user root"
      None Sample.t_10_00 = Ok (Some entry)
    /\ LogEntry.event_type entry = "login"
    /\ LogEntry.status entry = "failed".
Proof.
  intros pw.
  destruct (parse_line_event_group pw Sample.world
              "May  1 10:00:00 host sshd[1]: Failed password for 203.0.113.7 port 22 user root"
              None Sample.t_10_00 [apache_access]
              [auth_log; windows_event; json_log; simple_log] ssh_auth
              [ ("timestamp", "May  1 10:00:00"); ("event", "Failed");
                ("source_ip", "203.0.113.7"); ("username", "root") ] "Failed")
    as (entry & Hparse & Hty & Hst & _).
  - reflexivity.
  - discriminate.
  - intros q [<-|[]]. reflexivity.
  - reflexivity.
  - reflexivity.
  - reflexivity.
  - intros s Hs. cbn in Hs. injection Hs as <-. eexists. reflexivity.
  - right. eexists. reflexivity.
  - simpl. tauto.
  - exists entry. repeat split; assumption.
Defined.

(** X14. A line that no pattern matches is kept when it holds an IPv4
    literal: the entry carries that address, the event type [unknown], the
    status [unknown], an empty username and the stripped line (the timestamp
    of the fallback is [utcnow().isoformat()], on which [parse_timestamp]
    returns).  Without such a literal, and for a blank line, nothing is
    parsed. *)
Theorem parse_line_fallback (pw : ParserWorld) (world : GeoWorld) (line : string)
  (source_file : option string) (now : instant) :
  (forall q, pattern_search pw q (strip line) = None) ->
  (ip_search pw (strip line) = None ->
   LogParser.parse_line pw world line source_file now = Ok None)
  /\ (strip line = "" -> LogParser.parse_line pw world line source_file now = Ok None)
  /\ (forall ip loc,
        strip line <> "" ->
        ip_search pw (strip line) = Some ip ->
        (exists parsed, parse_timestamp pw (isoformat pw now) = Ok parsed) ->
        get_location world ip = Ok loc ->
        exists entry,
          LogParser.parse_line pw world line source_file now = Ok (Some entry)
          /\ LogEntry.source_ip entry = ip
          /\ LogEntry.event_type entry = "unknown"
          /\ LogEntry.status entry = "unknown"
          /\ LogEntry.username entry = Some ""
          /\ LogEntry.raw_log entry = Some (strip line)).
Proof.
  intros Hnone.
  assert (Htry : LogParser.try_patterns pw PATTERNS (strip line) = None).
  { unfold PATTERNS. simpl. now rewrite !Hnone. }
  split; [|split].
  - intros Hip. unfold LogParser.parse_line, LogParser._extract_fields.
    rewrite Htry, Hip. destruct (String.eqb (strip line) ""); reflexivity.
  - intros Hblank. unfold LogParser.parse_line. now rewrite Hblank.
  - intros ip loc Hline Hip Hts Hloc.
    destruct (parse_line_fields pw world line source_file now
                [ ("source_ip", ip); ("timestamp", isoformat pw now);
                  ("username", ""); ("event_type", "unknown");
                  ("status", "unknown") ] Hline)
      as (entry & Hparse & Hsrc & Huser & Hty & Hst & _ & Hraw & _).
    + discriminate.
    + unfold LogParser._extract_fields. now rewrite Htry, Hip.
    + intros s Hs. cbn in Hs. injection Hs as <-. exact Hts.
    + right. now exists loc.
    + exists entry. repeat split; assumption.
Qed.

Lemma parse_line_fallback_example :
  LogParser.parse_line Sample.parser_world Sample.world "nothing to see here" None
    Sample.t_10_00 = Ok None.
Proof.
  apply (proj1 (parse_line_fallback Sample.parser_world Sample.world
                  "nothing to see here" None Sample.t_10_00 (fun _ => eq_refl))).
  reflexivity.
Defined.

(** X15. Every entry that [parse_line] returns has a lowercase
    [status] and [event_type], keeps the stripped, non-empty line as
    [raw_log] and the given [source_file], has a username, and has no
    location unless it has a source address. *)
Theorem parse_line_entry (pw : ParserWorld) (world : GeoWorld) (line : string)
  (source_file : option string) (now : instant) (entry : LogEntry.t) :
  LogParser.parse_line pw world line source_file now = Ok (Some entry) ->
  lowercase_tokens entry
  /\ LogEntry.raw_log entry = Some (strip line) /\ strip line <> ""
  /\ LogEntry.source_file entry = source_file
  /\ LogEntry.username entry <> None
  /\ (LogEntry.source_ip entry = "" ->
      LogEntry.country_code entry = None /\ LogEntry.latitude entry = None
      /\ LogEntry.longitude entry = None).
Proof.
  intros Hparse. split; [eapply parse_line_lowercase, Hparse|].
  unfold LogParser.parse_line in Hparse.
  destruct (String.eqb_spec (strip line) "") as [|Hline]; [discriminate|].
  destruct (LogParser._extract_fields pw (strip line) now) as [[|kv data]|];
    try discriminate.
  apply bind_Ok_inv in Hparse. destruct Hparse as (timestamp & _ & Hparse).
  destruct (String.eqb_spec (dict_get_default "source_ip" "" (kv :: data)) "")
    as [Hip|Hip].
  - cbn [bind] in Hparse. apply Ok_inj in Hparse. injection Hparse as <-.
    cbn. repeat split; try assumption; discriminate.
  - destruct (get_location world _) as [location_data|err]; [|discriminate].
    cbn [bind] in Hparse. apply Ok_inj in Hparse. injection Hparse as <-.
    cbn. repeat split; try assumption; try discriminate; contradiction.
Qed.

Lemma parse_line_entry_example :
  let pw := {| pattern_search := fun _ _ => None;
               ip_search := fun _ => Some "203.0.113.20";
               dt_fromisoformat := fun _ => None;
               py_float := fun _ => None;
               dt_fromtimestamp := fun _ => Raise ValueError;
               dt_strptime := fun _ _ => None;
               isoformat := fun _ => "" |} in
  exists entry,
    LogParser.parse_line pw Sample.world "  ping from 203.0.113.20 " None
      Sample.t_10_00 = Ok (Some entry)
    /\ lowercase_tokens entry
    /\ LogEntry.raw_log entry = Some "ping from 203.0.113.20".
Proof.
  intros pw. eexists. split; [reflexivity|].
  pose proof (parse_line_entry pw Sample.world "  ping from 203.0.113.20 " None
                Sample.t_10_00 _ eq_refl) as (Hlow & Hraw & _).
  split; [exact Hlow | exact Hraw].
Defined.

(* ================================================================== *)
(** ** Ingestion: what a request appends *)

Lemma map_seq_offset {B : Type} (f : nat -> B) (off : nat) :
  forall start len,
    map (fun k => f (off + k)%nat) (seq start len) = map f (seq (start + off) len).
Proof.
  intros start len. revert start. induction len as [|len IH]; intros start; simpl.
  - reflexivity.
  - rewrite IH. f_equal. f_equal. lia.
Qed.

Lemma ingested_into_refl (db : Session) : ingested_into db db [] [].
Proof.
  unfold ingested_into. rewrite !app_nil_r. repeat split. constructor.
Qed.

Lemma ingested_into_trans (db db1 db2 : Session) (e1 e2 : list LogEntry.t)
  (a1 a2 : list Alert.t) :
  ingested_into db db1 e1 a1 -> ingested_into db1 db2 e2 a2 ->
  ingested_into db db2 (e1 ++ e2) (a1 ++ a2).
Proof.
  intros (He1 & Ha1 & Hi1 & Hid1) (He2 & Ha2 & Hi2 & Hid2).
  unfold ingested_into. rewrite He2, He1, Ha2, Ha1, !app_assoc.
  split; [reflexivity|]. split; [reflexivity|]. split.
  - apply Forall_app. split.
    + eapply Forall_impl; [|exact Hi1]. intros a (e & Hin & H).
      exists e. split; [apply in_or_app; now left | assumption].
    + eapply Forall_impl; [|exact Hi2]. intros a (e & Hin & H).
      exists e. split; [apply in_or_app; now right | assumption].
  - rewrite map_app, Hid1, Hid2, He1, !length_app, seq_app, map_app.
    f_equal. rewrite Nat.add_comm.
    rewrite <- (map_seq_offset (fun k => Z.of_nat (List.length (log_entries db) + k))).
    apply map_ext. intros k. f_equal. lia.
Qed.

Section IngestionGrowth.
Variable settings : Settings.
Variable pw : ParserWorld.
Variable world : GeoWorld.
Variable libm : Libm.
Variable oracle : Oracle.

Lemma create_alerts_grows (detected : list AlertSpec.t) (stored : LogEntry.t) :
  forall (db : Session) (step : nat),
  exists new,
    alerts (fst (IngestionService.create_alerts oracle detected stored db step))
    = (alerts db ++ new)%list
    /\ List.length new = List.length detected
    /\ Forall (issued_for stored) new.
Proof.
  induction detected as [|spec detected IH]; intros db step.
  - exists []. cbn. rewrite app_nil_r. repeat split. constructor.
  - cbn [IngestionService.create_alerts].
    destruct (AlertManager.create_alert _ _ _ _ db _ _ _ _ _) as [db1 a] eqn:E.
    destruct (IH db1 (S step)) as (new & Hal & Hlen & Hall).
    unfold AlertManager.create_alert in E. cbn in E. injection E as <- <-.
    exists ({| Alert.id := Z.of_nat (List.length (alerts db)) + 1;
               Alert.alert_id := uuid4 oracle step;
               Alert.rule_name := AlertSpec.rule_name spec;
               Alert.severity := AlertSpec.severity spec;
               Alert.description := AlertSpec.description spec;
               Alert.context := match AlertSpec.context spec with
                                | [] => None
                                | _ => Some (AlertSpec.context spec)
                                end;
               Alert.source_ip := Some (LogEntry.source_ip stored);
               Alert.username := LogEntry.username stored;
               Alert.log_entry_id := Some (LogEntry.id stored);
               Alert.triggered_at := utcnow oracle step;
               Alert.acknowledged := false;
               Alert.acknowledged_by := None;
               Alert.acknowledged_at := None;
               Alert.resolved := false;
               Alert.resolved_by := None;
               Alert.resolved_at := None;
               Alert.notes := None |} :: new).
    split; [|split].
    + rewrite Hal. cbn [alerts]. now rewrite <- app_assoc.
    + simpl. now rewrite Hlen.
    + constructor; [|assumption]. unfold issued_for. cbn. repeat split.
Qed.

(** One stored event and the alerts raised on it. *)
Lemma store_and_detect_grows (log_entry : LogEntry.t) (db : Session) (step : nat) :
  let '(db', _, stored, n) :=
    IngestionService.store_and_detect settings world libm oracle log_entry db step in
  exists new,
    ingested_into db db' [stored] new
    /\ n = Z.of_nat (List.length new) /\ (List.length new <= 5)%nat
    /\ LogEntry.status stored = LogEntry.status log_entry
    /\ LogEntry.event_type stored = LogEntry.event_type log_entry
    /\ LogEntry.source_file stored = LogEntry.source_file log_entry
    /\ stored_as log_entry stored.
Proof.
  unfold IngestionService.store_and_detect.
  cbn [IngestionService.add_log_entry].
  match goal with
  | |- context [IngestionService.create_alerts oracle ?d ?e ?s ?k] =>
      pose proof (create_alerts_log_entries oracle d e s k) as Hent;
      destruct (create_alerts_grows d e s k) as (new & Hal & Hlen & Hall);
      pose proof (analyze_length e s settings world libm) as Hfive;
      destruct (IngestionService.create_alerts oracle d e s k) as [db2 step']
  end.
  cbn [fst] in Hent, Hal. exists new.
  split; [|split; [|split; [|unfold stored_as; cbn; conjs; reflexivity]]].
  - unfold ingested_into. rewrite Hent, Hal. cbn [log_entries alerts List.length seq map].
    split; [reflexivity|]. split; [reflexivity|]. split.
    + eapply Forall_impl; [|exact Hall]. intros a Ha. eexists. split; [now left | exact Ha].
    + cbn. do 2 f_equal. lia.
  - now rewrite Hlen.
  - rewrite Hlen. apply Hfive.
Qed.
End IngestionGrowth.

Lemma parse_line_source_file pw world line source_file now entry :
  LogParser.parse_line pw world line source_file now = Ok (Some entry) ->
  LogEntry.source_file entry = source_file.
Proof.
  unfold LogParser.parse_line.
  destruct (String.eqb (strip line) ""); [discriminate|].
  destruct (LogParser._extract_fields pw (strip line) now) as [[|kv data]|];
    try discriminate.
  intros H. apply bind_Ok_inv in H. destruct H as (timestamp & _ & H).
  apply bind_Ok_inv in H. destruct H as (location_data & _ & H).
  apply Ok_inj in H. now injection H as <-.
Qed.

Lemma parse_lines_source_file pw world lines source_file clock line_num :
  Forall (fun e => LogEntry.source_file e = source_file)
    (LogParser.parse_lines pw world lines source_file clock line_num).
Proof.
  revert line_num. induction lines as [|line lines IH]; intros line_num; simpl.
  - constructor.
  - destruct (LogParser.parse_line pw world line source_file (clock line_num))
      as [[entry|]|err] eqn:Hparse; auto.
    constructor; [|apply IH]. eapply parse_line_source_file, Hparse.
Qed.

Lemma parse_lines_length pw world lines source_file clock line_num :
  (List.length (LogParser.parse_lines pw world lines source_file clock line_num)
   <= List.length lines)%nat.
Proof.
  revert line_num. induction lines as [|line lines IH]; intros line_num; simpl.
  - lia.
  - specialize (IH (S line_num)).
    destruct (LogParser.parse_line pw world line source_file (clock line_num))
      as [[entry|]|err]; simpl; lia.
Qed.

Section IngestionAccounting.
Variable settings : Settings.
Variable pw : ParserWorld.
Variable world : GeoWorld.
Variable libm : Libm.
Variable oracle : Oracle.

(** What is known of the events and alerts that a request appended. *)
Let appended (db db' : Session) (source_file : option string)
  (new_entries : list LogEntry.t) (new_alerts : list Alert.t) : Prop :=
  ingested_into db db' new_entries new_alerts
  /\ (List.length new_alerts <= 5 * List.length new_entries)%nat
  /\ Forall lowercase_tokens new_entries
  /\ Forall (fun e => LogEntry.source_file e = source_file) new_entries.

Lemma ingest_lines_grows (log_lines : list string) (source_file : option string) :
  forall db step result db' result',
    IngestionService.ingest_lines settings pw world libm oracle log_lines source_file
      db step result = Ok (db', result') ->
    exists new_entries new_alerts,
      appended db db' source_file new_entries new_alerts
      /\ ingested result' = ingested result + Z.of_nat (List.length new_entries)
      /\ alerts_generated result'
         = alerts_generated result + Z.of_nat (List.length new_alerts)
      /\ (List.length new_entries <= List.length log_lines)%nat.
Proof.
  induction log_lines as [|line log_lines IH]; intros db step result db' result' H.
  - cbn in H. injection H as <- <-. exists [], [].
    split; [|cbn; repeat split; lia].
    split; [apply ingested_into_refl|]. cbn. repeat split; try constructor; try lia.
  - cbn [IngestionService.ingest_lines] in H.
    destruct (String.eqb (strip line) "").
    { destruct (IH _ _ _ _ _ H) as (es & als & Happ & Hi & Ha & Hlen).
      exists es, als.
      split; [assumption|]. split; [assumption|]. split; [assumption|]. simpl. lia. }
    destruct (LogParser.parse_line pw world line source_file (utcnow oracle step))
      as [[entry|]|err] eqn:Hparse; cbn [bind] in H; [| |discriminate].
    + pose proof (store_and_detect_grows settings world libm oracle entry db (S step))
        as Hgrow.
      destruct (IngestionService.store_and_detect _ _ _ _ _ _ _)
        as [[[db1 step1] stored] n].
      destruct Hgrow as (new & Hinto & Hn & Hfive & Hst & Hty & Hsf & _).
      destruct (IH _ _ _ _ _ H) as (es & als & (Hinto' & Hbound & Hlow & Hfile) & Hi & Ha & Hlen).
      exists (stored :: es), (new ++ als)%list.
      split; [split; [|split; [|split]]|split; [|split]].
      * apply (ingested_into_trans db db1 db' [stored] es new als); assumption.
      * rewrite length_app. simpl. lia.
      * constructor; [|assumption].
        destruct (parse_line_lowercase _ _ _ _ _ _ Hparse) as [H1 H2].
        split; congruence.
      * constructor; [|assumption].
        rewrite Hsf. eapply parse_line_source_file, Hparse.
      * rewrite Hi. cbn [ingested List.length]. lia.
      * rewrite Ha. cbn [alerts_generated]. rewrite length_app. lia.
      * simpl. lia.
    + destruct (IH _ _ _ _ _ H) as (es & als & Happ & Hi & Ha & Hlen).
      exists es, als.
      split; [assumption|]. split; [assumption|]. split; [assumption|]. simpl. lia.
Qed.

Lemma ingest_entries_grows (parsed : list LogEntry.t) (source_file : option string) :
  forall db step n,
    Forall lowercase_tokens parsed ->
    Forall (fun e => LogEntry.source_file e = source_file) parsed ->
    exists new_entries new_alerts,
      appended db
        (fst (IngestionService.ingest_entries settings world libm oracle parsed db step n))
        source_file new_entries new_alerts
      /\ Forall2 stored_as parsed new_entries
      /\ snd (IngestionService.ingest_entries settings world libm oracle parsed db step n)
         = n + Z.of_nat (List.length new_alerts).
Proof.
  induction parsed as [|entry parsed IH]; intros db step n Hlow Hfile.
  - exists [], []. cbn. split; [|split; [constructor | lia]].
    split; [apply ingested_into_refl|]. cbn. repeat split; try constructor; try lia.
  - cbn [IngestionService.ingest_entries].
    inversion Hlow as [|? ? Hl Hlow']; inversion Hfile as [|? ? Hf Hfile']; subst.
    pose proof (store_and_detect_grows settings world libm oracle entry db step) as Hgrow.
    destruct (IngestionService.store_and_detect _ _ _ _ _ _ _)
      as [[[db1 step1] stored] m].
    destruct Hgrow as (new & Hinto & Hm & Hfive & Hst & Hty & Hsf & Has).
    destruct (IH db1 step1 (n + m) Hlow' Hfile')
      as (es & als & (Hinto' & Hbound & Hlow'' & Hfile'') & Hlen & Hsnd).
    exists (stored :: es), (new ++ als)%list.
    split; [split; [|split; [|split]]|split].
    + apply (ingested_into_trans db db1 _ [stored] es new als); assumption.
    + rewrite length_app. simpl. lia.
    + constructor; [|assumption]. destruct Hl as [H1 H2]. split; congruence.
    + constructor; [congruence | assumption].
    + now constructor.
    + rewrite Hsnd, length_app. lia.
Qed.

(** X16. A completed [ingest_logs_from_text] appends events and alerts
    and changes nothing else: the stored rows are kept in place, the new
    events are numbered after them, [ingested] is the number of new events
    (at most the number of lines) and [alerts_generated] the number of new
    alerts (at most five per event).  Every new event has lowercase tokens
    and the given [source_file]; every new alert is open and points to a new
    event, whose address and username it carries. *)
Theorem ingest_logs_from_text_appends (log_lines : list string)
  (source_file : option string) (db db' : Session) (result : IngestResult) :
  IngestionService.ingest_logs_from_text settings pw world libm oracle
    log_lines source_file db = Ok (db', result) ->
  exists new_entries new_alerts,
    ingested_into db db' new_entries new_alerts
    /\ ingested result = Z.of_nat (List.length new_entries)
    /\ alerts_generated result = Z.of_nat (List.length new_alerts)
    /\ (List.length new_entries <= List.length log_lines)%nat
    /\ (List.length new_alerts <= 5 * List.length new_entries)%nat
    /\ Forall lowercase_tokens new_entries
    /\ Forall (fun e => LogEntry.source_file e = source_file) new_entries.
Proof.
  unfold IngestionService.ingest_logs_from_text. intros H.
  destruct (ingest_lines_grows _ _ _ _ _ _ _ H)
    as (es & als & (Hinto & Hbound & Hlow & Hfile) & Hi & Ha & Hlen).
  exists es, als. cbn in Hi, Ha. conjs; assumption.
Qed.

(** X17. [ingest_logs_from_file] never fails on a line: it appends the
    entries that [parse_file] returns, each with every field as it was
    parsed and in the order of the file (a line that raises or parses to
    nothing is skipped), and the alerts raised on them, numbers the events
    after the stored ones, and reports their counts.  The new events have
    lowercase tokens and the name of the file as [source_file]. *)
Theorem ingest_logs_from_file_appends (lines : list string) (source_file : string)
  (db : Session) :
  let done :=
    IngestionService.ingest_logs_from_file settings pw world libm oracle
      lines source_file db in
  exists new_entries new_alerts,
    ingested_into db (fst done) new_entries new_alerts
    /\ List.length new_entries
       = List.length (LogParser.parse_file pw world lines (Some source_file)
                        (utcnow oracle))
    /\ ingested (snd done) = Z.of_nat (List.length new_entries)
    /\ alerts_generated (snd done) = Z.of_nat (List.length new_alerts)
    /\ (List.length new_entries <= List.length lines)%nat
    /\ (List.length new_alerts <= 5 * List.length new_entries)%nat
    /\ Forall lowercase_tokens new_entries
    /\ Forall (fun e => LogEntry.source_file e = Some source_file) new_entries
    /\ Forall2 stored_as
         (LogParser.parse_file pw world lines (Some source_file) (utcnow oracle))
         new_entries.
Proof.
  intros done. subst done. unfold IngestionService.ingest_logs_from_file.
  set (parsed := LogParser.parse_file pw world lines (Some source_file) (utcnow oracle)).
  assert (Hlow : Forall lowercase_tokens parsed) by apply parse_lines_lowercase.
  assert (Hfile : Forall (fun e => LogEntry.source_file e = Some source_file) parsed)
    by apply parse_lines_source_file.
  assert (Hlen : (List.length parsed <= List.length lines)%nat)
    by apply parse_lines_length.
  destruct (ingest_entries_grows parsed (Some source_file) db
              (S (List.length lines)) 0 Hlow Hfile)
    as (es & als & (Hinto & Hbound & Hlow' & Hfile') & Hes & Hsnd).
  pose proof (Forall2_length Hes) as Hcount.
  destruct (IngestionService.ingest_entries _ _ _ _ _ _ _ _) as [db1 n].
  cbn [fst snd] in *. exists es, als. cbn [ingested alerts_generated].
  conjs; try assumption; lia.
Qed.

(** X18. A completed [ingest_single_log] appends exactly one event, with
    the address, username, event type, status and raw line of the request as
    they were sent, and the alerts raised on it (five at most); the returned
    [log_entry_id] is the number of that event.  The call completes
    whenever [parse_timestamp] returns on the timestamp of the request and
    the resolver does not raise on the address; an exception that leaves
    [parse_timestamp] (the [OverflowError] of a timestamp such as 1e20)
    leaves the call, which has no handler. *)
Theorem ingest_single_log_appends (log_data : LogData) (db : Session) :
  (forall db' result id,
     IngestionService.ingest_single_log settings pw world libm oracle log_data db
     = Ok (db', result, id) ->
     exists stored new_alerts,
       ingested_into db db' [stored] new_alerts
       /\ ingested result = 1
       /\ alerts_generated result = Z.of_nat (List.length new_alerts)
       /\ (List.length new_alerts <= 5)%nat
       /\ id = LogEntry.id stored
       /\ id = Z.of_nat (List.length (log_entries db)) + 1
       /\ LogEntry.source_ip stored = ld_source_ip log_data
       /\ LogEntry.username stored = ld_username log_data
       /\ LogEntry.event_type stored = ld_event_type log_data
       /\ LogEntry.status stored = ld_status log_data
       /\ LogEntry.raw_log stored = ld_raw_log log_data)
  /\ ((forall s, ld_timestamp log_data = Some s ->
                 exists parsed, parse_timestamp pw s = Ok parsed) ->
      reader_raises_only_handled world (ld_source_ip log_data) ->
      exists done,
        IngestionService.ingest_single_log settings pw world libm oracle log_data db
        = Ok done)
  /\ (forall s err,
        ld_timestamp log_data = Some s ->
        parse_timestamp pw s = Raise err ->
        IngestionService.ingest_single_log settings pw world libm oracle log_data db
        = Raise err).
Proof.
  split; [|split].
  - intros db' result id. unfold IngestionService.ingest_single_log. intros E.
    apply bind_Ok_inv in E. destruct E as (timestamp & _ & E).
    apply bind_Ok_inv in E. destruct E as (location_data & _ & E).
    revert E.
    match goal with
    | |- context [IngestionService.store_and_detect settings world libm oracle ?e db 1] =>
        pose proof (store_and_detect_grows settings world libm oracle e db 1) as Hgrow;
        unfold IngestionService.store_and_detect in *;
        cbn [IngestionService.add_log_entry] in *;
        destruct (IngestionService.create_alerts oracle _ _ _ 1) as [db2 step']
    end.
    destruct Hgrow as (new & Hinto & Hn & Hfive & _).
    intros E. injection E as <- <- <-.
    eexists. exists new. cbn [ingested alerts_generated].
    conjs; try eassumption; try reflexivity; try lia.
  - intros Htime Hreader. unfold IngestionService.ingest_single_log.
    assert (Hts : exists timestamp,
               match ld_timestamp log_data with
               | Some s =>
                   parsed <- parse_timestamp pw s ;;
                   Ok (match parsed with Some t => t | None => utcnow oracle 0 end)
               | None => Ok (utcnow oracle 0)
               end = Ok timestamp).
    { destruct (ld_timestamp log_data) as [s|]; [|eexists; reflexivity].
      destruct (Htime s eq_refl) as [parsed ->]. eexists. reflexivity. }
    destruct Hts as [timestamp Hts]. cbv zeta. rewrite Hts. cbn [bind].
    destruct (String.eqb (ld_source_ip log_data) "").
    + cbn [bind]. destruct (IngestionService.store_and_detect _ _ _ _ _ _ _)
        as [[[db1 k] stored] n]. eexists. reflexivity.
    + assert (Hsafe : exists r, get_location world (ld_source_ip log_data) = Ok r).
      { unfold get_location, get_location_traced.
        destruct (_is_private_ip _); [now exists None|].
        unfold maxmind_lookup, reader_raises_only_handled in *.
        destruct (geoip_reader world) as [city|].
        - destruct (city (ld_source_ip log_data)) as [response|e] eqn:Hcity.
          + eexists. reflexivity.
          + destruct (Hreader e eq_refl) as [-> | ->];
              destruct (api_lookup world _) as [tr r]; now exists r.
        - destruct (api_lookup world _) as [tr r]. now exists r. }
      destruct Hsafe as [r ->]. cbn [bind].
      destruct (IngestionService.store_and_detect _ _ _ _ _ _ _)
        as [[[db1 k] stored] n]. eexists. reflexivity.
  - intros s err Hs Hraise. unfold IngestionService.ingest_single_log.
    rewrite Hs, Hraise. reflexivity.
Qed.
End IngestionAccounting.

Lemma ingest_logs_from_text_appends_example :
  let pw := {| pattern_search := fun _ _ => None;
               ip_search := fun _ => Some "203.0.113.7";
               dt_fromisoformat := fun _ => None;
               py_float := fun _ => None;
               dt_fromtimestamp := fun _ => Raise ValueError;
               dt_strptime := fun _ _ => None;
               isoformat := fun _ => "" |} in
  exists db' result new_entries,
    IngestionService.ingest_logs_from_text default_settings pw Sample.world Sample.libm
      Sample.oracle ["   "; "scan from 203.0.113.7"] None Sample.empty_session
    = Ok (db', result)
    /\ log_entries db' = new_entries
    /\ ingested result = Z.of_nat (List.length new_entries)
    /\ Forall lowercase_tokens new_entries.
Proof.
  intros pw.
  destruct (IngestionService.ingest_logs_from_text default_settings pw Sample.world
              Sample.libm Sample.oracle ["   "; "scan from 203.0.113.7"] None
              Sample.empty_session) as [[db' result]|err] eqn:E.
  - exists db', result.
    destruct (ingest_logs_from_text_appends default_settings pw Sample.world Sample.libm
                Sample.oracle _ _ _ _ _ E)
      as (es & als & (He & _) & Hi & _ & _ & _ & Hlow & _).
    exists es. split; [reflexivity|]. split; [exact He|]. split; assumption.
  - vm_compute in E. discriminate E.
Defined.

Lemma ingest_single_log_appends_example :
  exists done,
    IngestionService.ingest_single_log default_settings Sample.parser_world
      Sample.world Sample.libm Sample.oracle Sample.upper_case_request
      Sample.empty_session = Ok done.
Proof.
  apply (proj1 (proj2 (ingest_single_log_appends default_settings
                         Sample.parser_world Sample.world Sample.libm Sample.oracle
                         Sample.upper_case_request Sample.empty_session))).
  - intros s Hs. discriminate Hs.
  - exact I.
Defined.

Section TextAborts.
Variable settings : Settings.
Variable pw : ParserWorld.
Variable world : GeoWorld.
Variable libm : Libm.
Variable oracle : Oracle.

Lemma ingest_lines_aborts (before : list string) (line : string)
  (after : list string) (source_file : option string) :
  strip line <> "" ->
  (forall now, exists e,
      LogParser.parse_line pw world line source_file now = Raise e) ->
  forall db step result,
  exists e,
    IngestionService.ingest_lines settings pw world libm oracle
      (before ++ line :: after) source_file db step result = Raise e.
Proof.
  intros Hline Hraise.
  induction before as [|l before IH]; intros db step result.
  - change ([] ++ line :: after)%list with (line :: after).
    cbn [IngestionService.ingest_lines].
    destruct (String.eqb_spec (strip line) ""); [contradiction|].
    destruct (Hraise (utcnow oracle step)) as [e ->]. now exists e.
  - change ((l :: before) ++ line :: after)%list
      with (l :: (before ++ line :: after))%list.
    cbn [IngestionService.ingest_lines].
    destruct (String.eqb (strip l) ""); [apply IH|].
    destruct (LogParser.parse_line pw world l source_file (utcnow oracle step))
      as [[entry|]|err]; cbn [bind].
    + destruct (IngestionService.store_and_detect _ _ _ _ _ _ _)
        as [[[db1 step1] stored] n]. apply IH.
    + apply IH.
    + now exists err.
Qed.

(** X19. [ingest_logs_from_text] has no handler around a line: when the
    parsing of one non-blank line raises (the resolver raised on its
    address), the whole call raises and returns no counts, wherever the line
    stands in the batch. *)
Theorem ingest_logs_from_text_aborts (before : list string) (line : string)
  (after : list string) (source_file : option string) (db : Session) :
  strip line <> "" ->
  (forall now, exists e,
      LogParser.parse_line pw world line source_file now = Raise e) ->
  exists e,
    IngestionService.ingest_logs_from_text settings pw world libm oracle
      (before ++ line :: after) source_file db = Raise e.
Proof.
  intros Hline Hraise. unfold IngestionService.ingest_logs_from_text.
  now apply ingest_lines_aborts.
Qed.
End TextAborts.

Lemma ingest_logs_from_text_aborts_example :
  let pw := {| pattern_search := fun _ _ => None;
               ip_search := fun line => if contains "8.8.8.8" line
                                        then Some "8.8.8.8" else None;
               dt_fromisoformat := fun _ => None;
               py_float := fun _ => None;
               dt_fromtimestamp := fun _ => Raise ValueError;
               dt_strptime := fun _ _ => None;
               isoformat := fun _ => "" |} in
  exists e,
    IngestionService.ingest_logs_from_text default_settings pw
      Sample.world_with_country_db Sample.libm Sample.oracle
      ["first line"; "query from 8.8.8.8"; "last line"] None Sample.empty_session
    = Raise e.
Proof.
  intros pw.
  apply (ingest_logs_from_text_aborts default_settings pw Sample.world_with_country_db
           Sample.libm Sample.oracle ["first line"] "query from 8.8.8.8"
           ["last line"] None Sample.empty_session).
  - discriminate.
  - intros now. exists TypeError. reflexivity.
Defined.

(* ================================================================== *)
(** ** The database behind the API *)

Lemma issued_for_inv (e : LogEntry.t) (a : Alert.t) : issued_for e a -> alert_inv a.
Proof.
  intros (_ & _ & _ & Hack & Hres & Hat). unfold alert_inv, lifecycle_ok.
  split; [split; [|split]|]; intros; congruence.
Qed.

Lemma In_update_first (alert_id : string) (f : Alert.t -> Alert.t)
  (rows : list Alert.t) (x : Alert.t) :
  In x (AlertManager.update_first alert_id f rows) ->
  In x rows \/ exists a, In a rows /\ x = f a.
Proof.
  induction rows as [|b rows IH]; simpl; [intros []|].
  destruct (String.eqb (Alert.alert_id b) alert_id).
  - intros [<-|H]; [right; exists b; auto | left; auto].
  - intros [<-|H]; [left; auto|].
    destruct (IH H) as [H'|(a & Ha & ->)]; [left; auto | right; exists a; auto].
Qed.

Lemma NoDup_map_of_nat (l : list nat) : NoDup l -> NoDup (map Z.of_nat l).
Proof.
  induction 1 as [|x l Hx Hl IH]; simpl; constructor; [|assumption].
  rewrite in_map_iff. intros (y & Hy & Hin).
  apply Nat2Z.inj in Hy. now subst.
Qed.

Lemma first_filter_unique {A : Type} (key : A -> Z) (rows : list A) (e : A) :
  NoDup (map key rows) -> In e rows ->
  first (filter (fun x => key x =? key e) rows) = Some e.
Proof.
  unfold first. induction rows as [|a rows IH]; simpl; [intros _ []|].
  intros Hnd Hin. inversion Hnd as [|? ? Hnot Hnd']; subst.
  destruct Hin as [<-|Hin].
  - now rewrite Z.eqb_refl.
  - destruct (Z.eqb_spec (key a) (key e)) as [E|E]; [|now apply IH].
    exfalso. apply Hnot. rewrite E. now apply in_map.
Qed.

Lemma ids_sequential_grows (db db' : Session) (es : list LogEntry.t)
  (als : list Alert.t) :
  ingested_into db db' es als -> ids_sequential db -> ids_sequential db'.
Proof.
  intros (He & _ & _ & Hid) Hseq. unfold ids_sequential in *.
  rewrite He, map_app, Hseq, Hid, length_app, seq_app, map_app. f_equal.
  apply (map_seq_offset Z.of_nat).
Qed.

Lemma ids_sequential_range (db : Session) (log_id : Z) :
  ids_sequential db ->
  (In log_id (map LogEntry.id (log_entries db))
   <-> 1 <= log_id <= Z.of_nat (List.length (log_entries db))).
Proof.
  intros ->. rewrite in_map_iff. split.
  - intros (k & <- & Hk). apply in_seq in Hk. lia.
  - intros H. exists (Z.to_nat log_id). split; [lia|]. apply in_seq. lia.
Qed.

Lemma ids_sequential_lookup (db : Session) (e : LogEntry.t) :
  ids_sequential db -> In e (log_entries db) ->
  first (filter (fun x => LogEntry.id x =? LogEntry.id e) (log_entries db)) = Some e.
Proof.
  intros Hseq Hin. apply first_filter_unique; [|assumption].
  rewrite Hseq. apply NoDup_map_of_nat, seq_NoDup.
Qed.

Lemma ingested_into_keeps (db db' : Session) (es : list LogEntry.t)
  (als : list Alert.t) :
  ingested_into db db' es als ->
  Forall alert_inv (alerts db) /\ ids_sequential db /\ alerts_reference_events db ->
  Forall alert_inv (alerts db') /\ ids_sequential db' /\ alerts_reference_events db'.
Proof.
  intros Hinto (Hinv & Hseq & Href).
  split; [|split].
  - destruct Hinto as (_ & -> & Hnew & _). apply Forall_app. split; [assumption|].
    eapply Forall_impl; [|exact Hnew]. intros a (e & _ & H).
    eapply issued_for_inv, H.
  - eapply ids_sequential_grows; eassumption.
  - destruct Hinto as (He & Ha & Hnew & _). unfold alerts_reference_events.
    rewrite He, Ha. intros a Hin. apply in_app_or in Hin. destruct Hin as [Hin|Hin].
    + destruct (Href a Hin) as (e & He' & H). exists e.
      split; [apply in_or_app; now left | assumption].
    + rewrite Forall_forall in Hnew.
      destruct (Hnew a Hin) as (e & He' & Hid & Hip & _). exists e.
      split; [apply in_or_app; now right | split; assumption].
Qed.

Lemma update_first_keeps (alert_id : string) (f : Alert.t -> Alert.t) (db : Session) :
  (forall a, alert_inv a -> alert_inv (f a)) ->
  (forall a, Alert.log_entry_id (f a) = Alert.log_entry_id a) ->
  (forall a, Alert.source_ip (f a) = Alert.source_ip a) ->
  Forall alert_inv (alerts db) /\ ids_sequential db /\ alerts_reference_events db ->
  let db' := {| log_entries := log_entries db;
                alerts := AlertManager.update_first alert_id f (alerts db) |} in
  Forall alert_inv (alerts db') /\ ids_sequential db' /\ alerts_reference_events db'.
Proof.
  intros Hf Hid Hip (Hinv & Hseq & Href) db'. subst db'.
  split; [|split].
  - cbn [alerts]. now apply Forall_update_first.
  - exact Hseq.
  - unfold alerts_reference_events. cbn [alerts log_entries]. intros x Hx.
    apply In_update_first in Hx. destruct Hx as [Hx|(a & Ha & ->)].
    + now apply Href.
    + rewrite Hid, Hip. now apply Href.
Qed.

Lemma ingest_single_log_into settings pw world libm oracle log_data db db' result id :
  IngestionService.ingest_single_log settings pw world libm oracle log_data db
  = Ok (db', result, id) ->
  exists stored new_alerts,
    ingested_into db db' [stored] new_alerts
    /\ id = LogEntry.id stored
    /\ LogEntry.source_ip stored = ld_source_ip log_data
    /\ LogEntry.username stored = ld_username log_data
    /\ LogEntry.event_type stored = ld_event_type log_data
    /\ LogEntry.status stored = ld_status log_data
    /\ LogEntry.raw_log stored = ld_raw_log log_data.
Proof.
  unfold IngestionService.ingest_single_log. intros E.
  apply bind_Ok_inv in E. destruct E as (timestamp & _ & E).
  apply bind_Ok_inv in E. destruct E as (location_data & _ & E).
  revert E.
  match goal with
  | |- context [IngestionService.store_and_detect settings world libm oracle ?e db 1] =>
      pose proof (store_and_detect_grows settings world libm oracle e db 1) as Hgrow;
      destruct (IngestionService.store_and_detect settings world libm oracle e db 1)
        as [[[db2 step'] stored] n]
  end.
  destruct Hgrow as (new & Hinto & _ & _ & _ & _ & _ & Has).
  destruct Has as (_ & Hip & Huser & Hty & Hst & Hraw & _).
  intros E. injection E as <- _ <-. exists stored, new.
  conjs; try assumption; reflexivity.
Qed.

Lemma ingest_logs_from_file_into settings pw world libm oracle lines source_file db :
  exists new_entries new_alerts,
    ingested_into db
      (fst (IngestionService.ingest_logs_from_file settings pw world libm oracle
              lines source_file db))
      new_entries new_alerts.
Proof.
  unfold IngestionService.ingest_logs_from_file.
  set (parsed := LogParser.parse_file pw world lines (Some source_file) (utcnow oracle)).
  destruct (ingest_entries_grows settings world libm oracle parsed (Some source_file) db
              (S (List.length lines)) 0
              (parse_lines_lowercase _ _ _ _ _ _)
              (parse_lines_source_file _ _ _ _ _ _))
    as (es & als & (Hinto & _) & _).
  destruct (IngestionService.ingest_entries _ _ _ _ _ _ _ _) as [db1 n].
  now exists es, als.
Qed.

Lemma reachable_api_inv (db : Session) :
  reachable_api db ->
  Forall alert_inv (alerts db) /\ ids_sequential db /\ alerts_reference_events db.
Proof.
  induction 1 as [ | settings pw world libm oracle log_data db db' result id _ IH E
                   | settings pw world libm oracle log_lines source_file db db' result
                       _ IH E
                   | settings pw world libm oracle lines source_file db _ IH
                   | alert_id analyst db now _ IH
                   | alert_id analyst db now now' _ IH
                   | alert_id notes db _ IH ].
  - split; [constructor|]. split; [reflexivity|]. intros a [].
  - destruct (ingest_single_log_into _ _ _ _ _ _ _ _ _ _ E)
      as (stored & new & Hinto & _).
    eapply ingested_into_keeps; eassumption.
  - unfold IngestionService.ingest_logs_from_text in E.
    destruct (ingest_lines_grows _ _ _ _ _ _ _ _ _ _ _ _ E)
      as (es & als & (Hinto & _) & _).
    eapply ingested_into_keeps; eassumption.
  - destruct (ingest_logs_from_file_into settings pw world libm oracle lines
                source_file db) as (es & als & Hinto).
    eapply ingested_into_keeps; eassumption.
  - unfold Routes.acknowledge_alert.
    destruct (AlertManager.find_alert alert_id db); [|exact IH].
    cbn [fst]. apply update_first_keeps; auto using acknowledge_inv.
  - unfold Routes.resolve_alert.
    destruct (AlertManager.find_alert alert_id db); [|exact IH].
    cbn [fst]. apply update_first_keeps; auto using resolve_inv.
  - unfold Routes.update_alert_notes.
    destruct (AlertManager.find_alert alert_id db); [|exact IH].
    cbn [fst]. apply update_first_keeps; auto.
Qed.

(** X20. In every database that requests of the API can leave (the three
    ingestion paths and the acknowledge, resolve and notes routes, from the
    empty database), each alert keeps the lifecycle: a resolved alert is
    acknowledged and has [resolved_at], and an acknowledged alert has
    [acknowledged_at]. *)
Theorem api_alert_lifecycle (db : Session) :
  reachable_api db -> Forall lifecycle_ok (alerts db).
Proof.
  intros H. destruct (reachable_api_inv db H) as (Hinv & _).
  eapply Forall_impl; [|exact Hinv]. now intros a [Ha _].
Qed.

(** X21. In every database that requests of the API can leave, an alert
    is never dangling: [get_alert_detail] on the identifier of a stored
    alert answers with that alert and a related log entry, which is the
    stored event whose number the alert holds, and the alert carries the
    source address of that event. *)
Theorem api_alert_detail (db : Session) (alert_id : string) (a : Alert.t) :
  reachable_api db ->
  AlertManager.find_alert alert_id db = Some a ->
  exists e,
    Routes.get_alert_detail alert_id db
    = Success {| detail_alert := a; detail_log_entry := Some e |}
    /\ In e (log_entries db)
    /\ Alert.log_entry_id a = Some (LogEntry.id e)
    /\ Alert.source_ip a = Some (LogEntry.source_ip e).
Proof.
  intros Hreach Hfind.
  destruct (reachable_api_inv db Hreach) as (_ & Hseq & Href).
  assert (Hin : In a (alerts db)).
  { unfold AlertManager.find_alert in Hfind. now apply first_filter_some in Hfind. }
  destruct (Href a Hin) as (e & He & Hid & Hip).
  exists e. split; [|split; [|split]]; try assumption.
  unfold Routes.get_alert_detail. rewrite Hfind, Hid.
  assert (Hrange : 1 <= LogEntry.id e <= Z.of_nat (List.length (log_entries db))).
  { apply ids_sequential_range; [assumption|]. now apply in_map. }
  destruct (Z.eqb_spec (LogEntry.id e) 0) as [E|_]; [lia|].
  now rewrite ids_sequential_lookup.
Qed.

(** X22. In every database that requests of the API can leave, no two
    events carry the same number: [get_log_detail] returns each stored event
    on its own number and answers 404 exactly on the numbers that no stored
    event carries.  The [log_entry_id] that [ingest_single_log] returns is
    answered with the event just stored, which carries the fields of the
    request, and the earlier events are still answered on their numbers. *)
Theorem api_log_detail (db : Session) :
  reachable_api db ->
  (forall e, In e (log_entries db) ->
             Routes.get_log_detail (LogEntry.id e) db = Success e)
  /\ (forall log_id,
        Routes.get_log_detail log_id db = HTTPException 404
        <-> forall e, In e (log_entries db) -> LogEntry.id e <> log_id)
  /\ (forall settings pw world libm oracle log_data db' result id,
        IngestionService.ingest_single_log settings pw world libm oracle log_data db
        = Ok (db', result, id) ->
        exists stored,
          Routes.get_log_detail id db' = Success stored
          /\ LogEntry.source_ip stored = ld_source_ip log_data
          /\ LogEntry.username stored = ld_username log_data
          /\ LogEntry.event_type stored = ld_event_type log_data
          /\ LogEntry.status stored = ld_status log_data
          /\ LogEntry.raw_log stored = ld_raw_log log_data
          /\ forall e, In e (log_entries db) ->
                       Routes.get_log_detail (LogEntry.id e) db' = Success e).
Proof.
  intros Hreach. destruct (reachable_api_inv db Hreach) as (_ & Hseq & _).
  split; [|split].
  - intros e He. unfold Routes.get_log_detail.
    now rewrite ids_sequential_lookup.
  - intros log_id. unfold Routes.get_log_detail. split.
    + intros H e He E.
      rewrite <- E, ids_sequential_lookup in H by assumption. discriminate H.
    + intros Hnone.
      assert (Hfirst : first (filter (fun e => LogEntry.id e =? log_id)
                                     (log_entries db)) = None).
      { apply first_filter_none. intros e He. apply Z.eqb_neq. now apply Hnone. }
      now rewrite Hfirst.
  - intros settings pw world libm oracle log_data db' result id E.
    assert (Hreach' : reachable_api db') by (eapply api_ingest_single; eassumption).
    destruct (reachable_api_inv db' Hreach') as (_ & Hseq' & _).
    destruct (ingest_single_log_into _ _ _ _ _ _ _ _ _ _ E)
      as (stored & new & (Hentries & _) & -> & Hip & Huser & Hty & Hst & Hraw).
    exists stored. unfold Routes.get_log_detail.
    split; [|conjs; try assumption].
    + rewrite ids_sequential_lookup; [reflexivity | assumption |].
      rewrite Hentries. apply in_or_app. right. now left.
    + intros e He. rewrite ids_sequential_lookup; [reflexivity | assumption |].
      rewrite Hentries. apply in_or_app. now left.
Qed.

Lemma blacklisted_session_reachable : reachable_api Sample.blacklisted_session.
Proof.
  apply (api_ingest_single default_settings Sample.parser_world Sample.world
           Sample.libm Sample.oracle Sample.blacklisted_request Sample.empty_session
           Sample.blacklisted_session {| ingested := 1; alerts_generated := 1 |} 1
           api_init).
  vm_compute. reflexivity.
Defined.

Lemma api_alert_lifecycle_example :
  Forall lifecycle_ok
    (alerts (fst (Routes.resolve_alert Sample.blacklisted_alert_id (Some "alice")
                    Sample.blacklisted_session Sample.t_12_30 Sample.t_12_30))).
Proof.
  apply api_alert_lifecycle. apply api_resolve. exact blacklisted_session_reachable.
Defined.

Lemma api_alert_detail_example :
  exists a e,
    Routes.get_alert_detail Sample.blacklisted_alert_id Sample.blacklisted_session
    = Success {| detail_alert := a; detail_log_entry := Some e |}
    /\ Alert.source_ip a = Some (LogEntry.source_ip e).
Proof.
  destruct (AlertManager.find_alert Sample.blacklisted_alert_id
              Sample.blacklisted_session) as [a|] eqn:Hfind.
  - destruct (api_alert_detail Sample.blacklisted_session Sample.blacklisted_alert_id a
                blacklisted_session_reachable Hfind) as (e & Hd & _ & _ & Hip).
    now exists a, e.
  - vm_compute in Hfind. discriminate Hfind.
Defined.

Lemma api_log_detail_example :
  Routes.get_log_detail 2 Sample.blacklisted_session = HTTPException 404
  /\ exists stored,
       Routes.get_log_detail 1 Sample.blacklisted_session = Success stored
       /\ LogEntry.source_ip stored = "10.0.0.100".
Proof.
  destruct (api_log_detail Sample.empty_session api_init) as (_ & _ & Hnew).
  destruct (api_log_detail Sample.blacklisted_session blacklisted_session_reachable)
    as (_ & H404 & _).
  split.
  - apply H404. intros e He. vm_compute in He. destruct He as [<-|[]].
    cbn. discriminate.
  - destruct (Hnew default_settings Sample.parser_world Sample.world Sample.libm
                Sample.oracle Sample.blacklisted_request Sample.blacklisted_session
                {| ingested := 1; alerts_generated := 1 |} 1)
      as (stored & Hget & Hip & _).
    + vm_compute. reflexivity.
    + now exists stored.
Defined.

(* ================================================================== *)
(** ** An alert and the rule that raised it *)

Lemma update_first_app_fresh (alert_id : string) (f : Alert.t -> Alert.t)
  (rows : list Alert.t) (a : Alert.t) :
  (forall b, In b rows -> Alert.alert_id b <> alert_id) ->
  Alert.alert_id a = alert_id ->
  AlertManager.update_first alert_id f (rows ++ [a]) = (rows ++ [f a])%list.
Proof.
  intros Hfresh Ha. induction rows as [|b rows IH]; simpl.
  - rewrite Ha, String.eqb_refl. reflexivity.
  - destruct (String.eqb_spec (Alert.alert_id b) alert_id) as [E|E].
    + exfalso. apply (Hfresh b); [now left | assumption].
    + rewrite IH; [reflexivity|]. intros c Hc. apply Hfresh. now right.
Qed.

Lemma find_alert_app_fresh (alert_id : string) (entries : list LogEntry.t)
  (rows : list Alert.t) (a : Alert.t) :
  (forall b, In b rows -> Alert.alert_id b <> alert_id) ->
  Alert.alert_id a = alert_id ->
  AlertManager.find_alert alert_id
    {| log_entries := entries; alerts := (rows ++ [a])%list |} = Some a.
Proof.
  intros Hfresh Ha. unfold AlertManager.find_alert, first. cbn [alerts].
  induction rows as [|b rows IH]; simpl.
  - rewrite Ha, String.eqb_refl. reflexivity.
  - destruct (String.eqb_spec (Alert.alert_id b) alert_id) as [E|E].
    + exfalso. apply (Hfresh b); [now left | assumption].
    + apply IH. intros c Hc. apply Hfresh. now right.
Qed.

(** X23. The alert that is stored for an event silences the blacklist
    rule and its resolution arms the rule again.  After [create_alert] with
    the rule's name for the event [e], [check] returns nothing on every
    event of the same address whose timestamp is at most one hour after the
    creation of the alert; after [resolve_alert] on that alert (its
    identifier being new in the table) [check] answers as it did on the
    database before the alert. *)
Theorem blacklist_alert_silences (settings : Settings) (e e' : LogEntry.t)
  (db : Session) (severity : string) (description : fstring) (ctx : context)
  (new_id : string) (now : instant) (analyst : option string) (t t' : instant) :
  LogEntry.source_ip e' = LogEntry.source_ip e ->
  LogEntry.timestamp e' - timedelta_hours 1 <= now ->
  let created :=
    fst (AlertManager.create_alert (BlacklistIPDetectionRule.rule_name) severity
           description ctx db (Some e) None None new_id now) in
  BlacklistIPDetectionRule.check settings e' created = Ok None
  /\ ((forall a, In a (alerts db) -> Alert.alert_id a <> new_id) ->
      BlacklistIPDetectionRule.check settings e'
        (fst (AlertManager.resolve_alert new_id created analyst t t'))
      = BlacklistIPDetectionRule.check settings e' db).
Proof.
  intros Hip Hnow created. subst created.
  unfold AlertManager.create_alert. cbn [fst or_str truthy_str].
  set (alert := {| Alert.id := Z.of_nat (List.length (alerts db)) + 1;
                   Alert.alert_id := new_id |}).
  split.
  - unfold BlacklistIPDetectionRule.check.
    destruct (String.eqb (LogEntry.source_ip e') ""); [reflexivity|].
    destruct (existsb _ _); [|reflexivity].
    destruct (recent_alert_by_ip _ _ _ _) as [found|] eqn:R; [reflexivity|].
    exfalso. unfold recent_alert_by_ip in R. rewrite first_filter_none in R.
    specialize (R alert). cbn [alerts] in R.
    rewrite in_app_iff in R. specialize (R (or_intror (or_introl eq_refl))).
    subst alert. cbn [Alert.rule_name Alert.source_ip Alert.triggered_at
                      Alert.resolved negb] in R.
    rewrite String.eqb_refl, Hip in R. cbn [opt_str_eqb] in R.
    rewrite String.eqb_refl in R.
    apply Z.leb_le in Hnow. rewrite Hnow in R. discriminate R.
  - intros Hfresh. unfold AlertManager.resolve_alert.
    rewrite (find_alert_app_fresh new_id (log_entries db) (alerts db) alert Hfresh
               eq_refl).
    cbn [fst alerts log_entries].
    rewrite (update_first_app_fresh new_id _ (alerts db) alert Hfresh eq_refl).
    unfold BlacklistIPDetectionRule.check, recent_alert_by_ip. cbn [alerts].
    rewrite filter_app. cbn [filter AlertManager.resolve Alert.resolved negb].
    rewrite Bool.andb_false_r, app_nil_r. reflexivity.
Qed.

Lemma blacklist_alert_silences_example :
  let e := Sample.login 1 Sample.t_12_00 "10.0.0.100" "mallory" "failed" None None in
  BlacklistIPDetectionRule.check default_settings e
    (fst (AlertManager.create_alert BlacklistIPDetectionRule.rule_name "Critical" []
            [] Sample.empty_session (Some e) None None Sample.blacklisted_alert_id
            Sample.t_12_00))
  = Ok None.
Proof.
  intros e.
  apply (blacklist_alert_silences default_settings e e Sample.empty_session
           "Critical" [] [] Sample.blacklisted_alert_id Sample.t_12_00 None
           Sample.t_12_30 Sample.t_12_30).
  - reflexivity.
  - vm_compute. discriminate.
Defined.

(* ================================================================== *)
(** ** Routes: searching, exporting, the dashboard *)

Lemma date_bound_cases (fromisoformat : string -> res instant) (date : option string) :
  (exists bound, date_bound fromisoformat date = Ok bound)
  \/ (exists err, date_bound fromisoformat date = Raise err).
Proof.
  destruct (date_bound fromisoformat date) as [bound|err];
    [left; now exists bound | right; now exists err].
Qed.

Lemma filter_if_str_length {A : Type} (column : A -> option string)
  (value : option string) (rows : list A) :
  (List.length (filter_if_str column value rows) <= List.length rows)%nat.
Proof.
  unfold filter_if_str. destruct (truthy_str value); [apply filter_length_le | lia].
Qed.

Lemma filter_if_bool_length {A : Type} (column : A -> bool)
  (value : option bool) (rows : list A) :
  (List.length (filter_if_bool column value rows) <= List.length rows)%nat.
Proof.
  unfold filter_if_bool. destruct value; [apply filter_length_le | lia].
Qed.

Lemma filter_since_length {A : Type} (column : A -> instant)
  (bound : option instant) (rows : list A) :
  (List.length (filter_since column bound rows) <= List.length rows)%nat.
Proof.
  unfold filter_since. destruct bound; [apply filter_length_le | lia].
Qed.

Lemma filter_until_length {A : Type} (column : A -> instant)
  (bound : option instant) (rows : list A) :
  (List.length (filter_until column bound rows) <= List.length rows)%nat.
Proof.
  unfold filter_until. destruct bound; [apply filter_length_le | lia].
Qed.

Lemma paginate_length_le {A : Type} (offset limit : nat) (rows : list A) :
  (List.length (paginate offset limit rows) <= List.length rows)%nat.
Proof. unfold paginate. rewrite length_firstn, length_skipn. lia. Qed.

Lemma order_by_desc_length {A : Type} (key : A -> Z) (rows : list A) :
  List.length (order_by_desc key rows) = List.length rows.
Proof. apply Permutation_length, order_by_desc_perm. Qed.

(** X24. [search_logs] with dates that parse (or are absent or empty)
    answers with a page of at most [limit] stored events, each passing every
    filter that is set, in decreasing order of timestamp; [total] counts the
    matching events before pagination, so it does not depend on [limit] and
    [offset], and with [offset = 0] and [total <= limit] the page holds every
    matching event.  A date that [fromisoformat] rejects gives status 500. *)
Theorem search_logs_spec (fromisoformat : string -> res instant) (db : Session)
  (source_ip username event_type status start_date end_date : option string)
  (limit offset : nat) :
  (forall since until,
     date_bound fromisoformat start_date = Ok since ->
     date_bound fromisoformat end_date = Ok until ->
     exists page,
       Routes.search_logs fromisoformat db source_ip username event_type status
         start_date end_date limit offset = Success page
       /\ (List.length (logs page) <= limit)%nat
       /\ (forall e, In e (logs page) ->
             In e (log_entries db)
             /\ log_matches source_ip username event_type status since until e)
       /\ sorted_desc LogEntry.timestamp (logs page)
       /\ Z.of_nat (List.length (logs page)) <= total page
          <= Z.of_nat (List.length (log_entries db))
       /\ (forall limit' offset',
             exists page',
               Routes.search_logs fromisoformat db source_ip username event_type
                 status start_date end_date limit' offset' = Success page'
               /\ total page' = total page)
       /\ (offset = 0%nat -> total page <= Z.of_nat limit ->
           Z.of_nat (List.length (logs page)) = total page
           /\ forall e, In e (log_entries db) ->
                log_matches source_ip username event_type status since until e ->
                In e (logs page)))
  /\ ((exists err, date_bound fromisoformat start_date = Raise err)
      \/ (exists err, date_bound fromisoformat end_date = Raise err) ->
      Routes.search_logs fromisoformat db source_ip username event_type status
        start_date end_date limit offset = HTTPException 500).
Proof.
  split.
  - intros since until Hs Hu. unfold Routes.search_logs. cbv zeta.
    fold (date_bound fromisoformat start_date).
    fold (date_bound fromisoformat end_date).
    rewrite Hs, Hu. cbn [bind].
    set (query := filter_until _ _ _).
    assert (Hquery : forall e, In e query
                               <-> In e (log_entries db)
                                   /\ log_matches source_ip username event_type
                                        status since until e).
    { intros e. subst query.
      rewrite filter_until_In, filter_since_In, !filter_if_str_In.
      unfold log_matches. tauto. }
    assert (Hlen : (List.length query <= List.length (log_entries db))%nat).
    { subst query.
      etransitivity; [apply filter_until_length|].
      etransitivity; [apply filter_since_length|].
      do 4 (etransitivity; [apply filter_if_str_length|]). lia. }
    eexists. split; [reflexivity|]. cbn [logs total].
    split; [apply paginate_length|]. split; [|split; [|split; [|split]]].
    + intros e He. apply paginate_In in He. apply order_by_desc_In in He.
      now apply Hquery.
    + apply paginate_sorted, order_by_desc_sorted.
    + pose proof (paginate_length_le offset limit
                    (order_by_desc LogEntry.timestamp query)) as Hp.
      rewrite order_by_desc_length in Hp. lia.
    + intros limit' offset'. eexists. split; reflexivity.
    + intros -> Htotal.
      rewrite paginate_all by (rewrite order_by_desc_length; lia).
      split; [now rewrite order_by_desc_length|].
      intros e Hin Hmatch. apply order_by_desc_In. now apply Hquery.
  - intros Hbad. unfold Routes.search_logs. cbv zeta.
    fold (date_bound fromisoformat start_date).
    fold (date_bound fromisoformat end_date).
    destruct Hbad as [[err Hs]|[err Hu]].
    + now rewrite Hs.
    + rewrite Hu. destruct (date_bound fromisoformat start_date); reflexivity.
Qed.

Lemma search_logs_example :
  let fromisoformat := fun _ : string => Raise ValueError in
  Routes.search_logs fromisoformat Sample.brute_force_session None None None None
    (Some "yesterday") None 100 0
  = HTTPException 500.
Proof.
  intros fromisoformat.
  apply (proj2 (search_logs_spec fromisoformat Sample.brute_force_session None None
                  None None (Some "yesterday") None 100 0)).
  left. exists ValueError. reflexivity.
Defined.

(** X25. [export_alerts] with dates that parse selects exactly the stored
    alerts that pass every filter that is set and lie between the two
    bounds, each as often as it is stored and in decreasing order of
    [triggered_at]; nothing is cut off.  A date that [fromisoformat] rejects
    gives status 500. *)
Theorem export_alerts_spec (fromisoformat : string -> res instant) (db : Session)
  (severity rule_name : option string) (resolved : option bool)
  (start_date end_date : option string) :
  (forall since until,
     date_bound fromisoformat start_date = Ok since ->
     date_bound fromisoformat end_date = Ok until ->
     exists exported,
       Routes.export_alerts fromisoformat db severity rule_name resolved
         start_date end_date = Success exported
       /\ (forall a, In a exported
                     <-> In a (alerts db)
                         /\ alert_matches severity rule_name resolved a
                         /\ (forall t, since = Some t -> t <= Alert.triggered_at a)
                         /\ (forall t, until = Some t -> Alert.triggered_at a <= t))
       /\ sorted_desc Alert.triggered_at exported
       /\ (List.length exported <= List.length (alerts db))%nat
       /\ (truthy_str severity = false -> truthy_str rule_name = false ->
           resolved = None -> since = None -> until = None ->
           Permutation exported (alerts db)))
  /\ ((exists err, date_bound fromisoformat start_date = Raise err)
      \/ (exists err, date_bound fromisoformat end_date = Raise err) ->
      Routes.export_alerts fromisoformat db severity rule_name resolved
        start_date end_date = HTTPException 500).
Proof.
  split.
  - intros since until Hs Hu. unfold Routes.export_alerts. cbv zeta.
    fold (date_bound fromisoformat start_date).
    fold (date_bound fromisoformat end_date).
    rewrite Hs, Hu. cbn [bind].
    eexists. split; [reflexivity|]. split; [|split; [|split]].
    + intros a. rewrite order_by_desc_In, filter_until_In, filter_since_In,
        filter_if_bool_In, !filter_if_str_In.
      unfold alert_matches. tauto.
    + apply order_by_desc_sorted.
    + rewrite order_by_desc_length.
      etransitivity; [apply filter_until_length|].
      etransitivity; [apply filter_since_length|].
      etransitivity; [apply filter_if_bool_length|].
      do 2 (etransitivity; [apply filter_if_str_length|]). lia.
    + intros Hsev Hrule -> -> ->.
      unfold filter_if_str. rewrite Hsev, Hrule. cbn.
      apply order_by_desc_perm.
  - intros Hbad. unfold Routes.export_alerts. cbv zeta.
    fold (date_bound fromisoformat start_date).
    fold (date_bound fromisoformat end_date).
    destruct Hbad as [[err Hs]|[err Hu]].
    + now rewrite Hs.
    + rewrite Hu. destruct (date_bound fromisoformat start_date); reflexivity.
Qed.

Lemma export_alerts_example :
  let fromisoformat := fun _ : string => Raise ValueError in
  exists exported,
    Routes.export_alerts fromisoformat Sample.session_with_alert (Some "Critical")
      None (Some false) (Some "") None = Success exported
    /\ In Sample.open_alert exported.
Proof.
  intros fromisoformat.
  destruct (proj1 (export_alerts_spec fromisoformat Sample.session_with_alert
                     (Some "Critical") None (Some false) (Some "") None)
              None None eq_refl eq_refl) as (exported & Hex & Hin & _).
  exists exported. split; [exact Hex|]. apply Hin.
  split; [now left|]. split; [|split; discriminate].
  unfold alert_matches. split; [reflexivity|]. split; [discriminate|].
  intros v E. now injection E as <-.
Defined.

Lemma count_rows_cons {A : Type} (p : A -> bool) (a : A) (l : list A) :
  count_rows p (a :: l) = (if p a then 1 else 0) + count_rows p l.
Proof.
  unfold count_rows. simpl. destruct (p a); simpl List.length; lia.
Qed.

Lemma unresolved_with_sum (rows : list Alert.t) :
  (forall a, In a rows -> Alert.resolved a = false ->
             In (Alert.severity a) counted_severities) ->
  count_rows (fun a => negb (Alert.resolved a) && String.eqb (Alert.severity a) "Critical")
             rows
  + count_rows (fun a => negb (Alert.resolved a) && String.eqb (Alert.severity a) "High")
               rows
  + count_rows (fun a => negb (Alert.resolved a) && String.eqb (Alert.severity a) "Medium")
               rows
  + count_rows (fun a => negb (Alert.resolved a) && String.eqb (Alert.severity a) "Low")
               rows
  = count_rows (fun a => negb (Alert.resolved a)) rows.
Proof.
  induction rows as [|a rows IH]; intros H; [reflexivity|].
  rewrite !count_rows_cons.
  assert (IH' := IH (fun b Hb => H b (or_intror Hb))). clear IH.
  destruct (Alert.resolved a) eqn:R; cbn [negb andb].
  - lia.
  - destruct (H a (or_introl eq_refl) R) as [E|[E|[E|[E|[]]]]];
      rewrite <- E; cbn [String.eqb Ascii.eqb Bool.eqb andb]; lia.
Qed.

(** X26. The dashboard shows at most [limit] alerts, all of them stored,
    unresolved and of the requested severity when one is given, the most
    recent first, and [total_logs] is the number of stored events.  When
    every unresolved alert has one of the severities Critical, High, Medium
    and Low, [total_alerts] is the number of unresolved alerts, and without a
    severity filter and with a [limit] the table does not exceed the
    dashboard lists as many alerts as it counts. *)
Theorem get_dashboard_stats_spec (db : Session) (severity : option string)
  (limit : nat) :
  let stats := Routes.get_dashboard_stats db severity limit in
  total_logs stats = Z.of_nat (List.length (log_entries db))
  /\ (List.length (recent_alerts stats) <= limit)%nat
  /\ (forall a, In a (recent_alerts stats) ->
        In a (alerts db) /\ Alert.resolved a = false
        /\ (truthy_str severity = true -> Some (Alert.severity a) = severity))
  /\ sorted_desc Alert.triggered_at (recent_alerts stats)
  /\ ((forall a, In a (alerts db) -> Alert.resolved a = false ->
                 In (Alert.severity a) counted_severities) ->
      total_alerts stats
      = Some (count_rows (fun a => negb (Alert.resolved a)) (alerts db))
      /\ (truthy_str severity = false ->
          (List.length (alerts db) <= limit)%nat ->
          total_alerts stats = Some (Z.of_nat (List.length (recent_alerts stats))))).
Proof.
  intros stats. subst stats. unfold Routes.get_dashboard_stats.
  cbn [total_logs recent_alerts total_alerts]. unfold AlertManager.get_alerts.
  split; [reflexivity|]. split; [apply paginate_length|].
  split; [|split].
  - intros a Ha. apply paginate_In in Ha. apply order_by_desc_In in Ha.
    apply filter_if_bool_In in Ha. destruct Ha as [Ha Hres].
    apply filter_if_str_In in Ha. destruct Ha as [Ha _].
    apply filter_if_str_In in Ha. destruct Ha as [Ha Hsev].
    split; [assumption|]. split; [now apply Hres | assumption].
  - apply paginate_sorted, order_by_desc_sorted.
  - intros Hfour.
    destruct (get_alert_statistics_form db) as (t' & -> & Ht).
    assert (Htotal : t' = count_rows (fun a => negb (Alert.resolved a)) (alerts db)).
    { rewrite Ht.
      - apply unresolved_with_sum, Hfour.
      - intros a Hin Hres E. specialize (Hfour a Hin Hres). rewrite E in Hfour.
        destruct Hfour as [F|[F|[F|[F|[]]]]]; discriminate F. }
    subst t'. split; [reflexivity|].
    intros Hsev Hlimit. cbn [counter_get stats_form String.eqb Ascii.eqb Bool.eqb].
    f_equal. unfold filter_if_str at 2. rewrite Hsev.
    cbn [filter_if_str truthy_str filter_if_bool].
    rewrite paginate_all.
    + rewrite order_by_desc_length. unfold count_rows. do 2 f_equal.
    + rewrite order_by_desc_length.
      etransitivity; [apply filter_length_le | exact Hlimit].
Qed.

Lemma get_dashboard_stats_example :
  total_alerts (Routes.get_dashboard_stats Sample.session_with_alert None 50) = Some 1.
Proof.
  pose proof (get_dashboard_stats_spec Sample.session_with_alert None 50) as H.
  cbv zeta in H. destruct H as (_ & _ & _ & _ & Htotal).
  destruct Htotal as [Ht _]; [|exact Ht].
  intros a [<-|[]] _. now left.
Defined.

(* ================================================================== *)
(** ** Routes: bulk ingestion and analyst notes *)

Lemma bulk_lines_length (pw : ParserWorld) (oracle : Oracle) (logs : list LogData) :
  forall k, List.length (Routes.bulk_lines pw oracle logs k) = List.length logs.
Proof.
  induction logs as [|log logs IH]; intros k; simpl; [reflexivity|].
  now rewrite IH.
Qed.

(** X27. The bulk route writes one line per log of the request and hands
    the lines to [ingest_logs_from_text]: a successful answer appended at
    most one event per log, numbered after the stored ones, each with
    lowercase tokens (whatever the case of the request) and no source file,
    and reports the numbers of appended events and alerts; the only error
    status is 500, and then the ingestion raised. *)
Theorem ingest_bulk_logs_spec (settings : Settings) (pw : ParserWorld)
  (world : GeoWorld) (libm : Libm) (oracle : Oracle) (logs : list LogData)
  (db : Session) :
  (forall db' result,
     Routes.ingest_bulk_logs settings pw world libm oracle logs db
     = Success (db', result) ->
     exists new_entries new_alerts,
       ingested_into db db' new_entries new_alerts
       /\ ingested result = Z.of_nat (List.length new_entries)
       /\ alerts_generated result = Z.of_nat (List.length new_alerts)
       /\ (List.length new_entries <= List.length logs)%nat
       /\ Forall lowercase_tokens new_entries
       /\ Forall (fun e => LogEntry.source_file e = None) new_entries)
  /\ (forall status_code,
        Routes.ingest_bulk_logs settings pw world libm oracle logs db
        = HTTPException status_code ->
        status_code = 500
        /\ exists err,
             IngestionService.ingest_logs_from_text settings pw world libm oracle
               (Routes.bulk_lines pw oracle logs 0) None db = Raise err).
Proof.
  unfold Routes.ingest_bulk_logs. cbv zeta.
  destruct (IngestionService.ingest_logs_from_text settings pw world libm oracle
              (Routes.bulk_lines pw oracle logs 0) None db)
    as [[db1 result1]|err] eqn:E.
  - split; [|discriminate].
    intros db' result H. injection H as <- <-.
    unfold IngestionService.ingest_logs_from_text in E.
    destruct (ingest_lines_grows _ _ _ _ _ _ _ _ _ _ _ _ E)
      as (es & als & (Hinto & _ & Hlow & Hfile) & Hi & Ha & Hlen).
    rewrite bulk_lines_length in Hlen. cbn [ingested alerts_generated] in Hi, Ha.
    exists es, als. conjs; assumption.
  - split; [discriminate|].
    intros status_code H. injection H as <-. split; [reflexivity | now exists err].
Qed.

Lemma ingest_bulk_logs_example :
  let pw := {| pattern_search := fun _ _ => None;
               ip_search := fun _ => Some "203.0.113.7";
               dt_fromisoformat := fun _ => None;
               py_float := fun _ => None;
               dt_fromtimestamp := fun _ => Raise ValueError;
               dt_strptime := fun _ _ => None;
               isoformat := fun _ => "" |} in
  exists db' result new_entries,
    Routes.ingest_bulk_logs default_settings pw Sample.world Sample.libm Sample.oracle
      [Sample.upper_case_request] Sample.empty_session = Success (db', result)
    /\ log_entries db' = new_entries
    /\ Forall lowercase_tokens new_entries.
Proof.
  intros pw.
  destruct (Routes.ingest_bulk_logs default_settings pw Sample.world Sample.libm
              Sample.oracle [Sample.upper_case_request] Sample.empty_session)
    as [[db' result]|status_code] eqn:E.
  - exists db', result.
    destruct (proj1 (ingest_bulk_logs_spec default_settings pw Sample.world Sample.libm
                       Sample.oracle [Sample.upper_case_request] Sample.empty_session)
                db' result E)
      as (es & als & (He & _) & _ & _ & _ & Hlow & _).
    exists es. split; [reflexivity|]. split; [exact He | exact Hlow].
  - vm_compute in E. discriminate E.
Defined.

(** X28. [update_alert_notes] answers 404 and leaves the database as it
    is when no alert carries the identifier.  Otherwise it rewrites the
    notes of the first alert with that identifier and nothing else: the
    events, the other alerts and the other fields of the alert stay, and
    [get_alert_detail] then shows the alert with the new notes and the same
    related log entry as before. *)
Theorem update_alert_notes_spec (alert_id notes : string) (db : Session) :
  let done := Routes.update_alert_notes alert_id notes db in
  (AlertManager.find_alert alert_id db = None -> done = (db, HTTPException 404))
  /\ (forall a, AlertManager.find_alert alert_id db = Some a ->
        snd done = Success tt
        /\ log_entries (fst done) = log_entries db
        /\ (exists pre post,
              alerts db = (pre ++ a :: post)%list
              /\ alerts (fst done) = (pre ++ Routes.set_notes notes a :: post)%list)
        /\ (exists related,
              Routes.get_alert_detail alert_id db
              = Success {| detail_alert := a; detail_log_entry := related |}
              /\ Routes.get_alert_detail alert_id (fst done)
                 = Success {| detail_alert := Routes.set_notes notes a;
                              detail_log_entry := related |})).
Proof.
  intros done. subst done. unfold Routes.update_alert_notes. split.
  - intros ->. reflexivity.
  - intros a Hfind. rewrite Hfind. cbn [fst snd log_entries alerts].
    split; [reflexivity|]. split; [reflexivity|]. split.
    + rewrite find_alert_session in Hfind.
      destruct (update_first_split alert_id (Routes.set_notes notes) _ _ _ Hfind)
        as (pre & post & Hrows & _ & _ & Hupd).
      now exists pre, post.
    + unfold Routes.get_alert_detail.
      rewrite (find_update_first alert_id (Routes.set_notes notes)
                 (fun _ => eq_refl)).
      rewrite <- find_alert_session, Hfind. cbn [option_map log_entries].
      eexists. split; reflexivity.
Qed.

Lemma update_alert_notes_example :
  exists related,
    Routes.get_alert_detail (Alert.alert_id Sample.open_alert)
      (fst (Routes.update_alert_notes (Alert.alert_id Sample.open_alert)
              "false positive" Sample.session_with_alert))
    = Success {| detail_alert := Routes.set_notes "false positive" Sample.open_alert;
                 detail_log_entry := related |}.
Proof.
  pose proof (update_alert_notes_spec (Alert.alert_id Sample.open_alert)
                "false positive" Sample.session_with_alert) as H.
  cbv zeta in H. destruct H as [_ H].
  destruct (H Sample.open_alert eq_refl) as (_ & _ & _ & related & _ & Hdetail).
  now exists related.
Defined.

Lemma blacklist_check_example :
  exists r,
    BlacklistIPDetectionRule.check default_settings
      (Sample.login 1 Sample.t_12_00 "10.0.0.100" "mallory" "failed" None None)
      Sample.empty_session = Ok (Some r).
Proof.
  apply (proj2 (blacklist_check_spec default_settings
                  (Sample.login 1 Sample.t_12_00 "10.0.0.100" "mallory" "failed"
                     None None)
                  Sample.empty_session)).
  split; [discriminate|]. split.
  - exists "10.0.0.100". split; [now left | reflexivity].
  - intros (a & [] & _).
Defined.

(* ================================================================== *)
(** ** Timestamps (helpers.py) *)

Lemma is_ValueError_or_OSError_false (e : exn) :
  is_ValueError_or_OSError e = false <-> e <> ValueError /\ e <> OSError.
Proof.
  unfold OSError. destruct e as [| | |name]; simpl.
  - split; [discriminate | intros [H _]; now contradiction H].
  - split; [intros _; split; discriminate | reflexivity].
  - split; [intros _; split; discriminate | reflexivity].
  - rewrite String.eqb_neq. split.
    + intros H. split; [discriminate | congruence].
    + intros [_ H] E. apply H. now rewrite E.
Qed.

(** X30. [parse_timestamp] returns [None] on the empty string and the
    reading of [datetime.fromisoformat] whenever that accepts the string
    (with Z replaced by +00:00).  It raises exactly when the string is not
    empty, is no ISO date, is read by [float] and [datetime.fromtimestamp]
    raises on that number an exception other than [ValueError] and
    [OSError] (the [OverflowError] of 1e20, say): that exception leaves the
    function. *)
Theorem parse_timestamp_spec (pw : ParserWorld) (timestamp_str : string) :
  parse_timestamp pw "" = Ok None
  /\ (forall t,
        timestamp_str <> "" ->
        dt_fromisoformat pw (replace_Z timestamp_str) = Some t ->
        parse_timestamp pw timestamp_str = Ok (Some t))
  /\ (forall err,
        parse_timestamp pw timestamp_str = Raise err
        <-> timestamp_str <> ""
            /\ dt_fromisoformat pw (replace_Z timestamp_str) = None
            /\ exists timestamp_float,
                 py_float pw timestamp_str = Some timestamp_float
                 /\ dt_fromtimestamp pw timestamp_float = Raise err
                 /\ err <> ValueError /\ err <> OSError).
Proof.
  split; [reflexivity|]. split.
  - intros t Hne Hiso. unfold parse_timestamp.
    destruct (String.eqb_spec timestamp_str ""); [contradiction|].
    now rewrite Hiso.
  - intros err. unfold parse_timestamp.
    destruct (String.eqb_spec timestamp_str "") as [Hempty|Hne].
    { split; [discriminate | intros [H _]; contradiction]. }
    destruct (dt_fromisoformat pw (replace_Z timestamp_str)) as [t|].
    { split; [discriminate | intros (_ & H & _); discriminate]. }
    destruct (py_float pw timestamp_str) as [x|].
    2: { split; [discriminate | intros (_ & _ & y & H & _); discriminate]. }
    destruct (dt_fromtimestamp pw x) as [t|e] eqn:Hfrom.
    { split; [discriminate|].
      intros (_ & _ & y & Hy & Hraise & _). injection Hy as <-.
      rewrite Hfrom in Hraise. discriminate. }
    destruct (is_ValueError_or_OSError e) eqn:Hcaught.
    + split; [discriminate|].
      intros (_ & _ & y & Hy & Hraise & Hv & Ho). injection Hy as <-.
      rewrite Hfrom in Hraise. injection Hraise as ->.
      assert (Hfalse : is_ValueError_or_OSError err = false)
        by now apply is_ValueError_or_OSError_false.
      congruence.
    + apply is_ValueError_or_OSError_false in Hcaught. split.
      * intros H. injection H as <-. split; [assumption|]. split; [reflexivity|].
        exists x. split; [reflexivity|]. split; [exact Hfrom | exact Hcaught].
      * intros (_ & _ & y & Hy & Hraise & _). injection Hy as <-.
        rewrite Hfrom in Hraise. injection Hraise as ->. reflexivity.
Qed.

Lemma parse_timestamp_example :
  let pw := {| pattern_search := fun _ _ => None;
               ip_search := fun _ => None;
               dt_fromisoformat := fun _ => None;
               py_float := fun s => if String.eqb s "1e20"
                                    then Some 0x1.5af1d78b58c4p+66%float else None;
               dt_fromtimestamp := fun _ => Raise OverflowError;
               dt_strptime := fun _ _ => None;
               isoformat := fun _ => "" |} in
  parse_timestamp pw "1e20" = Raise OverflowError.
Proof.
  intros pw.
  apply (proj2 (proj2 (parse_timestamp_spec pw "1e20")) OverflowError).
  split; [discriminate|]. split; [reflexivity|].
  exists 0x1.5af1d78b58c4p+66%float.
  split; [reflexivity|]. split; [reflexivity|]. split; discriminate.
Defined.
